(** * LibreSprite MCP: script templates and their behaviour on a scripting host

    The Python class [ScriptTemplates] (src/libresprite_mcp/script_templates.py)
    renders JavaScript sources that the server forwards to a running
    LibreSprite instance.  This development has three layers:

    - [ScriptTemplates]: the Python generators, as functions to [string];
    - [Host]: the scripting objects the JavaScript sources talk to
      ([app.activeSprite], [app.activeImage], [app.pixelColor],
      [app.command], [console]);
    - [Script]: the JavaScript bodies that the generators emit, translated
      statement by statement into functions on the host state.

    Numbers are integers ([Z]): the generators receive Python [int]s and the
    emitted sources only add, subtract, multiply and compare them, except for
    [thickness/2] (kept as a rational) and the square root / division tests of
    the circle and ellipse sources (kept as host parameters). *)

From Stdlib Require Import ZArith String Ascii List Lia DecimalString QArith Qround Qabs.
From stdpp Require Import base list gmap.

Local Open Scope Z_scope.

(** ** Text helpers *)

(** The double quote character, [chr(34)]. *)
Definition dq : string := String "034"%char EmptyString.

(** Line feed, [chr(10)]. *)
Definition nl : string := String "010"%char EmptyString.

(** Python [str(n)] for an [int], and JavaScript number-to-string for an
    integer: optional minus sign and decimal digits. *)
Definition str_int (z : Z) : string := NilZero.string_of_int (Z.to_int z).

(** Python [str(b)] for a [bool]. *)
Definition str_bool (b : bool) : string :=
  if b then "True"%string else "False"%string.

Definition upper_ascii (c : ascii) : ascii :=
  let n := nat_of_ascii c in
  if (97 <=? n)%nat && (n <=? 122)%nat then ascii_of_nat (n - 32) else c.

Definition lower_ascii (c : ascii) : ascii :=
  let n := nat_of_ascii c in
  if (65 <=? n)%nat && (n <=? 90)%nat then ascii_of_nat (n + 32) else c.

Fixpoint map_string (f : ascii -> ascii) (s : string) : string :=
  match s with
  | EmptyString => EmptyString
  | String c s' => String (f c) (map_string f s')
  end.

(** Python [s.upper()] and [s.lower()] on the ASCII letters. *)
Definition upper (s : string) : string := map_string upper_ascii s.
Definition lower (s : string) : string := map_string lower_ascii s.

(** The lines of a triple-quoted template, joined by line feeds. *)
Fixpoint lines (ls : list string) : string :=
  match ls with
  | [] => EmptyString
  | [l] => l
  | l :: rest => (l ++ nl ++ lines rest)%string
  end.


(** ** Free text in a script

    A layer name is pasted between quotes and a colour mode after
    [ColorMode.]; the scripts are the programs the templates show only for
    text that stays inside its literal, or that is an identifier. *)

(** Characters that end or escape a string literal. *)
Definition literal_breaking (c : ascii) : bool :=
  Ascii.eqb c "034"%char || Ascii.eqb c "039"%char || Ascii.eqb c "\"%char
  || Ascii.eqb c "010"%char || Ascii.eqb c "013"%char.

Fixpoint plain (s : string) : bool :=
  match s with
  | EmptyString => true
  | String c s' => negb (literal_breaking c) && plain s'
  end.

(** JavaScript identifier names over ASCII: a letter, [_] or [$], then
    letters, digits, [_] or [$]. *)
Definition identifier_start (c : ascii) : bool :=
  let n := nat_of_ascii c in
  ((65 <=? n)%nat && (n <=? 90)%nat) || ((97 <=? n)%nat && (n <=? 122)%nat)
  || (n =? 95)%nat || (n =? 36)%nat.

Definition identifier_part (c : ascii) : bool :=
  let n := nat_of_ascii c in
  identifier_start c || ((48 <=? n)%nat && (n <=? 57)%nat).

Fixpoint all_chars (f : ascii -> bool) (s : string) : bool :=
  match s with
  | EmptyString => true
  | String c s' => f c && all_chars f s'
  end.

Definition identifier (s : string) : bool :=
  match s with
  | EmptyString => false
  | String c s' => identifier_start c && all_chars identifier_part s'
  end.

(** ** The generators *)

Module ScriptTemplates.
Local Open Scope string_scope.

Definition create_sprite (width : Z) (height : Z) (color_mode : string) : string :=
  lines
    [ ""
    ; "try {"
    ; "    // Use the NewFile command to create a new sprite"
    ; "    app.command.setParameter(" ++ dq ++ "width" ++ dq ++ ", " ++ str_int width ++ ");"
    ; "    app.command.setParameter(" ++ dq ++ "height" ++ dq ++ ", " ++ str_int height ++ ");"
    ; "    app.command.setParameter(" ++ dq ++ "colorMode" ++ dq ++ ", ColorMode." ++ upper color_mode ++ ");"
    ; "    app.command.NewFile();"
    ; "    app.command.clearParameters();"
    ; "    "
    ; "    const sprite = app.activeSprite;"
    ; "    if (sprite) {"
    ; "        console.log('Created new sprite: ' + sprite.width + 'x' + sprite.height + ' (' + sprite.colorMode + ')');"
    ; "        console.log('Active sprite now has ' + sprite.layerCount + ' layer(s)');"
    ; "    } else {"
    ; "        console.log('Failed to create sprite');"
    ; "    }"
    ; "} catch (e) {"
    ; "    console.log('Error creating sprite: ' + e.message);"
    ; "}"
    ; ""
    ].

Definition create_layer (name : string) : string :=
  lines
    [ ""
    ; "try {"
    ; "    const sprite = app.activeSprite;"
    ; "    if (!sprite) {"
    ; "        console.log('No active sprite');"
    ; "    } else {"
    ; "        // Use the NewLayer command to create a new layer"
    ; "        app.command.setParameter(" ++ dq ++ "name" ++ dq ++ ", " ++ dq ++ name ++ dq ++ ");"
    ; "        app.command.NewLayer();"
    ; "        app.command.clearParameters();"
    ; "        "
    ; "        console.log('Created new layer: " ++ name ++ "');"
    ; "        console.log('Sprite now has ' + sprite.layerCount + ' layer(s)');"
    ; "    }"
    ; "} catch (e) {"
    ; "    console.log('Error creating layer: ' + e.message);"
    ; "}"
    ; ""
    ].

Definition fill_layer (r : Z) (g : Z) (b : Z) (a : Z) : string :=
  lines
    [ ""
    ; "try {"
    ; "    const sprite = app.activeSprite;"
    ; "    if (!sprite) {"
    ; "        console.log('No active sprite');"
    ; "    } else {"
    ; "        const img = app.activeImage;"
    ; "        if (!img) {"
    ; "            console.log('No active image');"
    ; "        } else {"
    ; "            const col = app.pixelColor;"
    ; "            const fillColor = col.rgba(" ++ str_int r ++ ", " ++ str_int g ++ ", " ++ str_int b ++ ", " ++ str_int a ++ ");"
    ; "            "
    ; "            // Clear the image with the specified color"
    ; "            img.clear(fillColor);"
    ; "            "
    ; "            console.log('Filled active layer with color rgba(' + " ++ str_int r ++ " + ',' + " ++ str_int g ++ " + ',' + " ++ str_int b ++ " + ',' + " ++ str_int a ++ " + ')');"
    ; "        }"
    ; "    }"
    ; "} catch (e) {"
    ; "    console.log('Error filling layer: ' + e.message);"
    ; "}"
    ; ""
    ].

Definition draw_circle (cx : Z) (cy : Z) (radius : Z) (r : Z) (g : Z) (b : Z) (a : Z) (filled : bool) : string :=
  lines
    [ ""
    ; "try {"
    ; "    const sprite = app.activeSprite;"
    ; "    if (!sprite) {"
    ; "        console.log('No active sprite');"
    ; "    } else {"
    ; "        const img = app.activeImage;"
    ; "        if (!img) {"
    ; "            console.log('No active image');"
    ; "        } else {"
    ; "            const col = app.pixelColor;"
    ; "            const circleColor = col.rgba(" ++ str_int r ++ ", " ++ str_int g ++ ", " ++ str_int b ++ ", " ++ str_int a ++ ");"
    ; "            "
    ; "            const cx = " ++ str_int cx ++ ";"
    ; "            const cy = " ++ str_int cy ++ ";"
    ; "            const radius = " ++ str_int radius ++ ";"
    ; "            const filled = " ++ lower (str_bool filled) ++ ";"
    ; "            "
    ; "            for (let y = cy - radius; y <= cy + radius; y++) {"
    ; "                for (let x = cx - radius; x <= cx + radius; x++) {"
    ; "                    if (x >= 0 && x < img.width && y >= 0 && y < img.height) {"
    ; "                        const dx = x - cx;"
    ; "                        const dy = y - cy;"
    ; "                        const distance = Math.sqrt(dx * dx + dy * dy);"
    ; "                        "
    ; "                        if (filled ? distance <= radius : Math.abs(distance - radius) < 1) {"
    ; "                            img.putPixel(x, y, circleColor);"
    ; "                        }"
    ; "                    }"
    ; "                }"
    ; "            }"
    ; "            "
    ; "            console.log('Drew ' + (filled ? 'filled' : 'outlined') + ' circle at (' + cx + ',' + cy + ') radius ' + radius);"
    ; "        }"
    ; "    }"
    ; "} catch (e) {"
    ; "    console.log('Error drawing circle: ' + e.message);"
    ; "}"
    ; ""
    ].

Definition get_sprite_info : string :=
  lines
    [ ""
    ; "try {"
    ; "    const sprite = app.activeSprite;"
    ; "    if (!sprite) {"
    ; "        console.log('No active sprite');"
    ; "    } else {"
    ; "        console.log('=== SPRITE INFO ===');"
    ; "        console.log('Dimensions: ' + sprite.width + 'x' + sprite.height);"
    ; "        console.log('Color Mode: ' + sprite.colorMode);"
    ; "        console.log('Layer Count: ' + sprite.layerCount);"
    ; "        console.log('Current Layer: ' + app.activeLayerNumber);"
    ; "        console.log('Current Frame: ' + app.activeFrameNumber);"
    ; "        "
    ; "        console.log('--- LAYER DETAILS ---');"
    ; "        for (let i = 0; i < sprite.layerCount; i++) {"
    ; "            const layer = sprite.layer(i);"
    ; "            if (layer) {"
    ; "                console.log('Layer ' + i + ': " ++ dq ++ "' + layer.name + '" ++ dq ++ " (visible: ' + layer.isVisible + ', editable: ' + layer.isEditable + ')');"
    ; "            }"
    ; "        }"
    ; "    }"
    ; "} catch (e) {"
    ; "    console.log('Error getting sprite info: ' + e.message);"
    ; "}"
    ; ""
    ].

Definition draw_rectangle (x : Z) (y : Z) (width : Z) (height : Z) (r : Z) (g : Z) (b : Z) (a : Z) (filled : bool) : string :=
  lines
    [ ""
    ; "try {"
    ; "    const sprite = app.activeSprite;"
    ; "    if (!sprite) {"
    ; "        console.log('No active sprite');"
    ; "    } else {"
    ; "        const img = app.activeImage;"
    ; "        if (!img) {"
    ; "            console.log('No active image');"
    ; "        } else {"
    ; "            const col = app.pixelColor;"
    ; "            const rectColor = col.rgba(" ++ str_int r ++ ", " ++ str_int g ++ ", " ++ str_int b ++ ", " ++ str_int a ++ ");"
    ; "            "
    ; "            const x = " ++ str_int x ++ ";"
    ; "            const y = " ++ str_int y ++ ";"
    ; "            const width = " ++ str_int width ++ ";"
    ; "            const height = " ++ str_int height ++ ";"
    ; "            const filled = " ++ lower (str_bool filled) ++ ";"
    ; "            "
    ; "            if (filled) {"
    ; "                // Fill the rectangle"
    ; "                for (let py = y; py < y + height; py++) {"
    ; "                    for (let px = x; px < x + width; px++) {"
    ; "                        if (px >= 0 && px < img.width && py >= 0 && py < img.height) {"
    ; "                            img.putPixel(px, py, rectColor);"
    ; "                        }"
    ; "                    }"
    ; "                }"
    ; "            } else {"
    ; "                // Draw rectangle outline"
    ; "                // Top and bottom edges"
    ; "                for (let px = x; px < x + width; px++) {"
    ; "                    if (px >= 0 && px < img.width) {"
    ; "                        if (y >= 0 && y < img.height) img.putPixel(px, y, rectColor);"
    ; "                        if (y + height - 1 >= 0 && y + height - 1 < img.height) img.putPixel(px, y + height - 1, rectColor);"
    ; "                    }"
    ; "                }"
    ; "                // Left and right edges"
    ; "                for (let py = y; py < y + height; py++) {"
    ; "                    if (py >= 0 && py < img.height) {"
    ; "                        if (x >= 0 && x < img.width) img.putPixel(x, py, rectColor);"
    ; "                        if (x + width - 1 >= 0 && x + width - 1 < img.width) img.putPixel(x + width - 1, py, rectColor);"
    ; "                    }"
    ; "                }"
    ; "            }"
    ; "            "
    ; "            console.log('Drew ' + (filled ? 'filled' : 'outlined') + ' rectangle at (' + x + ',' + y + ') size ' + width + 'x' + height);"
    ; "        }"
    ; "    }"
    ; "} catch (e) {"
    ; "    console.log('Error drawing rectangle: ' + e.message);"
    ; "}"
    ; ""
    ].

Definition draw_line (x1 : Z) (y1 : Z) (x2 : Z) (y2 : Z) (r : Z) (g : Z) (b : Z) (a : Z) (thickness : Z) : string :=
  lines
    [ ""
    ; "try {"
    ; "    const sprite = app.activeSprite;"
    ; "    if (!sprite) {"
    ; "        console.log('No active sprite');"
    ; "    } else {"
    ; "        const img = app.activeImage;"
    ; "        if (!img) {"
    ; "            console.log('No active image');"
    ; "        } else {"
    ; "            const col = app.pixelColor;"
    ; "            const lineColor = col.rgba(" ++ str_int r ++ ", " ++ str_int g ++ ", " ++ str_int b ++ ", " ++ str_int a ++ ");"
    ; "            "
    ; "            const x1 = " ++ str_int x1 ++ ";"
    ; "            const y1 = " ++ str_int y1 ++ ";"
    ; "            const x2 = " ++ str_int x2 ++ ";"
    ; "            const y2 = " ++ str_int y2 ++ ";"
    ; "            const thickness = " ++ str_int thickness ++ ";"
    ; "            "
    ; "            // Bresenham's line algorithm"
    ; "            const dx = Math.abs(x2 - x1);"
    ; "            const dy = Math.abs(y2 - y1);"
    ; "            const sx = x1 < x2 ? 1 : -1;"
    ; "            const sy = y1 < y2 ? 1 : -1;"
    ; "            let err = dx - dy;"
    ; "            "
    ; "            let x = x1;"
    ; "            let y = y1;"
    ; "            "
    ; "            while (true) {"
    ; "                // Draw thick line by drawing a circle at each point"
    ; "                for (let ty = -Math.floor(thickness/2); ty <= Math.floor(thickness/2); ty++) {"
    ; "                    for (let tx = -Math.floor(thickness/2); tx <= Math.floor(thickness/2); tx++) {"
    ; "                        const px = x + tx;"
    ; "                        const py = y + ty;"
    ; "                        if (px >= 0 && px < img.width && py >= 0 && py < img.height) {"
    ; "                            if (thickness === 1 || (tx * tx + ty * ty <= (thickness/2) * (thickness/2))) {"
    ; "                                img.putPixel(px, py, lineColor);"
    ; "                            }"
    ; "                        }"
    ; "                    }"
    ; "                }"
    ; "                "
    ; "                if (x === x2 && y === y2) break;"
    ; "                "
    ; "                const e2 = 2 * err;"
    ; "                if (e2 > -dy) {"
    ; "                    err -= dy;"
    ; "                    x += sx;"
    ; "                }"
    ; "                if (e2 < dx) {"
    ; "                    err += dx;"
    ; "                    y += sy;"
    ; "                }"
    ; "            }"
    ; "            "
    ; "            console.log('Drew line from (' + x1 + ',' + y1 + ') to (' + x2 + ',' + y2 + ') thickness ' + thickness);"
    ; "        }"
    ; "    }"
    ; "} catch (e) {"
    ; "    console.log('Error drawing line: ' + e.message);"
    ; "}"
    ; ""
    ].

Definition draw_ellipse (cx : Z) (cy : Z) (width : Z) (height : Z) (r : Z) (g : Z) (b : Z) (a : Z) (filled : bool) : string :=
  lines
    [ ""
    ; "try {"
    ; "    const sprite = app.activeSprite;"
    ; "    if (!sprite) {"
    ; "        console.log('No active sprite');"
    ; "    } else {"
    ; "        const img = app.activeImage;"
    ; "        if (!img) {"
    ; "            console.log('No active image');"
    ; "        } else {"
    ; "            const col = app.pixelColor;"
    ; "            const ellipseColor = col.rgba(" ++ str_int r ++ ", " ++ str_int g ++ ", " ++ str_int b ++ ", " ++ str_int a ++ ");"
    ; "            "
    ; "            const cx = " ++ str_int cx ++ ";"
    ; "            const cy = " ++ str_int cy ++ ";"
    ; "            const width = " ++ str_int width ++ ";"
    ; "            const height = " ++ str_int height ++ ";"
    ; "            const filled = " ++ lower (str_bool filled) ++ ";"
    ; "            "
    ; "            const a = width / 2;"
    ; "            const b = height / 2;"
    ; "            "
    ; "            for (let y = cy - Math.ceil(b); y <= cy + Math.ceil(b); y++) {"
    ; "                for (let x = cx - Math.ceil(a); x <= cx + Math.ceil(a); x++) {"
    ; "                    if (x >= 0 && x < img.width && y >= 0 && y < img.height) {"
    ; "                        const dx = x - cx;"
    ; "                        const dy = y - cy;"
    ; "                        const ellipseEq = (dx * dx) / (a * a) + (dy * dy) / (b * b);"
    ; "                        "
    ; "                        if (filled) {"
    ; "                            if (ellipseEq <= 1) {"
    ; "                                img.putPixel(x, y, ellipseColor);"
    ; "                            }"
    ; "                        } else {"
    ; "                            // Draw outline - check if point is close to ellipse edge"
    ; "                            if (Math.abs(ellipseEq - 1) < 0.1) {"
    ; "                                img.putPixel(x, y, ellipseColor);"
    ; "                            }"
    ; "                        }"
    ; "                    }"
    ; "                }"
    ; "            }"
    ; "            "
    ; "            console.log('Drew ' + (filled ? 'filled' : 'outlined') + ' ellipse at (' + cx + ',' + cy + ') size ' + width + 'x' + height);"
    ; "        }"
    ; "    }"
    ; "} catch (e) {"
    ; "    console.log('Error drawing ellipse: ' + e.message);"
    ; "}"
    ; ""
    ].

Definition put_pixel (x : Z) (y : Z) (r : Z) (g : Z) (b : Z) (a : Z) : string :=
  lines
    [ ""
    ; "try {"
    ; "    const sprite = app.activeSprite;"
    ; "    if (!sprite) {"
    ; "        console.log('No active sprite');"
    ; "    } else {"
    ; "        const img = app.activeImage;"
    ; "        if (!img) {"
    ; "            console.log('No active image');"
    ; "        } else {"
    ; "            const x = " ++ str_int x ++ ";"
    ; "            const y = " ++ str_int y ++ ";"
    ; "            "
    ; "            if (x >= 0 && x < img.width && y >= 0 && y < img.height) {"
    ; "                const col = app.pixelColor;"
    ; "                const pixelColor = col.rgba(" ++ str_int r ++ ", " ++ str_int g ++ ", " ++ str_int b ++ ", " ++ str_int a ++ ");"
    ; "                img.putPixel(x, y, pixelColor);"
    ; "                console.log('Set pixel at (' + x + ',' + y + ') to rgba(' + " ++ str_int r ++ " + ',' + " ++ str_int g ++ " + ',' + " ++ str_int b ++ " + ',' + " ++ str_int a ++ " + ')');"
    ; "            } else {"
    ; "                console.log('Pixel coordinates (' + x + ',' + y + ') are out of bounds');"
    ; "            }"
    ; "        }"
    ; "    }"
    ; "} catch (e) {"
    ; "    console.log('Error setting pixel: ' + e.message);"
    ; "}"
    ; ""
    ].

Definition flood_fill (x : Z) (y : Z) (r : Z) (g : Z) (b : Z) (a : Z) : string :=
  lines
    [ ""
    ; "try {"
    ; "    const sprite = app.activeSprite;"
    ; "    if (!sprite) {"
    ; "        console.log('No active sprite');"
    ; "    } else {"
    ; "        const img = app.activeImage;"
    ; "        if (!img) {"
    ; "            console.log('No active image');"
    ; "        } else {"
    ; "            const startX = " ++ str_int x ++ ";"
    ; "            const startY = " ++ str_int y ++ ";"
    ; "            "
    ; "            if (startX >= 0 && startX < img.width && startY >= 0 && startY < img.height) {"
    ; "                const col = app.pixelColor;"
    ; "                const fillColor = col.rgba(" ++ str_int r ++ ", " ++ str_int g ++ ", " ++ str_int b ++ ", " ++ str_int a ++ ");"
    ; "                const targetColor = img.getPixel(startX, startY);"
    ; "                "
    ; "                if (targetColor === fillColor) {"
    ; "                    console.log('Target color is the same as fill color, no action needed');"
    ; "                    return;"
    ; "                }"
    ; "                "
    ; "                const stack = [[startX, startY]];"
    ; "                let fillCount = 0;"
    ; "                "
    ; "                while (stack.length > 0) {"
    ; "                    const [x, y] = stack.pop();"
    ; "                    "
    ; "                    if (x < 0 || x >= img.width || y < 0 || y >= img.height) continue;"
    ; "                    if (img.getPixel(x, y) !== targetColor) continue;"
    ; "                    "
    ; "                    img.putPixel(x, y, fillColor);"
    ; "                    fillCount++;"
    ; "                    "
    ; "                    stack.push([x + 1, y]);"
    ; "                    stack.push([x - 1, y]);"
    ; "                    stack.push([x, y + 1]);"
    ; "                    stack.push([x, y - 1]);"
    ; "                }"
    ; "                "
    ; "                console.log('Flood fill completed at (' + startX + ',' + startY + '), filled ' + fillCount + ' pixels');"
    ; "            } else {"
    ; "                console.log('Start coordinates (' + startX + ',' + startY + ') are out of bounds');"
    ; "            }"
    ; "        }"
    ; "    }"
    ; "} catch (e) {"
    ; "    console.log('Error flood filling: ' + e.message);"
    ; "}"
    ; ""
    ].

Definition set_active_layer (layer_number : Z) : string :=
  lines
    [ ""
    ; "try {"
    ; "    const sprite = app.activeSprite;"
    ; "    if (!sprite) {"
    ; "        console.log('No active sprite');"
    ; "    } else {"
    ; "        const layerNumber = " ++ str_int layer_number ++ ";"
    ; "        "
    ; "        if (layerNumber >= 0 && layerNumber < sprite.layerCount) {"
    ; "            // Use the GotoLayer command - this might not exist, so we'll use a workaround"
    ; "            // Since there's no direct layer switching in the API, we'll document the current layer"
    ; "            const layer = sprite.layer(layerNumber);"
    ; "            if (layer) {"
    ; "                console.log('Switching to layer ' + layerNumber + ': " ++ dq ++ "' + layer.name + '" ++ dq ++ "');"
    ; "                console.log('Note: Layer switching via script may be limited. Use UI to switch layers.');"
    ; "                console.log('Current active layer: ' + app.activeLayerNumber);"
    ; "            } else {"
    ; "                console.log('Layer ' + layerNumber + ' not found');"
    ; "            }"
    ; "        } else {"
    ; "            console.log('Layer number ' + layerNumber + ' is out of range (0-' + (sprite.layerCount - 1) + ')');"
    ; "        }"
    ; "    }"
    ; "} catch (e) {"
    ; "    console.log('Error switching layer: ' + e.message);"
    ; "}"
    ; ""
    ].

Definition delete_layer (layer_number : Z) : string :=
  lines
    [ ""
    ; "try {"
    ; "    const sprite = app.activeSprite;"
    ; "    if (!sprite) {"
    ; "        console.log('No active sprite');"
    ; "    } else {"
    ; "        const layerNumber = " ++ str_int layer_number ++ ";"
    ; "        "
    ; "        if (layerNumber >= 0 && layerNumber < sprite.layerCount) {"
    ; "            if (sprite.layerCount <= 1) {"
    ; "                console.log('Cannot delete the only remaining layer');"
    ; "                return;"
    ; "            }"
    ; "            "
    ; "            const layer = sprite.layer(layerNumber);"
    ; "            if (layer) {"
    ; "                const layerName = layer.name;"
    ; "                // Use RemoveLayer command"
    ; "                app.command.RemoveLayer();"
    ; "                console.log('Deleted layer ' + layerNumber + ': " ++ dq ++ "' + layerName + '" ++ dq ++ "');"
    ; "                console.log('Sprite now has ' + sprite.layerCount + ' layer(s)');"
    ; "            } else {"
    ; "                console.log('Layer ' + layerNumber + ' not found');"
    ; "            }"
    ; "        } else {"
    ; "            console.log('Layer number ' + layerNumber + ' is out of range (0-' + (sprite.layerCount - 1) + ')');"
    ; "        }"
    ; "    }"
    ; "} catch (e) {"
    ; "    console.log('Error deleting layer: ' + e.message);"
    ; "}"
    ; ""
    ].

Definition replace_color (old_r : Z) (old_g : Z) (old_b : Z) (new_r : Z) (new_g : Z) (new_b : Z) (new_a : Z) : string :=
  lines
    [ ""
    ; "try {"
    ; "    const sprite = app.activeSprite;"
    ; "    if (!sprite) {"
    ; "        console.log('No active sprite');"
    ; "    } else {"
    ; "        const img = app.activeImage;"
    ; "        if (!img) {"
    ; "            console.log('No active image');"
    ; "        } else {"
    ; "            const col = app.pixelColor;"
    ; "            const oldColor = col.rgba(" ++ str_int old_r ++ ", " ++ str_int old_g ++ ", " ++ str_int old_b ++ ", 255); // Assume full alpha for comparison"
    ; "            const newColor = col.rgba(" ++ str_int new_r ++ ", " ++ str_int new_g ++ ", " ++ str_int new_b ++ ", " ++ str_int new_a ++ ");"
    ; "            "
    ; "            let replacedCount = 0;"
    ; "            "
    ; "            for (let y = 0; y < img.height; y++) {"
    ; "                for (let x = 0; x < img.width; x++) {"
    ; "                    const pixelColor = img.getPixel(x, y);"
    ; "                    // Compare RGB components (ignore alpha for old color)"
    ; "                    if (col.rgbaR(pixelColor) === " ++ str_int old_r ++ " && "
    ; "                        col.rgbaG(pixelColor) === " ++ str_int old_g ++ " && "
    ; "                        col.rgbaB(pixelColor) === " ++ str_int old_b ++ ") {"
    ; "                        img.putPixel(x, y, newColor);"
    ; "                        replacedCount++;"
    ; "                    }"
    ; "                }"
    ; "            }"
    ; "            "
    ; "            console.log('Replaced ' + replacedCount + ' pixels from rgba(' + " ++ str_int old_r ++ " + ',' + " ++ str_int old_g ++ " + ',' + " ++ str_int old_b ++ " + ',*) to rgba(' + " ++ str_int new_r ++ " + ',' + " ++ str_int new_g ++ " + ',' + " ++ str_int new_b ++ " + ',' + " ++ str_int new_a ++ " + ')');"
    ; "        }"
    ; "    }"
    ; "} catch (e) {"
    ; "    console.log('Error replacing color: ' + e.message);"
    ; "}"
    ; ""
    ].

End ScriptTemplates.

(** ** The scripting host *)

Module Host.

(** [sprite.layer(i)] objects: the three properties the scripts read. *)
Record Layer := mkLayer {
  name : string;
  isVisible : bool;
  isEditable : bool
}.

(** [app.activeSprite].  [colorMode] is kept as the text that string
    concatenation produces for it. *)
Record Sprite := mkSprite {
  sprite_width : Z;
  sprite_height : Z;
  colorMode : string;
  layers : list Layer
}.

Definition layerCount (s : Sprite) : Z := Z.of_nat (length (layers s)).

Definition layer (s : Sprite) (i : Z) : option Layer :=
  if i <? 0 then None else layers s !! Z.to_nat i.

(** [app.activeImage]: the drawable surface.  [puts] is a journal of the
    coordinates handed to [putPixel], most recent first; it is not part of
    the surface, it only records which writes a script performed. *)
Record Image := mkImage {
  width : Z;
  height : Z;
  pixels : Z -> Z -> Z;
  puts : list (Z * Z)
}.

Definition getPixel (img : Image) (x y : Z) : Z := pixels img x y.

Definition putPixel (img : Image) (x y c : Z) : Image :=
  mkImage (width img) (height img)
          (fun x' y' => if (x' =? x) && (y' =? y) then c else pixels img x' y')
          ((x, y) :: puts img).

Definition clear (img : Image) (c : Z) : Image :=
  mkImage (width img) (height img) (fun _ _ => c) (puts img).

(** Two images show the same surface. *)
Definition same_surface (i1 i2 : Image) : Prop :=
  width i1 = width i2 /\ height i1 = height i2 /\
  forall x y, getPixel i1 x y = getPixel i2 x y.

(** Values handed to [app.command.setParameter]. *)
Inductive Value :=
| VNum (n : Z)
| VStr (s : string)
| VColorMode (member : string).   (* the expression [ColorMode.<member>] *)

(** The active document: the sprite with its active surface and cursor. *)
Record Document := mkDocument {
  sprite : Sprite;
  activeImage : option Image;
  activeLayerNumber : Z;
  activeFrameNumber : Z
}.

Record App := mkApp {
  activeDocument : option Document;
  parameters : list (string * Value);
  console : list string
}.

Definition activeSprite (h : App) : option Sprite :=
  sprite <$> activeDocument h.

(** [console.log(line)] *)
Definition log (line : string) (h : App) : App :=
  mkApp (activeDocument h) (parameters h) (console h ++ [line]).

(** [app.command.setParameter(key, v)] and [app.command.clearParameters()] *)
Definition setParameter (key : string) (v : Value) (h : App) : App :=
  mkApp (activeDocument h) ((key, v) :: parameters h) (console h).

Definition clearParameters (h : App) : App :=
  mkApp (activeDocument h) [] (console h).

(** The value a command finds under [key]: the most recent one set. *)
Fixpoint lookup_parameter (key : string) (ps : list (string * Value)) : option Value :=
  match ps with
  | [] => None
  | (k, v) :: ps => if String.eqb k key then Some v else lookup_parameter key ps
  end.

Definition set_document (d : option Document) (h : App) : App :=
  mkApp d (parameters h) (console h).

(** The surface object is shared with the host: a script that draws on
    [img] changes the active image of the document. *)
Definition set_image (img : Image) (doc : Document) (h : App) : App :=
  set_document
    (Some (mkDocument (sprite doc) (Some img)
                      (activeLayerNumber doc) (activeFrameNumber doc))) h.

(** A host command either completes or throws; both leave a state behind. *)
Inductive CmdResult (A : Type) :=
| Completed (a : A)
| Raised (message : string) (a : A).
Arguments Completed {A} a.
Arguments Raised {A} message a.

(** What the scripts need from the application and is not in this
    repository: the colour codec [app.pixelColor], the commands behind
    [app.command], and the floating-point tests of the circle and ellipse
    sources. *)
Class Primitives := {
  rgba : Z -> Z -> Z -> Z -> Z;
  rgbaR : Z -> Z;
  rgbaG : Z -> Z;
  rgbaB : Z -> Z;
  NewFile : list (string * Value) -> option Document -> CmdResult (option Document);
  NewLayer : list (string * Value) -> Document -> CmdResult Document;
  RemoveLayer : list (string * Value) -> Document -> CmdResult Document;
  (* filled ? Math.sqrt(dx*dx + dy*dy) <= radius
            : Math.abs(Math.sqrt(dx*dx + dy*dy) - radius) < 1 *)
  circle_test : bool -> Z -> Z -> Z -> bool;
  (* with e = (dx*dx)/(a*a) + (dy*dy)/(b*b), a = width/2, b = height/2:
     filled ? e <= 1 : Math.abs(e - 1) < 0.1 *)
  ellipse_test : bool -> Z -> Z -> Z -> Z -> bool
}.

(** The channel extractors invert the constructor on channel values. *)
Definition channel (v : Z) : Prop := 0 <= v <= 255.

Class PixelColorLaws (P : Primitives) : Prop := {
  rgbaR_rgba : forall r g b a, channel r -> channel g -> channel b -> channel a ->
      rgbaR (rgba r g b a) = r;
  rgbaG_rgba : forall r g b a, channel r -> channel g -> channel b -> channel a ->
      rgbaG (rgba r g b a) = g;
  rgbaB_rgba : forall r g b a, channel r -> channel g -> channel b -> channel a ->
      rgbaB (rgba r g b a) = b;
  rgba_alpha_inj : forall r g b a a', channel r -> channel g -> channel b ->
      channel a -> channel a' -> rgba r g b a = rgba r g b a' -> a = a'
}.

End Host.

(** ** The emitted scripts, as functions on the host state

    Each definition follows the JavaScript text of the template of the same
    name.  [const sprite = app.activeSprite] and [const img = app.activeImage]
    bind references to host objects, so a write through [img] is a write to
    the document's active image and [sprite.layerCount] read after a command
    sees the command's effect.  The [try { ... } catch (e)] wrapper reports a
    throwing command as one console line.  A top-level [return] ends the
    script. *)

Module Script.
Import Host.

(** JavaScript renders booleans in lower case. *)
Definition js_bool (b : bool) : string := if b then "true"%string else "false"%string.

(** [for (let i = start; i < stop; i++) body] over a state [S]. *)
Definition for_range {S : Type} (start stop : Z) (body : Z -> S -> S) (s : S) : S :=
  fold_left (fun s i => body i s) (seqZ start (stop - start)) s.

(** [x >= 0 && x < img.width && y >= 0 && y < img.height] *)
Definition in_bounds (img : Image) (x y : Z) : bool :=
  (0 <=? x) && (x <? width img) && (0 <=? y) && (y <? height img).

Section Scripts.
Context {P : Primitives}.

(** The colour mode reaches the script as [ColorMode.<text>]: a member
    access when the text is an identifier.  For any other text the emitted
    source is not the program of the template, and there is no result. *)
Definition create_sprite (width height : Z) (color_mode : string) (h : App) : option App :=
  if identifier color_mode then
    let h := setParameter "width" (VNum width) h in
    let h := setParameter "height" (VNum height) h in
    let h := setParameter "colorMode" (VColorMode (upper color_mode)) h in
    match NewFile (parameters h) (activeDocument h) with
    | Raised message d =>
        Some (log ("Error creating sprite: " ++ message) (set_document d h))
    | Completed d =>
        let h := clearParameters (set_document d h) in
        match d with
        | Some doc =>
            let sprite := sprite doc in
            let h := log ("Created new sprite: " ++ str_int (sprite_width sprite) ++ "x"
                          ++ str_int (sprite_height sprite)
                          ++ " (" ++ colorMode sprite ++ ")") h in
            Some (log ("Active sprite now has " ++ str_int (layerCount sprite)
                       ++ " layer(s)") h)
        | None => Some (log "Failed to create sprite" h)
        end
    end
  else None.

(** The name reaches the script between double quotes and again between
    single quotes: it is the value of both literals when it has no quote,
    backslash or line terminator.  For any other name the emitted source is
    not the program of the template, and there is no result. *)
Definition create_layer (name : string) (h : App) : option App :=
  if plain name then
    match activeDocument h with
    | None => Some (log "No active sprite" h)
    | Some doc =>
        let h := setParameter "name" (VStr name) h in
        match NewLayer (parameters h) doc with
        | Raised message doc' =>
            Some (log ("Error creating layer: " ++ message) (set_document (Some doc') h))
        | Completed doc' =>
            let h := clearParameters (set_document (Some doc') h) in
            let h := log ("Created new layer: " ++ name) h in
            Some (log ("Sprite now has " ++ str_int (layerCount (sprite doc'))
                       ++ " layer(s)") h)
        end
    end
  else None.

Definition fill_layer (r g b a : Z) (h : App) : App :=
  match activeDocument h with
  | None => log "No active sprite" h
  | Some doc =>
      match activeImage doc with
      | None => log "No active image" h
      | Some img =>
          let fillColor := rgba r g b a in
          let h := set_image (clear img fillColor) doc h in
          log ("Filled active layer with color rgba(" ++ str_int r ++ "," ++ str_int g
               ++ "," ++ str_int b ++ "," ++ str_int a ++ ")") h
      end
  end.

Definition draw_circle (cx cy radius r g b a : Z) (filled : bool) (h : App) : App :=
  match activeDocument h with
  | None => log "No active sprite" h
  | Some doc =>
      match activeImage doc with
      | None => log "No active image" h
      | Some img =>
          let circleColor := rgba r g b a in
          let img :=
            for_range (cy - radius) (cy + radius + 1) (fun y img =>
              for_range (cx - radius) (cx + radius + 1) (fun x img =>
                if in_bounds img x y then
                  let dx := x - cx in
                  let dy := y - cy in
                  if circle_test filled dx dy radius
                  then putPixel img x y circleColor
                  else img
                else img) img) img in
          log ("Drew " ++ (if filled then "filled" else "outlined") ++ " circle at ("
               ++ str_int cx ++ "," ++ str_int cy ++ ") radius " ++ str_int radius)
              (set_image img doc h)
      end
  end.

Definition get_sprite_info (h : App) : App :=
  match activeDocument h with
  | None => log "No active sprite" h
  | Some doc =>
      let sprite := sprite doc in
      let h := log "=== SPRITE INFO ===" h in
      let h := log ("Dimensions: " ++ str_int (sprite_width sprite) ++ "x"
                    ++ str_int (sprite_height sprite)) h in
      let h := log ("Color Mode: " ++ colorMode sprite) h in
      let h := log ("Layer Count: " ++ str_int (layerCount sprite)) h in
      let h := log ("Current Layer: " ++ str_int (activeLayerNumber doc)) h in
      let h := log ("Current Frame: " ++ str_int (activeFrameNumber doc)) h in
      let h := log "--- LAYER DETAILS ---" h in
      for_range 0 (layerCount sprite) (fun i h =>
        match layer sprite i with
        | Some layer =>
            log ("Layer " ++ str_int i ++ ": " ++ dq ++ name layer ++ dq
                 ++ " (visible: " ++ js_bool (isVisible layer)
                 ++ ", editable: " ++ js_bool (isEditable layer) ++ ")") h
        | None => h
        end) h
  end.

(** The outline branch of the rectangle script: the two horizontal runs,
    then the two vertical runs. *)
Definition rectangle_outline (img : Image) (x y width height rectColor : Z) : Image :=
  let img :=
    for_range x (x + width) (fun px img =>
      if (0 <=? px) && (px <? Host.width img) then
        let img := if (0 <=? y) && (y <? Host.height img)
                   then putPixel img px y rectColor else img in
        if (0 <=? y + height - 1) && (y + height - 1 <? Host.height img)
        then putPixel img px (y + height - 1) rectColor else img
      else img) img in
  for_range y (y + height) (fun py img =>
    if (0 <=? py) && (py <? Host.height img) then
      let img := if (0 <=? x) && (x <? Host.width img)
                 then putPixel img x py rectColor else img in
      if (0 <=? x + width - 1) && (x + width - 1 <? Host.width img)
      then putPixel img (x + width - 1) py rectColor else img
    else img) img.

Definition rectangle_fill (img : Image) (x y width height rectColor : Z) : Image :=
  for_range y (y + height) (fun py img =>
    for_range x (x + width) (fun px img =>
      if in_bounds img px py then putPixel img px py rectColor else img) img) img.

Definition draw_rectangle (x y width height r g b a : Z) (filled : bool) (h : App) : App :=
  match activeDocument h with
  | None => log "No active sprite" h
  | Some doc =>
      match activeImage doc with
      | None => log "No active image" h
      | Some img =>
          let rectColor := rgba r g b a in
          let img := if filled
                     then rectangle_fill img x y width height rectColor
                     else rectangle_outline img x y width height rectColor in
          log ("Drew " ++ (if filled then "filled" else "outlined") ++ " rectangle at ("
               ++ str_int x ++ "," ++ str_int y ++ ") size "
               ++ str_int width ++ "x" ++ str_int height)
              (set_image img doc h)
      end
  end.

(** One iteration of the line loop stamps a disc of offsets around [(x, y)];
    [thickness/2] is the exact rational, [Math.floor] its floor. *)
Definition stamp (thickness lineColor : Z) (x y : Z) (img : Image) : Image :=
  let half := Qfloor (thickness # 2) in
  for_range (- half) (half + 1) (fun ty img =>
    for_range (- half) (half + 1) (fun tx img =>
      let px := x + tx in
      let py := y + ty in
      if in_bounds img px py then
        if (thickness =? 1)
           || Qle_bool (inject_Z (tx * tx + ty * ty)) ((thickness # 2) * (thickness # 2))
        then putPixel img px py lineColor
        else img
      else img) img) img.

(** [while (true) { stamp; if (x === x2 && y === y2) break; step }].
    [None] when [fuel] iterations were not enough to reach the [break]. *)
Fixpoint line_loop (fuel : nat) (thickness lineColor x2 y2 dx dy sx sy : Z)
         (x y err : Z) (img : Image) : option Image :=
  match fuel with
  | O => None
  | S fuel =>
      let img := stamp thickness lineColor x y img in
      if (x =? x2) && (y =? y2) then Some img
      else
        let e2 := 2 * err in
        let '(err, x) := if e2 >? - dy then (err - dy, x + sx) else (err, x) in
        let '(err, y) := if e2 <? dx then (err + dx, y + sy) else (err, y) in
        line_loop fuel thickness lineColor x2 y2 dx dy sx sy x y err img
  end.

Definition draw_line (fuel : nat) (x1 y1 x2 y2 r g b a thickness : Z) (h : App)
  : option App :=
  match activeDocument h with
  | None => Some (log "No active sprite" h)
  | Some doc =>
      match activeImage doc with
      | None => Some (log "No active image" h)
      | Some img =>
          let lineColor := rgba r g b a in
          let dx := Z.abs (x2 - x1) in
          let dy := Z.abs (y2 - y1) in
          let sx := if x1 <? x2 then 1 else -1 in
          let sy := if y1 <? y2 then 1 else -1 in
          let err := dx - dy in
          match line_loop fuel thickness lineColor x2 y2 dx dy sx sy x1 y1 err img with
          | None => None
          | Some img =>
              Some (log ("Drew line from (" ++ str_int x1 ++ "," ++ str_int y1 ++ ") to ("
                         ++ str_int x2 ++ "," ++ str_int y2 ++ ") thickness "
                         ++ str_int thickness)
                        (set_image img doc h))
          end
      end
  end.

Definition draw_ellipse (cx cy width height r g b a : Z) (filled : bool) (h : App) : App :=
  match activeDocument h with
  | None => log "No active sprite" h
  | Some doc =>
      match activeImage doc with
      | None => log "No active image" h
      | Some img =>
          let ellipseColor := rgba r g b a in
          let ceil_a := Qceiling (width # 2) in
          let ceil_b := Qceiling (height # 2) in
          let img :=
            for_range (cy - ceil_b) (cy + ceil_b + 1) (fun y img =>
              for_range (cx - ceil_a) (cx + ceil_a + 1) (fun x img =>
                if in_bounds img x y then
                  let dx := x - cx in
                  let dy := y - cy in
                  if ellipse_test filled dx dy width height
                  then putPixel img x y ellipseColor
                  else img
                else img) img) img in
          log ("Drew " ++ (if filled then "filled" else "outlined") ++ " ellipse at ("
               ++ str_int cx ++ "," ++ str_int cy ++ ") size "
               ++ str_int width ++ "x" ++ str_int height)
              (set_image img doc h)
      end
  end.

Definition put_pixel (x y r g b a : Z) (h : App) : App :=
  match activeDocument h with
  | None => log "No active sprite" h
  | Some doc =>
      match activeImage doc with
      | None => log "No active image" h
      | Some img =>
          if in_bounds img x y then
            let pixelColor := rgba r g b a in
            let img := putPixel img x y pixelColor in
            log ("Set pixel at (" ++ str_int x ++ "," ++ str_int y ++ ") to rgba("
                 ++ str_int r ++ "," ++ str_int g ++ "," ++ str_int b ++ ","
                 ++ str_int a ++ ")")
                (set_image img doc h)
          else
            log ("Pixel coordinates (" ++ str_int x ++ "," ++ str_int y
                 ++ ") are out of bounds") h
      end
  end.

(** [while (stack.length > 0) { const [x, y] = stack.pop(); ... }]: the head
    of the list is the top of the stack, so the four pushes appear in
    reverse.  [None] when [fuel] iterations did not empty the stack. *)
Fixpoint flood_loop (fuel : nat) (fillColor targetColor : Z)
         (img : Image) (stack : list (Z * Z)) (fillCount : Z) : option (Image * Z) :=
  match stack with
  | [] => Some (img, fillCount)
  | (x, y) :: stack =>
      match fuel with
      | O => None
      | S fuel =>
          if (x <? 0) || (x >=? width img) || (y <? 0) || (y >=? height img)
          then flood_loop fuel fillColor targetColor img stack fillCount
          else if negb (getPixel img x y =? targetColor)
          then flood_loop fuel fillColor targetColor img stack fillCount
          else
            let img := putPixel img x y fillColor in
            let fillCount := fillCount + 1 in
            let stack := (x, y - 1) :: (x, y + 1) :: (x - 1, y) :: (x + 1, y) :: stack in
            flood_loop fuel fillColor targetColor img stack fillCount
      end
  end.

Definition flood_fill (fuel : nat) (x y r g b a : Z) (h : App) : option App :=
  match activeDocument h with
  | None => Some (log "No active sprite" h)
  | Some doc =>
      match activeImage doc with
      | None => Some (log "No active image" h)
      | Some img =>
          let startX := x in
          let startY := y in
          if in_bounds img startX startY then
            let fillColor := rgba r g b a in
            let targetColor := getPixel img startX startY in
            if targetColor =? fillColor then
              Some (log "Target color is the same as fill color, no action needed" h)
            else
              match flood_loop fuel fillColor targetColor img [(startX, startY)] 0 with
              | None => None
              | Some (img, fillCount) =>
                  Some (log ("Flood fill completed at (" ++ str_int startX ++ ","
                             ++ str_int startY ++ "), filled " ++ str_int fillCount
                             ++ " pixels")
                            (set_image img doc h))
              end
          else
            Some (log ("Start coordinates (" ++ str_int startX ++ "," ++ str_int startY
                       ++ ") are out of bounds") h)
      end
  end.

Definition set_active_layer (layer_number : Z) (h : App) : App :=
  match activeDocument h with
  | None => log "No active sprite" h
  | Some doc =>
      let sprite := sprite doc in
      let layerNumber := layer_number in
      if (0 <=? layerNumber) && (layerNumber <? layerCount sprite) then
        match layer sprite layerNumber with
        | Some layer =>
            let h := log ("Switching to layer " ++ str_int layerNumber ++ ": " ++ dq
                          ++ name layer ++ dq) h in
            let h := log "Note: Layer switching via script may be limited. Use UI to switch layers." h in
            log ("Current active layer: " ++ str_int (activeLayerNumber doc)) h
        | None => log ("Layer " ++ str_int layerNumber ++ " not found") h
        end
      else
        log ("Layer number " ++ str_int layerNumber ++ " is out of range (0-"
             ++ str_int (layerCount sprite - 1) ++ ")") h
  end.

Definition delete_layer (layer_number : Z) (h : App) : App :=
  match activeDocument h with
  | None => log "No active sprite" h
  | Some doc =>
      let sprite := sprite doc in
      let layerNumber := layer_number in
      if (0 <=? layerNumber) && (layerNumber <? layerCount sprite) then
        if layerCount sprite <=? 1 then
          log "Cannot delete the only remaining layer" h
        else
          match layer sprite layerNumber with
          | Some layer =>
              let layerName := name layer in
              match RemoveLayer (parameters h) doc with
              | Raised message doc' =>
                  log ("Error deleting layer: " ++ message) (set_document (Some doc') h)
              | Completed doc' =>
                  let h := set_document (Some doc') h in
                  let h := log ("Deleted layer " ++ str_int layerNumber ++ ": " ++ dq
                                ++ layerName ++ dq) h in
                  log ("Sprite now has " ++ str_int (layerCount (Host.sprite doc'))
                       ++ " layer(s)") h
              end
          | None => log ("Layer " ++ str_int layerNumber ++ " not found") h
          end
      else
        log ("Layer number " ++ str_int layerNumber ++ " is out of range (0-"
             ++ str_int (layerCount sprite - 1) ++ ")") h
  end.

(** The test of the replace-colour scan: the three colour channels of the
    pixel against the old colour; the pixel's alpha is not read. *)
Definition rgb_matches (old_r old_g old_b pixelColor : Z) : bool :=
  (rgbaR pixelColor =? old_r) && (rgbaG pixelColor =? old_g)
  && (rgbaB pixelColor =? old_b).

Definition replace_step (old_r old_g old_b newColor : Z) (x y : Z)
           (st : Image * Z) : Image * Z :=
  let '(img, replacedCount) := st in
  let pixelColor := getPixel img x y in
  if rgb_matches old_r old_g old_b pixelColor
  then (putPixel img x y newColor, replacedCount + 1)
  else (img, replacedCount).

(** [putPixel] keeps the dimensions, so the loop bounds [img.height] and
    [img.width] are those of the image the scan started with. *)
Definition replace_scan (old_r old_g old_b newColor : Z) (img : Image) : Image * Z :=
  for_range 0 (height img) (fun y st =>
    for_range 0 (width img) (fun x st =>
      replace_step old_r old_g old_b newColor x y st) st) (img, 0).

Definition replace_color (old_r old_g old_b new_r new_g new_b new_a : Z) (h : App) : App :=
  match activeDocument h with
  | None => log "No active sprite" h
  | Some doc =>
      match activeImage doc with
      | None => log "No active image" h
      | Some img =>
          let oldColor := rgba old_r old_g old_b 255 in
          let newColor := rgba new_r new_g new_b new_a in
          let '(img, replacedCount) := replace_scan old_r old_g old_b newColor img in
          log ("Replaced " ++ str_int replacedCount ++ " pixels from rgba("
               ++ str_int old_r ++ "," ++ str_int old_g ++ "," ++ str_int old_b
               ++ ",*) to rgba(" ++ str_int new_r ++ "," ++ str_int new_g ++ ","
               ++ str_int new_b ++ "," ++ str_int new_a ++ ")")
              (set_image img doc h)
      end
  end.

End Scripts.
End Script.

(** ** A reference host

    A small implementation of [Primitives], used to run the scripts on
    concrete states.  Colours are packed as LibreSprite packs them (red in
    the low byte, alpha in the high byte); [NewFile] opens a document with
    one layer, [NewLayer] appends a layer and activates it, [RemoveLayer]
    removes the active layer; the circle and ellipse tests are the exact
    real-number readings of the JavaScript expressions. *)

Module Reference.
Import Host.

Definition rgba (r g b a : Z) : Z :=
  Z.lor (Z.lor (Z.lor r (Z.shiftl g 8)) (Z.shiftl b 16)) (Z.shiftl a 24).
Definition rgbaR (c : Z) : Z := Z.land c 255.
Definition rgbaG (c : Z) : Z := Z.land (Z.shiftr c 8) 255.
Definition rgbaB (c : Z) : Z := Z.land (Z.shiftr c 16) 255.
Definition rgbaA (c : Z) : Z := Z.land (Z.shiftr c 24) 255.

Definition blank (w h : Z) : Image := mkImage w h (fun _ _ => 0) [].

Definition NewFile (ps : list (string * Value)) (d : option Document)
  : CmdResult (option Document) :=
  match lookup_parameter "width" ps, lookup_parameter "height" ps,
        lookup_parameter "colorMode" ps with
  | Some (VNum w), Some (VNum h), Some (VColorMode m) =>
      Completed (Some (mkDocument (mkSprite w h m [mkLayer "Layer 1" true true])
                                  (Some (blank w h)) 0 0))
  | _, _, _ => Raised "invalid parameters" d
  end.

Definition NewLayer (ps : list (string * Value)) (doc : Document) : CmdResult Document :=
  let s := sprite doc in
  let layer_name := match lookup_parameter "name" ps with
                    | Some (VStr n) => n
                    | _ => "Layer"%string
                    end in
  Completed (mkDocument
               (mkSprite (sprite_width s) (sprite_height s) (colorMode s)
                         (layers s ++ [mkLayer layer_name true true]))
               (Some (blank (sprite_width s) (sprite_height s)))
               (layerCount s) (activeFrameNumber doc)).

Definition RemoveLayer (ps : list (string * Value)) (doc : Document) : CmdResult Document :=
  let s := sprite doc in
  let k := Z.to_nat (activeLayerNumber doc) in
  Completed (mkDocument
               (mkSprite (sprite_width s) (sprite_height s) (colorMode s)
                         (take k (layers s) ++ drop (S k) (layers s)))
               (activeImage doc)
               (Z.max 0 (activeLayerNumber doc - 1)) (activeFrameNumber doc)).

Definition circle_test (filled : bool) (dx dy radius : Z) : bool :=
  let d2 := dx * dx + dy * dy in
  if filled then (0 <=? radius) && (d2 <=? radius * radius)
  else (d2 <? (radius + 1) * (radius + 1))
       && ((radius <? 1) || ((radius - 1) * (radius - 1) <? d2)).

Definition ellipse_test (filled : bool) (dx dy width height : Z) : bool :=
  if (width =? 0) || (height =? 0) then false
  else
    let e := (inject_Z (dx * dx) / ((width # 2) * (width # 2))
              + inject_Z (dy * dy) / ((height # 2) * (height # 2)))%Q in
    if filled then Qle_bool e 1
    else negb (Qle_bool (1 # 10) (Qabs (e - 1))).

#[export] Instance primitives : Primitives := {|
  Host.rgba := rgba;
  Host.rgbaR := rgbaR;
  Host.rgbaG := rgbaG;
  Host.rgbaB := rgbaB;
  Host.NewFile := NewFile;
  Host.NewLayer := NewLayer;
  Host.RemoveLayer := RemoveLayer;
  Host.circle_test := circle_test;
  Host.ellipse_test := ellipse_test
|}.

(** A 10x10 surface whose pixels are all 0, in a one-layer document. *)
Definition canvas10 : Image := blank 10 10.

Definition document10 : Document :=
  mkDocument (mkSprite 10 10 "RGB" [mkLayer "Layer 1" true true]) (Some canvas10) 0 0.

Definition app10 : App := mkApp (Some document10) [] [].

(** No document open. *)
Definition idle : App := mkApp None [] [].

(** A document with two layers, the upper one active. *)
Definition document2 : Document :=
  mkDocument (mkSprite 10 10 "RGB" [mkLayer "Background" true true; mkLayer "Top" true true])
             (Some canvas10) 1 0.

Definition app2 : App := mkApp (Some document2) [] [].

End Reference.

(** ** The catalogue of operations

    One constructor per generator of [ScriptTemplates], with its
    parameters; [script_text] is the generator's output and [run] the
    behaviour of that output on a host. *)

Inductive Operation :=
| OpCreateSprite (width height : Z) (color_mode : string)
| OpCreateLayer (name : string)
| OpFillLayer (r g b a : Z)
| OpDrawCircle (cx cy radius r g b a : Z) (filled : bool)
| OpGetSpriteInfo
| OpDrawRectangle (x y width height r g b a : Z) (filled : bool)
| OpDrawLine (x1 y1 x2 y2 r g b a thickness : Z)
| OpDrawEllipse (cx cy width height r g b a : Z) (filled : bool)
| OpPutPixel (x y r g b a : Z)
| OpFloodFill (x y r g b a : Z)
| OpSetActiveLayer (layer_number : Z)
| OpDeleteLayer (layer_number : Z)
| OpReplaceColor (old_r old_g old_b new_r new_g new_b new_a : Z).

Definition script_text (op : Operation) : string :=
  match op with
  | OpCreateSprite w h m => ScriptTemplates.create_sprite w h m
  | OpCreateLayer n => ScriptTemplates.create_layer n
  | OpFillLayer r g b a => ScriptTemplates.fill_layer r g b a
  | OpDrawCircle cx cy radius r g b a f => ScriptTemplates.draw_circle cx cy radius r g b a f
  | OpGetSpriteInfo => ScriptTemplates.get_sprite_info
  | OpDrawRectangle x y w h r g b a f => ScriptTemplates.draw_rectangle x y w h r g b a f
  | OpDrawLine x1 y1 x2 y2 r g b a t => ScriptTemplates.draw_line x1 y1 x2 y2 r g b a t
  | OpDrawEllipse cx cy w h r g b a f => ScriptTemplates.draw_ellipse cx cy w h r g b a f
  | OpPutPixel x y r g b a => ScriptTemplates.put_pixel x y r g b a
  | OpFloodFill x y r g b a => ScriptTemplates.flood_fill x y r g b a
  | OpSetActiveLayer n => ScriptTemplates.set_active_layer n
  | OpDeleteLayer n => ScriptTemplates.delete_layer n
  | OpReplaceColor r g b r' g' b' a' => ScriptTemplates.replace_color r g b r' g' b' a'
  end.

(** [run fuel op h]: the host state after evaluating the script of [op];
    [None] when a loop of the script needed more than [fuel] iterations, or
    when free text in the parameters makes the emitted source another
    program than the template's. *)
Definition run {P : Host.Primitives} (fuel : nat) (op : Operation) (h : Host.App)
  : option Host.App :=
  match op with
  | OpCreateSprite w h' m => Script.create_sprite w h' m h
  | OpCreateLayer n => Script.create_layer n h
  | OpFillLayer r g b a => Some (Script.fill_layer r g b a h)
  | OpDrawCircle cx cy radius r g b a f => Some (Script.draw_circle cx cy radius r g b a f h)
  | OpGetSpriteInfo => Some (Script.get_sprite_info h)
  | OpDrawRectangle x y w h' r g b a f => Some (Script.draw_rectangle x y w h' r g b a f h)
  | OpDrawLine x1 y1 x2 y2 r g b a t => Script.draw_line fuel x1 y1 x2 y2 r g b a t h
  | OpDrawEllipse cx cy w h' r g b a f => Some (Script.draw_ellipse cx cy w h' r g b a f h)
  | OpPutPixel x y r g b a => Some (Script.put_pixel x y r g b a h)
  | OpFloodFill x y r g b a => Script.flood_fill fuel x y r g b a h
  | OpSetActiveLayer n => Some (Script.set_active_layer n h)
  | OpDeleteLayer n => Some (Script.delete_layer n h)
  | OpReplaceColor r g b r' g' b' a' => Some (Script.replace_color r g b r' g' b' a' h)
  end.

(** Valid parameters: integers and booleans as they come; a layer name
    that stays inside its string literals; a colour mode that is an
    identifier. *)
Definition valid_parameters (op : Operation) : bool :=
  match op with
  | OpCreateSprite _ _ color_mode => identifier color_mode
  | OpCreateLayer name => plain name
  | _ => true
  end.

(** The operations that read or write the active surface. *)
Definition touches_pixels (op : Operation) : bool :=
  match op with
  | OpFillLayer _ _ _ _ | OpDrawCircle _ _ _ _ _ _ _ _ | OpDrawRectangle _ _ _ _ _ _ _ _ _
  | OpDrawLine _ _ _ _ _ _ _ _ _ | OpDrawEllipse _ _ _ _ _ _ _ _ _
  | OpPutPixel _ _ _ _ _ _ | OpFloodFill _ _ _ _ _ _ | OpReplaceColor _ _ _ _ _ _ _ => true
  | _ => false
  end.

Definition creates_document (op : Operation) : bool :=
  match op with
  | OpCreateSprite _ _ _ => true
  | _ => false
  end.

(** The text every script but the create-document one opens with. *)
Definition sprite_guard : string :=
  lines [ ""%string
        ; "try {"%string
        ; "    const sprite = app.activeSprite;"%string
        ; "    if (!sprite) {"%string
        ; "        console.log('No active sprite');"%string
        ; "    } else {"%string
        ; ""%string ].

(** The text that follows it in the scripts that touch pixels. *)
Definition image_guard : string :=
  lines [ "        const img = app.activeImage;"%string
        ; "        if (!img) {"%string
        ; "            console.log('No active image');"%string
        ; "        } else {"%string
        ; ""%string ].

(** ** Auxiliary definitions for the statements *)

Import Host Script.

(** [put_all img pts c]: [putPixel] at each point of [pts], in order. *)
Definition put_all (img : Image) (pts : list (Z * Z)) (c : Z) : Image :=
  fold_left (fun img p => putPixel img p.1 p.2 c) pts img.

(** The document after a script drew on its active image. *)
Definition drawn (doc : Document) (img : Image) : Document :=
  mkDocument (sprite doc) (Some img) (activeLayerNumber doc) (activeFrameNumber doc).

(** The points the first loop of the outline draws at column [px], and the
    second loop at row [py], on a surface of dimensions [W] x [H]. *)
Definition outline_column (x y w h W H px : Z) : list (Z * Z) :=
  if (0 <=? px) && (px <? W) then
    (if (0 <=? y) && (y <? H) then [(px, y)] else [])
    ++ (if (0 <=? y + h - 1) && (y + h - 1 <? H) then [(px, y + h - 1)] else [])
  else [].

Definition outline_row (x y w h W H py : Z) : list (Z * Z) :=
  if (0 <=? py) && (py <? H) then
    (if (0 <=? x) && (x <? W) then [(x, py)] else [])
    ++ (if (0 <=? x + w - 1) && (x + w - 1 <? W) then [(x + w - 1, py)] else [])
  else [].

Definition outline_points (x y w h W H : Z) : list (Z * Z) :=
  flat_map (outline_column x y w h W H) (seqZ x w)
  ++ flat_map (outline_row x y w h W H) (seqZ y h).

(** The border of the [w] x [h] rectangle at [(x, y)]. *)
Definition on_border (x y w h : Z) (p : Z * Z) : Prop :=
  x <= p.1 < x + w /\ y <= p.2 < y + h /\
  (p.1 = x \/ p.1 = x + w - 1 \/ p.2 = y \/ p.2 = y + h - 1).

(** The border as a list without repetition: top run, bottom run, and the
    two side runs without their corners. *)
Definition border_list (x y w h : Z) : list (Z * Z) :=
  ((fun px => (px, y)) <$> seqZ x w)
  ++ ((fun px => (px, y + h - 1)) <$> seqZ x w)
  ++ ((fun py => (x, py)) <$> seqZ (y + 1) (h - 2))
  ++ ((fun py => (x + w - 1, py)) <$> seqZ (y + 1) (h - 2)).

(** Row-major order on a [W] x [H] surface: the [k]-th pixel visited is in
    column [k mod W] of row [k / W]. *)
Definition row_major (W H : Z) : list (Z * Z) :=
  (fun k => (k `mod` W, k `div` W)) <$> seqZ 0 (Z.max 0 W * Z.max 0 H).

(** The pixel at [p] has the old colour's red, green and blue. *)
Definition matching {P : Primitives} (old_r old_g old_b : Z) (img : Image) (p : Z * Z) : Prop :=
  rgb_matches old_r old_g old_b (getPixel img p.1 p.2) = true.

#[global] Instance matching_dec {P : Primitives} old_r old_g old_b img p :
  Decision (matching old_r old_g old_b img p).
Proof. unfold matching. apply _. Defined.

Ltac bool_cases :=
  repeat match goal with
         | H : context [ (?a <=? ?b) ] |- _ => destruct (Z.leb_spec a b); simpl in H
         | H : context [ (?a <? ?b) ] |- _ => destruct (Z.ltb_spec a b); simpl in H
         | |- context [ (?a <=? ?b) ] => destruct (Z.leb_spec a b); simpl
         | |- context [ (?a <? ?b) ] => destruct (Z.ltb_spec a b); simpl
         end.

(** The points the line loop visits: the loop of [line_loop] without the
    stamping. *)
Fixpoint line_walk (fuel : nat) (x2 y2 dx dy sx sy : Z) (x y err : Z)
  : option (list (Z * Z)) :=
  match fuel with
  | O => None
  | S fuel =>
      if (x =? x2) && (y =? y2) then Some [(x, y)]
      else
        let e2 := 2 * err in
        let '(err, x') := if e2 >? - dy then (err - dy, x + sx) else (err, x) in
        let '(err, y') := if e2 <? dx then (err + dx, y + sy) else (err, y) in
        cons (x, y) <$> line_walk fuel x2 y2 dx dy sx sy x' y' err
  end.

(** The points one stamp draws around [(x, y)] on a [W] x [H] surface. *)
Definition stamp_offset (thickness W H x y ty tx : Z) : list (Z * Z) :=
  if (0 <=? x + tx) && (x + tx <? W) && (0 <=? y + ty) && (y + ty <? H) then
    if (thickness =? 1)
       || Qle_bool (inject_Z (tx * tx + ty * ty)) ((thickness # 2) * (thickness # 2))
    then [(x + tx, y + ty)]
    else []
  else [].

Definition stamp_points (thickness W H : Z) (p : Z * Z) : list (Z * Z) :=
  let half := Qfloor (thickness # 2) in
  flat_map (fun ty =>
    flat_map (stamp_offset thickness W H p.1 p.2 ty) (seqZ (- half) (half + 1 - - half)))
    (seqZ (- half) (half + 1 - - half)).

(** Consecutive points of a path move one pixel towards the end point along
    at least one axis, and never away from it. *)
Definition advances (sx sy : Z) (p q : Z * Z) : Prop :=
  (q.1 = p.1 \/ q.1 = p.1 + sx) /\ (q.2 = p.2 \/ q.2 = p.2 + sy) /\ q <> p.

Fixpoint chain (R : Z * Z -> Z * Z -> Prop) (l : list (Z * Z)) : Prop :=
  match l with
  | p :: (q :: _) as l' => R p q /\ chain R l'
  | _ => True
  end.

(** [p] is within half a pixel of the segment from [(x1, y1)] to [(x2, y2)],
    measured along the minor axis. *)
Definition near_segment (x1 y1 x2 y2 : Z) (p : Z * Z) : Prop :=
  2 * Z.abs ((p.1 - x1) * (y2 - y1) - (p.2 - y1) * (x2 - x1))
  <= Z.max (Z.abs (x2 - x1)) (Z.abs (y2 - y1)).

(** [p] is on the surface and carries the colour [t]. *)
Definition target_at (img : Image) (t : Z) (p : Z * Z) : Prop :=
  in_bounds img p.1 p.2 = true /\ getPixel img p.1 p.2 = t.

(** The four axis neighbours. *)
Definition adjacent4 (p q : Z * Z) : Prop :=
  q = (p.1 + 1, p.2) \/ q = (p.1 - 1, p.2) \/ q = (p.1, p.2 + 1) \/ q = (p.1, p.2 - 1).

(** The 4-connected region of colour [t] around [seed]: the pixels reached
    from the seed by axis steps through pixels of colour [t]. *)
Inductive region (img : Image) (t : Z) (seed : Z * Z) : Z * Z -> Prop :=
| region_seed : target_at img t seed -> region img t seed seed
| region_step p q :
    region img t seed p -> adjacent4 p q -> target_at img t q ->
    region img t seed q.

(** The state of the fill loop, relative to the picture [img0] it started
    with: [ws] are the pixels written so far. *)
Record flood_inv (img0 : Image) (fill t : Z) (seed : Z * Z)
       (img : Image) (stack ws : list (Z * Z)) : Prop := {
  inv_width : width img = width img0;
  inv_height : height img = height img0;
  inv_pixels : forall x y, getPixel img x y =
                           if decide ((x, y) ∈ ws) then fill else getPixel img0 x y;
  inv_puts : puts img = ws ++ puts img0;
  inv_nodup : NoDup ws;
  inv_region : forall p, p ∈ ws -> region img0 t seed p;
  inv_seed : seed ∈ ws \/ seed ∈ stack;
  inv_closed : forall p q, p ∈ ws -> adjacent4 p q -> target_at img0 t q ->
                           q ∈ ws \/ q ∈ stack;
  inv_stack : forall q, q ∈ stack -> target_at img0 t q -> region img0 t seed q
}.

(** Iterations that suffice for the fill loop on a surface. *)
Definition flood_fuel (img : Image) : nat :=
  S (4 * length (row_major (width img) (height img))).

(** Two host states show the same document and the same surface. *)
Definition same_picture (h1 h2 : App) : Prop :=
  match activeDocument h1, activeDocument h2 with
  | Some d1, Some d2 =>
      sprite d1 = sprite d2 /\
      activeLayerNumber d1 = activeLayerNumber d2 /\
      activeFrameNumber d1 = activeFrameNumber d2 /\
      match activeImage d1, activeImage d2 with
      | Some i1, Some i2 => same_surface i1 i2
      | None, None => True
      | _, _ => False
      end
  | None, None => True
  | _, _ => False
  end.

(** Iterations that suffice for the fill loop in a host state. *)
Definition flood_fuel_for (h : App) : nat :=
  match activeDocument h with
  | Some doc => match activeImage doc with
                | Some img => flood_fuel img
                | None => O
                end
  | None => O
  end.

(** A host whose [RemoveLayer] removes the active layer of the document. *)
Definition removes_active_layer (P : Primitives) : Prop :=
  forall ps doc, exists doc',
    RemoveLayer ps doc = Completed doc' /\
    layers (sprite doc') =
      take (Z.to_nat (activeLayerNumber doc)) (layers (sprite doc))
      ++ drop (S (Z.to_nat (activeLayerNumber doc))) (layers (sprite doc)).


(** JavaScript string literals: [js_string_body quote s] reads [s] from just
    after an opening [quote] up to the closing one and returns the body and
    the text after the literal.  A backslash takes the next character with
    it; a line terminator or the end of the text before the closing quote is
    a syntax error ([None]). *)
Fixpoint js_string_body (quote : ascii) (s : string) : option (string * string) :=
  match s with
  | EmptyString => None
  | String c rest =>
      if Ascii.eqb c quote then Some (EmptyString, rest)
      else if Ascii.eqb c "\"%char then
        match rest with
        | EmptyString => None
        | String c' rest' =>
            match js_string_body quote rest' with
            | Some (body, after) => Some (String c (String c' body), after)
            | None => None
            end
        end
      else if Ascii.eqb c "010"%char || Ascii.eqb c "013"%char then None
      else
        match js_string_body quote rest with
        | Some (body, after) => Some (String c body, after)
        | None => None
        end
  end.

(** The create-layer template around its two interpolation points. *)
Definition create_layer_head : string :=
  (lines [ ""%string
         ; "try {"%string
         ; "    const sprite = app.activeSprite;"%string
         ; "    if (!sprite) {"%string
         ; "        console.log('No active sprite');"%string
         ; "    } else {"%string
         ; "        // Use the NewLayer command to create a new layer"%string
         ; ("        app.command.setParameter(" ++ dq ++ "name" ++ dq ++ ", ")%string ]
   ++ dq)%string.

Definition create_layer_middle : string :=
  lines [ ");"%string
        ; "        app.command.NewLayer();"%string
        ; "        app.command.clearParameters();"%string
        ; "        "%string
        ; "        console.log("%string ].

Definition create_layer_tail : string :=
  lines [ ");"%string
        ; "        console.log('Sprite now has ' + sprite.layerCount + ' layer(s)');"%string
        ; "    }"%string
        ; "} catch (e) {"%string
        ; "    console.log('Error creating layer: ' + e.message);"%string
        ; "}"%string
        ; ""%string ].

Definition sq : string := String "039"%char EmptyString.

(** The text of the script from just after the opening quote of the
    [setParameter] argument, and from just after the opening quote of the
    [console.log] argument. *)
Definition after_first_quote (name : string) : string :=
  (name ++ dq ++ create_layer_middle ++ sq ++ "Created new layer: " ++ name ++ sq
   ++ create_layer_tail)%string.

Definition after_second_quote (name : string) : string :=
  ("Created new layer: " ++ name ++ sq ++ create_layer_tail)%string.

(** The name is the body of the first literal, and the second literal is
    the message with the name: the name is literal content only. *)
Definition name_is_literal_content (name : string) : Prop :=
  js_string_body "034"%char (after_first_quote name)
    = Some (name, (create_layer_middle ++ sq ++ after_second_quote name)%string) /\
  js_string_body "039"%char (after_second_quote name)
    = Some (("Created new layer: " ++ name)%string, create_layer_tail).

(** A layer name that closes the literal and calls a command. *)
Definition injected_name : string :=
  ("x" ++ dq ++ "); app.command.RemoveLayer(); (" ++ dq)%string.

(** ** Auxiliary definitions for the further properties *)

(** The points a pair of nested loops (rows [y0 <= y < y1] outside, columns
    [x0 <= x < x1] inside) draws on a [W] x [H] surface when the body writes
    the in-bounds cells that pass [keep]. *)
Definition grid_cell (keep : Z -> Z -> bool) (W H y x : Z) : list (Z * Z) :=
  if (0 <=? x) && (x <? W) && (0 <=? y) && (y <? H) then
    if keep x y then [(x, y)] else []
  else [].

Definition grid_points (keep : Z -> Z -> bool) (x0 x1 y0 y1 W H : Z) : list (Z * Z) :=
  flat_map (fun y => flat_map (grid_cell keep W H y) (seqZ x0 (x1 - x0))) (seqZ y0 (y1 - y0)).

(** The active image of a host state, if any. *)
Definition surface (h : App) : option Image :=
  match activeDocument h with
  | Some doc => activeImage doc
  | None => None
  end.

(** Every pixel of the surface carries the colour [c]. *)
Definition uniform (img : Image) (c : Z) : Prop :=
  forall x y, in_bounds img x y = true -> getPixel img x y = c.

(** The lines [get_sprite_info] prints for the layers. *)
Definition layer_line (i : nat) (l : Layer) : string :=
  ("Layer " ++ str_int (Z.of_nat i) ++ ": " ++ dq ++ name l ++ dq
   ++ " (visible: " ++ js_bool (isVisible l)
   ++ ", editable: " ++ js_bool (isEditable l) ++ ")")%string.

(** ** Drawing a list of points *)


Lemma put_all_app img l1 l2 c :
  put_all img (l1 ++ l2) c = put_all (put_all img l1 c) l2 c.
Proof. unfold put_all. apply fold_left_app. Qed.

Lemma put_all_width img pts c : width (put_all img pts c) = width img.
Proof. revert img. induction pts as [|p pts IH]; intros img; simpl; [done|]. by rewrite IH. Qed.

Lemma put_all_height img pts c : height (put_all img pts c) = height img.
Proof. revert img. induction pts as [|p pts IH]; intros img; simpl; [done|]. by rewrite IH. Qed.

Lemma put_all_puts img pts c : puts (put_all img pts c) = reverse pts ++ puts img.
Proof.
  revert img. induction pts as [|[x y] pts IH]; intros img; simpl; [done|].
  rewrite IH, reverse_cons. simpl. by rewrite <- app_assoc.
Qed.

Lemma getPixel_putPixel img x y c x' y' :
  getPixel (putPixel img x y c) x' y' =
  if decide ((x', y') = (x, y)) then c else getPixel img x' y'.
Proof.
  unfold getPixel, putPixel. simpl.
  case_decide as E.
  - injection E as -> ->. by rewrite !Z.eqb_refl.
  - destruct (Z.eqb_spec x' x), (Z.eqb_spec y' y); simpl; congruence.
Qed.

Lemma put_all_getPixel img pts c x y :
  getPixel (put_all img pts c) x y =
  if decide ((x, y) ∈ pts) then c else getPixel img x y.
Proof.
  revert img. induction pts as [|[px py] pts IH]; intros img; simpl.
  - done.
  - rewrite IH, getPixel_putPixel.
    repeat case_decide; try done;
      repeat match goal with
             | H : _ ∈ _ :: _ |- _ => apply elem_of_cons in H as [?|?]
             | H : _ ∉ _ :: _ |- _ => apply not_elem_of_cons in H as [? ?]
             end; congruence.
Qed.

(** A loop over a list whose body draws points that depend on the element
    and on the dimensions only. *)
Lemma fold_left_put_all {A} (f : Z -> Z -> A -> list (Z * Z)) body c (l : list A) img :
  (forall a img', body a img' = put_all img' (f (width img') (height img') a) c) ->
  fold_left (fun img a => body a img) l img =
  put_all img (flat_map (f (width img) (height img)) l) c.
Proof.
  intros Hbody. revert img. induction l as [|i l IH]; intros img; simpl; [done|].
  rewrite put_all_app, Hbody, IH.
  by rewrite put_all_width, put_all_height.
Qed.

Lemma for_range_put_all (f : Z -> Z -> Z -> list (Z * Z)) body c start stop img :
  (forall i img', body i img' = put_all img' (f (width img') (height img') i) c) ->
  for_range start stop body img =
  put_all img (flat_map (f (width img) (height img)) (seqZ start (stop - start))) c.
Proof. intros Hbody. unfold for_range. by apply fold_left_put_all. Qed.

Lemma elem_of_flat_map {A B} (f : A -> list B) (l : list A) (b : B) :
  b ∈ flat_map f l <-> exists a, a ∈ l /\ b ∈ f a.
Proof.
  setoid_rewrite list_elem_of_In. apply in_flat_map.
Qed.

Lemma in_bounds_true img x y :
  in_bounds img x y = true <-> 0 <= x < width img /\ 0 <= y < height img.
Proof. unfold in_bounds. rewrite !andb_true_iff. lia. Qed.


(** ** Rectangle outline *)

Lemma rectangle_outline_put_all img x y w h c :
  rectangle_outline img x y w h c =
  put_all img (outline_points x y w h (width img) (height img)) c.
Proof.
  unfold rectangle_outline, outline_points.
  rewrite put_all_app.
  rewrite (for_range_put_all (fun W H => outline_row x y w h W H) _ c).
  2:{ intros i img'. unfold outline_row. cbv beta.
      destruct ((0 <=? i) && (i <? height img')); [|done].
      destruct ((0 <=? x) && (x <? width img')); simpl;
        destruct ((0 <=? x + w - 1) && (x + w - 1 <? width img')); done. }
  rewrite (for_range_put_all (fun W H => outline_column x y w h W H) _ c).
  2:{ intros i img'. unfold outline_column. cbv beta.
      destruct ((0 <=? i) && (i <? width img')); [|done].
      destruct ((0 <=? y) && (y <? height img')); simpl;
        destruct ((0 <=? y + h - 1) && (y + h - 1 <? height img')); done. }
  rewrite put_all_width, put_all_height.
  by replace (x + w - x) with w by lia; replace (y + h - y) with h by lia.
Qed.

Lemma elem_of_outline_column x y w h W H px p :
  p ∈ outline_column x y w h W H px <->
  p.1 = px /\ (p.2 = y \/ p.2 = y + h - 1) /\ 0 <= p.1 < W /\ 0 <= p.2 < H.
Proof.
  destruct p as [a b]. unfold outline_column. simpl.
  bool_cases; rewrite ?elem_of_app, ?elem_of_cons, ?elem_of_nil;
    split; intros; destruct_and?; destruct_or?; simplify_eq; try lia; eauto;
    try (repeat split; eauto; lia).
Qed.

Lemma elem_of_outline_row x y w h W H py p :
  p ∈ outline_row x y w h W H py <->
  p.2 = py /\ (p.1 = x \/ p.1 = x + w - 1) /\ 0 <= p.1 < W /\ 0 <= p.2 < H.
Proof.
  destruct p as [a b]. unfold outline_row. simpl.
  bool_cases; rewrite ?elem_of_app, ?elem_of_cons, ?elem_of_nil;
    split; intros; destruct_and?; destruct_or?; simplify_eq; try lia; eauto;
    try (repeat split; eauto; lia).
Qed.

Lemma elem_of_outline_points x y w h W H p :
  1 <= w -> 1 <= h ->
  p ∈ outline_points x y w h W H <->
  on_border x y w h p /\ 0 <= p.1 < W /\ 0 <= p.2 < H.
Proof.
  intros Hw Hh. unfold outline_points, on_border.
  rewrite elem_of_app, !elem_of_flat_map.
  setoid_rewrite elem_of_seqZ.
  setoid_rewrite elem_of_outline_column.
  setoid_rewrite elem_of_outline_row.
  split.
  - intros [(px & ? & ?)|(py & ? & ?)]; lia.
  - intros (? & ? & ?).
    destruct (decide (p.2 = y \/ p.2 = y + h - 1)).
    + left. exists p.1. lia.
    + right. exists p.2. lia.
Qed.

Lemma elem_of_border_list x y w h p :
  2 <= w -> 2 <= h -> p ∈ border_list x y w h <-> on_border x y w h p.
Proof.
  intros Hw Hh. destruct p as [a b]. unfold border_list, on_border.
  rewrite !elem_of_app, !list_elem_of_fmap.
  setoid_rewrite elem_of_seqZ. simpl.
  split.
  - intros [(? & ? & ?)|[(? & ? & ?)|[(? & ? & ?)|(? & ? & ?)]]]; simplify_eq; lia.
  - intros (? & ? & ?).
    destruct (decide (b = y)) as [->|]; [left; exists a; split; [done|lia]|].
    destruct (decide (b = y + h - 1)) as [->|];
      [right; left; exists a; split; [done|lia]|].
    destruct (decide (a = x)) as [->|];
      [right; right; left; exists b; split; [done|lia]|].
    right; right; right. exists b. split; [f_equal; lia|lia].
Qed.

Lemma NoDup_border_list x y w h : 2 <= w -> 2 <= h -> NoDup (border_list x y w h).
Proof.
  intros Hw Hh. unfold border_list.
  repeat (apply NoDup_app; split_and!).
  all: try (apply NoDup_fmap_2; [intros ?? [=]; done|apply NoDup_seqZ]).
  all: intros [a b]; rewrite ?elem_of_app, !list_elem_of_fmap;
    setoid_rewrite elem_of_seqZ.
  all: intros (? & ? & ?) Hin; simplify_eq;
    destruct_or?; destruct Hin as (? & ? & ?); simplify_eq; lia.
Qed.

Lemma length_border_list x y w h :
  2 <= w -> 2 <= h -> Z.of_nat (length (border_list x y w h)) = 2 * w + 2 * h - 4.
Proof.
  intros Hw Hh. unfold border_list.
  rewrite !length_app, !length_fmap, !length_seqZ. lia.
Qed.

Section Rectangle.
Context {P : Primitives}.

(** C4.  Rectangle, outline mode, [w, h >= 2]: the script performs
    [putPixel] only at border pixels of the [w] x [h] rectangle that pass the
    surface bounds check, it reaches every border pixel lying on the surface,
    the pixels written take the rectangle colour and all others keep theirs,
    and the set of distinct pixels written has at most [2w + 2h - 4]
    elements, exactly that many when the rectangle lies on the surface. *)
Theorem draw_rectangle_outline_border (x y w h r g b a : Z) (app : App) doc img :
  2 <= w -> 2 <= h ->
  activeDocument app = Some doc -> activeImage doc = Some img ->
  exists img' written,
    activeDocument (draw_rectangle x y w h r g b a false app) = Some (drawn doc img') /\
    puts img' = written ++ puts img /\
    width img' = width img /\ height img' = height img /\
    (forall p, p ∈ written <-> on_border x y w h p /\ in_bounds img p.1 p.2 = true) /\
    (forall px py, getPixel img' px py =
                   if decide ((px, py) ∈ written) then rgba r g b a
                   else getPixel img px py) /\
    Z.of_nat (size (list_to_set written : gset (Z * Z))) <= 2 * w + 2 * h - 4 /\
    (0 <= x -> x + w <= width img -> 0 <= y -> y + h <= height img ->
     (list_to_set written : gset (Z * Z)) = list_to_set (border_list x y w h) /\
     Z.of_nat (size (list_to_set written : gset (Z * Z))) = 2 * w + 2 * h - 4).
Proof.
  intros Hw Hh Hdoc Himg.
  set (pts := outline_points x y w h (width img) (height img)).
  assert (Hin : forall p, p ∈ reverse pts <-> on_border x y w h p /\ in_bounds img p.1 p.2 = true).
  { intros p. rewrite elem_of_reverse, in_bounds_true.
    unfold pts. rewrite elem_of_outline_points by lia. tauto. }
  assert (Hsize : Z.of_nat (size (list_to_set (border_list x y w h) : gset (Z * Z)))
                  = 2 * w + 2 * h - 4).
  { rewrite size_list_to_set by (by apply NoDup_border_list).
    by apply length_border_list. }
  exists (rectangle_outline img x y w h (rgba r g b a)), (reverse pts).
  rewrite rectangle_outline_put_all. fold pts.
  split_and!.
  - unfold draw_rectangle. rewrite Hdoc, Himg. simpl.
    by rewrite rectangle_outline_put_all.
  - apply put_all_puts.
  - apply put_all_width.
  - apply put_all_height.
  - exact Hin.
  - intros px py. rewrite put_all_getPixel.
    repeat case_decide; try done; rewrite elem_of_reverse in *; done.
  - rewrite <- Hsize. apply inj_le, subseteq_size.
    intros p. rewrite !elem_of_list_to_set, Hin, elem_of_border_list by done. tauto.
  - intros Hx0 Hx1 Hy0 Hy1.
    assert (Heq : (list_to_set (reverse pts) : gset (Z * Z)) = list_to_set (border_list x y w h)).
    { apply set_eq. intros p.
      rewrite !elem_of_list_to_set, Hin, elem_of_border_list, in_bounds_true by done.
      unfold on_border. lia. }
    by rewrite Heq.
Qed.

End Rectangle.

Lemma draw_rectangle_outline_border_witness :
  exists img' written,
    activeDocument (draw_rectangle (P := Reference.primitives) 1 1 3 3 255 0 0 255 false Reference.app10)
      = Some (drawn Reference.document10 img') /\
    puts img' = written ++ puts Reference.canvas10 /\
    width img' = 10 /\ height img' = 10 /\
    (forall p, p ∈ written <->
               on_border 1 1 3 3 p /\ in_bounds Reference.canvas10 p.1 p.2 = true) /\
    (forall px py, getPixel img' px py =
                   if decide ((px, py) ∈ written) then Reference.rgba 255 0 0 255
                   else 0) /\
    Z.of_nat (size (list_to_set written : gset (Z * Z))) <= 8 /\
    (0 <= 1 -> 1 + 3 <= 10 -> 0 <= 1 -> 1 + 3 <= 10 ->
     (list_to_set written : gset (Z * Z)) = list_to_set (border_list 1 1 3 3) /\
     Z.of_nat (size (list_to_set written : gset (Z * Z))) = 8).
Proof.
  apply (draw_rectangle_outline_border (P := Reference.primitives)
           1 1 3 3 255 0 0 255 Reference.app10 Reference.document10 Reference.canvas10);
    [lia | lia | reflexivity | reflexivity].
Defined.

(** ** Replace colour *)

Lemma fold_left_flat_map {A B S} (f : S -> B -> S) (g : A -> list B) l s :
  fold_left f (flat_map g l) s = fold_left (fun s a => fold_left f (g a) s) l s.
Proof.
  revert s. induction l as [|a l IH]; intros s; simpl; [done|].
  by rewrite fold_left_app, IH.
Qed.

Lemma fold_left_fmap {A B S} (f : S -> B -> S) (g : A -> B) (l : list A) s :
  fold_left f (g <$> l) s = fold_left (fun s a => f s (g a)) l s.
Proof. revert s. induction l as [|a l IH]; intros s; simpl; [done|]. by rewrite IH. Qed.

Lemma fold_left_pointwise {A S} (f g : S -> A -> S) (l : list A) s :
  (forall s a, f s a = g s a) -> fold_left f l s = fold_left g l s.
Proof.
  intros Hfg. revert s. induction l as [|a l IH]; intros s; simpl; [done|].
  by rewrite Hfg, IH.
Qed.

(** Two nested [for] loops, rows outside and columns inside, visit the
    surface in row-major order. *)
Lemma rows_of_columns W H :
  flat_map (fun y => (fun x => (x, y)) <$> seqZ 0 W) (seqZ 0 H) = row_major W H.
Proof.
  unfold row_major.
  destruct (Z.le_gt_cases W 0) as [HW|HW].
  { replace (Z.max 0 W) with 0 by lia. simpl.
    rewrite (seqZ_nil 0 W) by done.
    induction (seqZ 0 H); simpl; done. }
  destruct (Z.le_gt_cases H 0) as [HH|HH].
  { replace (Z.max 0 H) with 0 by lia. rewrite Z.mul_0_r.
    by rewrite (seqZ_nil 0 H). }
  rewrite !Z.max_r by lia.
  rewrite <- (Z2Nat.id H) by lia.
  induction (Z.to_nat H) as [|n IH]; [by rewrite Z.mul_0_r|].
  rewrite seqZ_S, flat_map_app, IH. simpl. rewrite app_nil_r.
  replace (W * Z.of_nat (S n)) with (W * Z.of_nat n + W) by lia.
  rewrite seqZ_app, fmap_app by lia. f_equal.
  replace (seqZ (0 + W * Z.of_nat n) W) with (Z.add (W * Z.of_nat n) <$> seqZ 0 W)
    by (rewrite fmap_add_seqZ; f_equal; lia).
  rewrite <- list_fmap_compose.
  apply list_fmap_ext. intros i x Hx.
  apply list_elem_of_lookup_2, elem_of_seqZ in Hx. simpl.
  replace (W * Z.of_nat n + x) with (x + Z.of_nat n * W) by lia.
  rewrite Z_mod_plus_full, Z_div_plus_full by lia.
  by rewrite Z.mod_small, Z.div_small by lia.
Qed.

Lemma nested_loops_row_major {S} (step : Z -> Z -> S -> S) W H s :
  for_range 0 H (fun y st => for_range 0 W (fun x st => step x y st) st) s =
  fold_left (fun st p => step p.1 p.2 st) (row_major W H) s.
Proof.
  rewrite <- rows_of_columns, fold_left_flat_map.
  unfold for_range. rewrite !Z.sub_0_r.
  apply fold_left_pointwise. intros st y. by rewrite fold_left_fmap.
Qed.

Lemma elem_of_row_major W H p :
  p ∈ row_major W H <-> 0 <= p.1 < W /\ 0 <= p.2 < H.
Proof.
  rewrite <- rows_of_columns, elem_of_flat_map.
  setoid_rewrite elem_of_seqZ.
  destruct p as [a b]. simpl. split.
  all: setoid_rewrite list_elem_of_fmap; setoid_rewrite elem_of_seqZ.
  - intros (y & ? & x & ? & ?). simplify_eq. lia.
  - intros ?. exists b. split; [lia|]. exists a. split; [done|lia].
Qed.

Lemma NoDup_row_major W H : NoDup (row_major W H).
Proof.
  apply NoDup_fmap_2; [|apply NoDup_seqZ].
  intros k1 k2 [= Hm Hd].
  rewrite (Z_div_mod_eq_full k1 W), (Z_div_mod_eq_full k2 W). congruence.
Qed.

Lemma filter_ext_elem {A} (P Q : A -> Prop) `{!forall x, Decision (P x)}
      `{!forall x, Decision (Q x)} (l : list A) :
  (forall x, x ∈ l -> (P x <-> Q x)) -> filter P l = filter Q l.
Proof.
  induction l as [|a l IH]; intros HPQ; [done|].
  rewrite !filter_cons.
  rewrite IH by (intros x Hx; apply HPQ; by right).
  specialize (HPQ a ltac:(by left)).
  repeat case_decide; tauto.
Qed.

Section Replace.
Context {P : Primitives}.
Variables old_r old_g old_b newColor : Z.

Let step (st : Image * Z) (p : Z * Z) : Image * Z :=
  replace_step old_r old_g old_b newColor p.1 p.2 st.

(** A scan over distinct points tests every point against the picture it
    started with, rewrites the matching ones and counts them. *)
Lemma replace_fold l :
  NoDup l -> forall img cnt,
  let hits := filter (matching old_r old_g old_b img) l in
  let res := fold_left step l (img, cnt) in
  width res.1 = width img /\ height res.1 = height img /\
  puts res.1 = reverse hits ++ puts img /\
  res.2 = cnt + Z.of_nat (length hits) /\
  forall x y, getPixel res.1 x y =
              if decide ((x, y) ∈ hits) then newColor else getPixel img x y.
Proof.
  induction 1 as [|p l Hp Hl IH]; intros img cnt; simpl.
  { split_and!; try done. lia. }
  destruct p as [px py].
  unfold step at 2, replace_step. simpl.
  rewrite filter_cons.
  destruct (rgb_matches old_r old_g old_b (getPixel img px py)) eqn:Hm.
  - rewrite decide_True by done.
    destruct (IH (putPixel img px py newColor) (cnt + 1)) as (Hw & Hh & Hputs & Hcnt & Hpix).
    assert (Hf : filter (matching old_r old_g old_b (putPixel img px py newColor)) l
                 = filter (matching old_r old_g old_b img) l).
    { apply filter_ext_elem. intros [qx qy] Hq. unfold matching. cbn [fst snd].
      rewrite getPixel_putPixel. rewrite decide_False; [done|]. intros [= -> ->]. done. }
    rewrite Hf in *.
    split_and!; try done.
    + rewrite Hputs, reverse_cons. simpl. by rewrite <- app_assoc.
    + rewrite Hcnt. simpl length. lia.
    + intros x y. rewrite Hpix, getPixel_putPixel.
      repeat case_decide; try done;
        repeat match goal with
               | H : _ ∈ _ :: _ |- _ => apply elem_of_cons in H as [?|?]
               | H : _ ∉ _ :: _ |- _ => apply not_elem_of_cons in H as [? ?]
               end; congruence.
  - rewrite decide_False by (unfold matching; simpl; congruence).
    apply IH.
Qed.

End Replace.

(** The reference codec satisfies the channel laws. *)
Lemma channel_high_bits v n : channel v -> 8 <= n -> Z.testbit v n = false.
Proof.
  intros [H0 H255] Hn.
  destruct (decide (v = 0)) as [->|]; [apply Z.bits_0|].
  apply Z.bits_above_log2; [lia|].
  assert (Z.log2 v < 8); [|lia].
  apply Z.log2_lt_pow2; simpl; lia.
Qed.

Lemma testbit_255 n : 0 <= n -> Z.testbit 255 n = (n <? 8).
Proof.
  intros Hn. change 255 with (Z.ones 8).
  destruct (Z.ltb_spec n 8).
  - apply Z.ones_spec_low. lia.
  - apply Z.ones_spec_high. lia.
Qed.

Lemma reference_extract r g b a k v :
  channel r -> channel g -> channel b -> channel a ->
  (k = 0 /\ v = r) \/ (k = 8 /\ v = g) \/ (k = 16 /\ v = b) \/ (k = 24 /\ v = a) ->
  Z.land (Z.shiftr (Reference.rgba r g b a) k) 255 = v.
Proof.
  intros Hr Hg Hb Ha Hk. unfold Reference.rgba.
  apply Z.bits_inj'. intros n Hn.
  rewrite Z.land_spec, testbit_255, Z.shiftr_spec, !Z.lor_spec by done.
  rewrite !Z.shiftl_spec by lia.
  destruct (Z.ltb_spec n 8).
  - rewrite andb_true_r.
    destruct Hk as [[-> ->]|[[-> ->]|[[-> ->]|[-> ->]]]].
    + rewrite Z.add_0_r, !(Z.testbit_neg_r _ (n - _)) by lia. by rewrite !orb_false_r.
    + replace (n + 8 - 8) with n by lia.
      rewrite (channel_high_bits r), !(Z.testbit_neg_r _ (n + 8 - _)) by (done || lia).
      by rewrite !orb_false_r.
    + replace (n + 16 - 16) with n by lia.
      rewrite (channel_high_bits r), (channel_high_bits g), (Z.testbit_neg_r _ (n + 16 - 24))
        by (done || lia).
      by rewrite !orb_false_r.
    + replace (n + 24 - 24) with n by lia.
      by rewrite (channel_high_bits r), (channel_high_bits g), (channel_high_bits b)
        by (done || lia).
  - rewrite andb_false_r. symmetry.
    destruct Hk as [[-> ->]|[[-> ->]|[[-> ->]|[-> ->]]]]; by apply channel_high_bits.
Qed.

#[global] Instance reference_laws : PixelColorLaws Reference.primitives.
Proof.
  split; simpl.
  - intros r g b a ????. unfold Reference.rgbaR.
    rewrite <- (Z.shiftr_0_r (Reference.rgba r g b a)). apply reference_extract; auto.
  - intros r g b a ????. apply reference_extract; auto.
  - intros r g b a ????. apply reference_extract; auto 10.
  - intros r g b a a' ????? Heq.
    rewrite <- (reference_extract r g b a 24 a), <- (reference_extract r g b a' 24 a')
      by auto 10.
    by rewrite Heq.
Qed.

Section ReplaceColor.
Context {P : Primitives} {L : PixelColorLaws P}.

(** C3.  Replace colour: the scan visits the surface in row-major order; a
    pixel matches exactly when its red, green and blue channels are the old
    colour's, whatever its alpha; every matching pixel, and no other, is
    rewritten to the new colour with its alpha; the reported count is the
    number of matching pixels. *)
Theorem replace_color_rgb_only
        (old_r old_g old_b new_r new_g new_b new_a : Z) (app : App) doc img :
  activeDocument app = Some doc -> activeImage doc = Some img ->
  let newColor := rgba new_r new_g new_b new_a in
  let scan := row_major (width img) (height img) in
  let hits := filter (matching old_r old_g old_b img) scan in
  let app' := replace_color old_r old_g old_b new_r new_g new_b new_a app in
  (* row-major scan *)
  replace_scan old_r old_g old_b newColor img =
    fold_left (fun st p => replace_step old_r old_g old_b newColor p.1 p.2 st) scan (img, 0) /\
  (forall p, p ∈ scan <-> in_bounds img p.1 p.2 = true) /\
  (* matching reads the three colour channels only *)
  (forall p, matching old_r old_g old_b img p <->
             rgbaR (getPixel img p.1 p.2) = old_r /\
             rgbaG (getPixel img p.1 p.2) = old_g /\
             rgbaB (getPixel img p.1 p.2) = old_b) /\
  (forall p alpha, channel old_r -> channel old_g -> channel old_b -> channel alpha ->
             getPixel img p.1 p.2 = rgba old_r old_g old_b alpha ->
             matching old_r old_g old_b img p) /\
  exists img',
    activeDocument app' = Some (drawn doc img') /\
    width img' = width img /\ height img' = height img /\
    (* the writes are the matching pixels, in scan order *)
    puts img' = reverse hits ++ puts img /\
    (forall x y, getPixel img' x y =
                 if decide ((x, y) ∈ hits) then newColor else getPixel img x y) /\
    (* the report *)
    console app' = console app ++
      [("Replaced " ++ str_int (Z.of_nat (length hits)) ++ " pixels from rgba("
        ++ str_int old_r ++ "," ++ str_int old_g ++ "," ++ str_int old_b
        ++ ",*) to rgba(" ++ str_int new_r ++ "," ++ str_int new_g ++ ","
        ++ str_int new_b ++ "," ++ str_int new_a ++ ")")%string].
Proof.
  intros Hdoc Himg newColor scan hits app'.
  assert (Hscan : replace_scan old_r old_g old_b newColor img =
    fold_left (fun st p => replace_step old_r old_g old_b newColor p.1 p.2 st) scan (img, 0)).
  { unfold replace_scan. apply nested_loops_row_major. }
  split_and!.
  - exact Hscan.
  - intros p. unfold scan. by rewrite elem_of_row_major, in_bounds_true.
  - intros p. unfold matching, rgb_matches. rewrite !andb_true_iff, !Z.eqb_eq. tauto.
  - intros p alpha Hr Hg Hb Ha Hp. unfold matching, rgb_matches. rewrite Hp.
    rewrite rgbaR_rgba, rgbaG_rgba, rgbaB_rgba by done.
    by rewrite !Z.eqb_refl.
  - destruct (replace_fold old_r old_g old_b newColor scan (NoDup_row_major _ _) img 0)
      as (Hw & Hh & Hputs & Hcnt & Hpix).
    rewrite <- Hscan in *. fold hits in Hputs, Hcnt, Hpix.
    destruct (replace_scan old_r old_g old_b newColor img) as [img' n] eqn:Hres.
    simpl in *. exists img'.
    unfold app', replace_color. rewrite Hdoc, Himg. fold newColor. rewrite Hres.
    split_and!; try done.
    simpl. by rewrite Hcnt.
Qed.

End ReplaceColor.

(** The theorem above on the reference host, for a surface whose pixels all
    carry the old colour with alpha 0. *)
Lemma replace_color_rgb_only_witness :
  let img := mkImage 2 2 (fun _ _ => Reference.rgba 10 20 30 0) [] in
  let doc := mkDocument (sprite Reference.document10) (Some img) 0 0 in
  let app := mkApp (Some doc) [] [] in
  exists img',
    activeDocument (replace_color (P := Reference.primitives) 10 20 30 1 2 3 255 app)
      = Some (drawn doc img') /\
    puts img' = [(1, 1); (0, 1); (1, 0); (0, 0)] /\
    console (replace_color (P := Reference.primitives) 10 20 30 1 2 3 255 app)
      = ["Replaced 4 pixels from rgba(10,20,30,*) to rgba(1,2,3,255)"%string].
Proof.
  intros img doc app.
  destruct (replace_color_rgb_only (P := Reference.primitives)
              10 20 30 1 2 3 255 app doc img eq_refl eq_refl)
    as (_ & _ & _ & _ & img' & Hdoc & _ & _ & Hputs & _ & Hcon).
  exists img'. split_and!; [exact Hdoc | exact Hputs | exact Hcon].
Defined.

(** ** Line *)

Lemma stamp_put_all thickness c x y img :
  stamp thickness c x y img =
  put_all img (stamp_points thickness (width img) (height img) (x, y)) c.
Proof.
  unfold stamp, stamp_points, for_range.
  apply (fold_left_put_all (fun W H ty =>
           flat_map (stamp_offset thickness W H x y ty) _)).
  intros ty img'.
  apply (fold_left_put_all (fun W H tx => stamp_offset thickness W H x y ty tx)).
  intros tx img''. unfold stamp_offset, in_bounds.
  destruct (_ && _ && _ && _); [|done].
  by destruct (_ || _).
Qed.

Lemma line_loop_walk fuel thickness c x2 y2 dx dy sx sy x y err img :
  line_loop fuel thickness c x2 y2 dx dy sx sy x y err img =
  (fun path => fold_left (fun img p => stamp thickness c p.1 p.2 img) path img)
    <$> line_walk fuel x2 y2 dx dy sx sy x y err.
Proof.
  revert x y err img. induction fuel as [|fuel IH]; intros x y err img; simpl; [done|].
  destruct ((x =? x2) && (y =? y2)); [done|].
  destruct (2 * err >? - dy), (2 * err <? dx); rewrite IH;
    by destruct (line_walk _ _ _ _ _ _ _ _ _ _).
Qed.

Lemma line_stamps thickness c path img :
  fold_left (fun img p => stamp thickness c p.1 p.2 img) path img =
  put_all img (flat_map (stamp_points thickness (width img) (height img)) path) c.
Proof.
  apply (fold_left_put_all (fun W H p => stamp_points thickness W H p)).
  intros [x y] img'. apply stamp_put_all.
Qed.

Section Walk.
Variables x1 y1 x2 y2 : Z.

Let dx := Z.abs (x2 - x1).
Let dy := Z.abs (y2 - y1).
Let sx := if x1 <? x2 then 1 else -1.
Let sy := if y1 <? y2 then 1 else -1.

(** After [i] steps along x and [j] steps along y the loop is at
    [(x1 + sx*i, y1 + sy*j)] with [err = dx - dy - i*dy + j*dx]. *)
Let deviation (i j : Z) : Z := i * dy - j * dx.

Let band (i j : Z) : Prop :=
  (dy <= dx -> (- dx < 2 * deviation i j <= dx) \/ dx = 0) /\
  (dx < dy -> - dy <= 2 * deviation i j < dy).

(** Iterations left: the steps still to take along the major axis. *)
Let remaining (i j : Z) : Z := if dy <=? dx then dx - i else dy - j.

Lemma endpoint_x : x2 = x1 + sx * dx.
Proof. unfold sx, dx. destruct (Z.ltb_spec x1 x2); lia. Qed.

Lemma endpoint_y : y2 = y1 + sy * dy.
Proof. unfold sy, dy. destruct (Z.ltb_spec y1 y2); lia. Qed.

Lemma walk_from fuel : forall i j,
  0 <= i <= dx -> 0 <= j <= dy -> band i j ->
  (Z.to_nat (remaining i j) < fuel)%nat ->
  exists path,
    line_walk fuel x2 y2 dx dy sx sy (x1 + sx * i) (y1 + sy * j)
              (dx - dy - i * dy + j * dx) = Some path /\
    Z.of_nat (length path) = remaining i j + 1 /\
    head path = Some (x1 + sx * i, y1 + sy * j) /\
    last path = Some (x2, y2) /\
    chain (advances sx sy) path /\
    Forall (near_segment x1 y1 x2 y2) path.
Proof.
  assert (Hsx : sx = 1 \/ sx = -1) by (unfold sx; destruct (x1 <? x2); lia).
  assert (Hsy : sy = 1 \/ sy = -1) by (unfold sy; destruct (y1 <? y2); lia).
  assert (Hdx : 0 <= dx) by (unfold dx; lia).
  assert (Hdy : 0 <= dy) by (unfold dy; lia).
  assert (Hnear : forall i j, 0 <= i <= dx -> 0 <= j <= dy -> band i j ->
                    near_segment x1 y1 x2 y2 (x1 + sx * i, y1 + sy * j)).
  { intros i j Hi Hj [Hb1 Hb2]. unfold near_segment. simpl.
    fold dx dy. rewrite endpoint_x, endpoint_y.
    replace ((x1 + sx * i - x1) * (y1 + sy * dy - y1)
             - (y1 + sy * j - y1) * (x1 + sx * dx - x1))
      with (sx * sy * deviation i j) by (unfold deviation; ring).
    assert (Hab : Z.abs (sx * sy * deviation i j) = Z.abs (deviation i j)).
    { destruct Hsx as [-> | ->], Hsy as [-> | ->]; simpl; lia. }
    rewrite Hab.
    destruct (Z.le_gt_cases dy dx) as [Hc|Hc].
    - destruct (Hb1 Hc) as [?|E]; [lia|].
      assert (dy = 0) by lia. unfold deviation. nia.
    - specialize (Hb2 Hc). lia. }
  induction fuel as [|fuel IH]; intros i j Hi Hj Hband Hfuel; [lia|].
  simpl.
  destruct ((x1 + sx * i =? x2) && (y1 + sy * j =? y2)) eqn:Hend.
  { apply andb_true_iff in Hend as [Hex Hey].
    apply Z.eqb_eq in Hex, Hey.
    assert (i = dx) by (rewrite endpoint_x in Hex; nia).
    assert (j = dy) by (rewrite endpoint_y in Hey; nia).
    subst i j. eexists. split; [done|]. simpl.
    split_and!; try done.
    - unfold remaining. destruct (dy <=? dx); lia.
    - by rewrite <- endpoint_x, <- endpoint_y.
    - constructor; [|constructor]. by apply Hnear. }
  assert (Hnot : i < dx \/ j < dy).
  { apply andb_false_iff in Hend as [Hex|Hey].
    - apply Z.eqb_neq in Hex. rewrite endpoint_x in Hex.
      left. destruct (decide (i = dx)); [subst; done|lia].
    - apply Z.eqb_neq in Hey. rewrite endpoint_y in Hey.
      right. destruct (decide (j = dy)); [subst; done|lia]. }
  pose proof Hband as [Hb1 Hb2]. unfold deviation in Hb1, Hb2.
  set (xstep := 2 * (dx - dy - i * dy + j * dx) >? - dy).
  set (ystep := 2 * (dx - dy - i * dy + j * dx) <? dx).
  set (i' := if xstep then i + 1 else i).
  set (j' := if ystep then j + 1 else j).
  assert (Hstate : (let '(err, x') := if xstep
                      then (dx - dy - i * dy + j * dx - dy, x1 + sx * i + sx)
                      else (dx - dy - i * dy + j * dx, x1 + sx * i) in
                    let '(err0, y') := if ystep then (err + dx, y1 + sy * j + sy)
                                       else (err, y1 + sy * j) in
                    cons (x1 + sx * i, y1 + sy * j) <$>
                      line_walk fuel x2 y2 dx dy sx sy x' y' err0)
                   = cons (x1 + sx * i, y1 + sy * j) <$>
                       line_walk fuel x2 y2 dx dy sx sy (x1 + sx * i') (y1 + sy * j')
                                 (dx - dy - i' * dy + j' * dx)).
  { unfold i', j'. destruct xstep, ystep; do 2 f_equal; ring. }
  rewrite Hstate. clear Hstate.
  assert (Hmajor : (dy <= dx -> xstep = true) /\ (dx < dy -> ystep = true)).
  { unfold xstep, ystep. split; intros Hc.
    - apply Z.gtb_lt. destruct (Hb1 Hc) as [Hb|Hb]; [|lia].
      destruct (decide (dy = dx)) as [E|]; [|lia].
      assert (i = j) by nia. subst. nia.
    - apply Z.ltb_lt. specialize (Hb2 Hc). lia. }
  assert (Hi' : 0 <= i' <= dx).
  { unfold i', xstep. destruct (Z.gtb_spec (2 * (dx - dy - i * dy + j * dx)) (- dy)); [|lia].
    destruct (decide (i = dx)); [|lia]. subst i. exfalso. nia. }
  assert (Hj' : 0 <= j' <= dy).
  { unfold j', ystep. destruct (Z.ltb_spec (2 * (dx - dy - i * dy + j * dx)) dx); [|lia].
    destruct (decide (j = dy)); [|lia]. subst j. exfalso. nia. }
  assert (Hband' : band i' j').
  { unfold band, deviation, i', j', xstep, ystep in *.
    destruct (Z.gtb_spec (2 * (dx - dy - i * dy + j * dx)) (- dy)),
             (Z.ltb_spec (2 * (dx - dy - i * dy + j * dx)) dx);
      split; intros Hc; try (specialize (Hb1 ltac:(lia))); try (specialize (Hb2 ltac:(lia)));
      destruct Hmajor as [Hm1 Hm2]; try lia.
    all: try (specialize (Hm1 Hc)); try (specialize (Hm2 Hc)).
    all: try (apply Z.gtb_lt in Hm1); try (apply Z.ltb_lt in Hm2); lia. }
  destruct (IH i' j' Hi' Hj' Hband') as (path & Hwalk & Hlen & Hhead & Hlast & Hchain & Hall).
  { destruct Hmajor as [Hm1 Hm2]. unfold remaining, i', j' in *.
    destruct (Z.leb_spec dy dx) as [Hc|Hc].
    - rewrite (Hm1 Hc) in *. lia.
    - rewrite (Hm2 Hc) in *. lia. }
  rewrite Hwalk. simpl. eexists. split; [done|].
  split_and!.
  - simpl. rewrite Nat2Z.inj_succ, Hlen.
    destruct Hmajor as [Hm1 Hm2]. unfold remaining, i', j'.
    destruct (Z.leb_spec dy dx) as [Hc|Hc].
    + rewrite (Hm1 Hc). lia.
    + rewrite (Hm2 Hc). lia.
  - done.
  - destruct path as [|q path]; [done|]. by rewrite last_cons_cons.
  - destruct path as [|q path]; [done|]. simpl in Hhead. injection Hhead as ->.
    split; [|done]. unfold advances. simpl.
    assert (xstep = true \/ ystep = true).
    { destruct Hmajor as [Hm1 Hm2]. destruct (Z.le_gt_cases dy dx); auto. }
    unfold i', j'. destruct xstep eqn:Ex, ystep eqn:Ey; split_and!; try lia.
    all: intros Heq; injection Heq; intros; try lia; destruct H; congruence.
  - constructor; [by apply Hnear|done].
Qed.

End Walk.

Lemma Qle_bool_quarter s t :
  Qle_bool (inject_Z s) ((t # 2) * (t # 2)) = (4 * s <=? t * t).
Proof.
  unfold Qle_bool. simpl. f_equal; lia.
Qed.

Lemma elem_of_stamp_points thickness W H x y q :
  q ∈ stamp_points thickness W H (x, y) <->
  exists tx ty,
    q = (x + tx, y + ty) /\
    - (thickness `div` 2) <= tx <= thickness `div` 2 /\
    - (thickness `div` 2) <= ty <= thickness `div` 2 /\
    (0 <= x + tx < W /\ 0 <= y + ty < H) /\
    (thickness = 1 \/ 4 * (tx * tx + ty * ty) <= thickness * thickness).
Proof.
  unfold stamp_points. cbn [fst snd].
  change (Qfloor (thickness # 2)) with (thickness `div` 2).
  rewrite elem_of_flat_map. setoid_rewrite elem_of_flat_map.
  setoid_rewrite elem_of_seqZ.
  assert (Hoff : forall ty tx, q ∈ stamp_offset thickness W H x y ty tx <->
            q = (x + tx, y + ty) /\ (0 <= x + tx < W /\ 0 <= y + ty < H) /\
            (thickness = 1 \/ 4 * (tx * tx + ty * ty) <= thickness * thickness)).
  { intros ty tx. unfold stamp_offset. rewrite Qle_bool_quarter.
    destruct (_ && _ && _ && _) eqn:Hb.
    - rewrite !andb_true_iff in Hb.
      destruct (_ || _) eqn:Ht.
      + rewrite orb_true_iff, Z.eqb_eq, Z.leb_le in Ht.
        rewrite list_elem_of_singleton. intuition lia.
      + rewrite orb_false_iff, Z.eqb_neq, Z.leb_gt in Ht.
        rewrite elem_of_nil. intuition lia.
    - rewrite elem_of_nil. split; [done|]. intros (_ & ? & _).
      rewrite <- not_true_iff_false, !andb_true_iff in Hb. lia. }
  setoid_rewrite Hoff.
  split.
  - intros (ty & ? & tx & ? & ? & ? & ?). exists tx, ty. split_and!; try done; lia.
  - intros (tx & ty & ? & ? & ? & ? & ?). exists ty. split; [lia|].
    exists tx. split; [lia|]. done.
Qed.

Lemma stamp_points_thin W H p :
  stamp_points 1 W H p =
  if (0 <=? p.1) && (p.1 <? W) && (0 <=? p.2) && (p.2 <? H) then [p] else [].
Proof.
  destruct p as [x y]. unfold stamp_points. cbn [fst snd].
  change (Qfloor (1 # 2)) with 0. change (seqZ (- 0) (0 + 1 - - 0)) with [0].
  simpl. unfold stamp_offset. rewrite !Z.add_0_r, !app_nil_r.
  by destruct (_ && _ && _ && _).
Qed.

Lemma thin_line_points W H img path :
  W = width img -> H = height img ->
  flat_map (stamp_points 1 W H) path =
  filter (fun p => in_bounds img p.1 p.2 = true) path.
Proof.
  intros -> ->. induction path as [|p path IH]; simpl; [done|].
  rewrite filter_cons, IH, stamp_points_thin. unfold in_bounds.
  destruct (_ && _ && _ && _); by rewrite ?decide_True, ?decide_False by done.
Qed.

Lemma thick_stamp_reach thickness tx ty :
  1 < thickness -> 4 * (tx * tx + ty * ty) <= thickness * thickness ->
  - (thickness `div` 2) <= tx <= thickness `div` 2 /\
  - (thickness `div` 2) <= ty <= thickness `div` 2.
Proof.
  intros Ht Hd.
  pose proof (Z.div_mod thickness 2 ltac:(lia)) as Hdm.
  pose proof (Z.mod_pos_bound thickness 2 ltac:(lia)) as Hm.
  set (k := thickness `div` 2) in *.
  assert (Hk : 0 <= k) by lia.
  assert (thickness < 2 * (k + 1)) by lia.
  split; split; nia.
Qed.

Lemma line_walk_mono f1 : forall f2 x2 y2 dx dy sx sy x y err p,
  (f1 <= f2)%nat ->
  line_walk f1 x2 y2 dx dy sx sy x y err = Some p ->
  line_walk f2 x2 y2 dx dy sx sy x y err = Some p.
Proof.
  induction f1 as [|f1 IH]; intros f2 x2 y2 dx dy sx sy x y err p Hle Hp; [done|].
  destruct f2 as [|f2]; [lia|].
  cbn [line_walk] in *.
  destruct ((x =? x2) && (y =? y2)); [done|].
  destruct (2 * err >? - dy), (2 * err <? dx).
  all: match type of Hp with
       | cons _ <$> ?w = _ => destruct w as [p'|] eqn:Hp'; [|done]
       end.
  all: by rewrite (IH f2 _ _ _ _ _ _ _ _ _ p' ltac:(lia) Hp').
Qed.

Section Line.
Context {P : Primitives}.

(** C5.  Line: the loop walks a path of [max(|x2-x1|, |y2-y1|) + 1] points
    from [(x1, y1)] to [(x2, y2)], each a one-pixel move on from the last
    and each within half a pixel of the segment (the Bresenham path), and it
    ends.  With thickness 1 the script performs one [putPixel] for each path
    point that passes the bounds check and nothing else; with thickness
    above 1 it writes, around each path point, every in-bounds offset
    [(tx, ty)] with [tx^2 + ty^2 <= (thickness/2)^2]. *)
Theorem draw_line_rasterized (x1 y1 x2 y2 r g b a thickness : Z) (app : App) doc img :
  activeDocument app = Some doc -> activeImage doc = Some img ->
  let n := Z.max (Z.abs (x2 - x1)) (Z.abs (y2 - y1)) in
  let sx := if x1 <? x2 then 1 else -1 in
  let sy := if y1 <? y2 then 1 else -1 in
  exists path,
    Z.of_nat (length path) = n + 1 /\
    head path = Some (x1, y1) /\
    last path = Some (x2, y2) /\
    chain (advances sx sy) path /\
    Forall (near_segment x1 y1 x2 y2) path /\
    forall fuel, (Z.to_nat n < fuel)%nat ->
    exists img' written,
      draw_line fuel x1 y1 x2 y2 r g b a thickness app =
        Some (log ("Drew line from (" ++ str_int x1 ++ "," ++ str_int y1 ++ ") to ("
                   ++ str_int x2 ++ "," ++ str_int y2 ++ ") thickness "
                   ++ str_int thickness)
                  (set_image img' doc app)) /\
      width img' = width img /\ height img' = height img /\
      puts img' = reverse written ++ puts img /\
      (forall x y, getPixel img' x y =
                   if decide ((x, y) ∈ written) then rgba r g b a else getPixel img x y) /\
      (thickness = 1 ->
       written = filter (fun p => in_bounds img p.1 p.2 = true) path) /\
      (1 < thickness ->
       forall q, q ∈ written <->
                 in_bounds img q.1 q.2 = true /\
                 exists p tx ty, p ∈ path /\ q = (p.1 + tx, p.2 + ty) /\
                   4 * (tx * tx + ty * ty) <= thickness * thickness).
Proof.
  intros Hdoc Himg n sx sy.
  destruct (walk_from x1 y1 x2 y2 (S (Z.to_nat n)) 0 0) as
      (path & Hwalk & Hlen & Hhead & Hlast & Hchain & Hnear).
  { lia. } { lia. }
  { split; intros; rewrite ?Z.mul_0_l; lia. }
  { fold n. destruct (_ <=? _); unfold n; lia. }
  rewrite !Z.mul_0_r, !Z.mul_0_l, !Z.add_0_r, !Z.sub_0_r in *.
  exists path. split_and!; try done.
  { rewrite Hlen. unfold n. destruct (Z.leb_spec (Z.abs (y2 - y1)) (Z.abs (x2 - x1))); lia. }
  intros fuel Hfuel.
  assert (Hwalk' : line_walk fuel x2 y2 (Z.abs (x2 - x1)) (Z.abs (y2 - y1)) sx sy x1 y1
                     (Z.abs (x2 - x1) - Z.abs (y2 - y1)) = Some path).
  { apply (line_walk_mono (S (Z.to_nat n))); [lia|done]. }
  set (written := flat_map (stamp_points thickness (width img) (height img)) path).
  exists (put_all img written (rgba r g b a)), written.
  split_and!.
  - unfold draw_line. rewrite Hdoc, Himg. cbv zeta.
    rewrite line_loop_walk. fold sx sy. rewrite Hwalk'. simpl.
    by rewrite line_stamps.
  - apply put_all_width.
  - apply put_all_height.
  - apply put_all_puts.
  - intros x y. apply put_all_getPixel.
  - intros ->. by apply thin_line_points.
  - intros Ht q. unfold written. rewrite elem_of_flat_map. split.
    + intros ([px py] & Hp & Hq).
      apply elem_of_stamp_points in Hq as (tx & ty & -> & _ & _ & Hb & [->|Hd]); [lia|].
      split; [by apply in_bounds_true|].
      by exists (px, py), tx, ty.
    + intros (Hb & [px py] & tx & ty & Hp & Hq & Hd).
      exists (px, py). split; [done|].
      apply elem_of_stamp_points. exists tx, ty.
      destruct (thick_stamp_reach thickness tx ty Ht Hd).
      destruct q as [qx qy]. simpl in Hq. injection Hq as -> ->.
      apply in_bounds_true in Hb. simpl in Hb. split_and!; try done; try lia.
Qed.

End Line.

Lemma draw_line_rasterized_witness :
  exists path,
    Z.of_nat (length path) = 6 /\
    head path = Some (0, 0) /\ last path = Some (5, 3) /\
    forall fuel, (5 < fuel)%nat ->
    exists img' written,
      draw_line (P := Reference.primitives) fuel 0 0 5 3 255 0 0 255 1 Reference.app10 =
        Some (log "Drew line from (0,0) to (5,3) thickness 1"
                  (set_image img' Reference.document10 Reference.app10)) /\
      written = filter (fun p => in_bounds Reference.canvas10 p.1 p.2 = true) path.
Proof.
  destruct (draw_line_rasterized (P := Reference.primitives) 0 0 5 3 255 0 0 255 1
              Reference.app10 Reference.document10 Reference.canvas10 eq_refl eq_refl)
    as (path & Hlen & Hhead & Hlast & _ & _ & Hrun).
  exists path. split_and!; [exact Hlen | exact Hhead | exact Hlast |].
  intros fuel Hfuel.
  destruct (Hrun fuel Hfuel) as (img' & written & Hdraw & _ & _ & _ & _ & Hthin & _).
  exists img', written. split; [exact Hdraw | exact (Hthin eq_refl)].
Defined.

(** ** Flood fill *)

Lemma region_target img t seed p : region img t seed p -> target_at img t p.
Proof. by destruct 1. Qed.

Lemma length_le_row_major img (ws : list (Z * Z)) :
  NoDup ws -> (forall p, p ∈ ws -> in_bounds img p.1 p.2 = true) ->
  (length ws <= length (row_major (width img) (height img)))%nat.
Proof.
  intros Hnd Hin. apply submseteq_length, NoDup_submseteq; [done|].
  intros p Hp. apply elem_of_row_major, in_bounds_true, Hin, Hp.
Qed.

Section Flood.
Variables (img0 : Image) (fill t : Z) (seed : Z * Z).
Hypothesis fill_fresh : fill <> t.
Hypothesis seed_target : target_at img0 t seed.

Lemma flood_inv_start : flood_inv img0 fill t seed img0 [seed] [].
Proof.
  split; try done.
  - constructor.
  - intros p Hp. by apply elem_of_nil in Hp.
  - right. by left.
  - intros p q Hp. by apply elem_of_nil in Hp.
  - intros q Hq _. apply list_elem_of_singleton in Hq as ->. by constructor.
Qed.

Lemma flood_inv_skip img x y stack ws :
  flood_inv img0 fill t seed img ((x, y) :: stack) ws ->
  in_bounds img x y = false \/ getPixel img x y <> t ->
  flood_inv img0 fill t seed img stack ws.
Proof.
  intros [Hw Hh Hpix Hputs Hnd Hreg Hseed Hclosed Hstack] Hskip.
  assert (Hback : forall q, q = (x, y) -> target_at img0 t q -> q ∈ ws).
  { intros q -> [Hb Ht]. simpl in *.
    destruct Hskip as [Hoob|Hne].
    - unfold in_bounds in *. rewrite Hw, Hh in Hoob. congruence.
    - rewrite Hpix in Hne. case_decide; [done|congruence]. }
  split; try done.
  - destruct Hseed as [?|Hs]; [by left|].
    apply elem_of_cons in Hs as [->|?]; [left|by right]. by apply Hback.
  - intros p q Hp Hadj Hq.
    destruct (Hclosed p q Hp Hadj Hq) as [?|Hs]; [by left|].
    apply elem_of_cons in Hs as [->|?]; [left|by right]. by apply Hback.
  - intros q Hq. apply Hstack. by right.
Qed.

Lemma flood_inv_write img x y stack ws :
  flood_inv img0 fill t seed img ((x, y) :: stack) ws ->
  in_bounds img x y = true -> getPixel img x y = t ->
  flood_inv img0 fill t seed (putPixel img x y fill)
            ((x, y - 1) :: (x, y + 1) :: (x - 1, y) :: (x + 1, y) :: stack)
            ((x, y) :: ws).
Proof.
  intros [Hw Hh Hpix Hputs Hnd Hreg Hseed Hclosed Hstack] Hb Ht.
  assert (Hnew : (x, y) ∉ ws).
  { intros Hin. rewrite Hpix, decide_True in Ht by done. done. }
  assert (Htarget : target_at img0 t (x, y)).
  { split; simpl.
    - unfold in_bounds in *. by rewrite <- Hw, <- Hh.
    - rewrite Hpix, decide_False in Ht by done. done. }
  assert (Hregion : region img0 t seed (x, y)).
  { apply Hstack; [by left|done]. }
  split; try done.
  - intros x' y'. rewrite getPixel_putPixel, Hpix.
    repeat case_decide; try done;
      repeat match goal with
             | H : _ ∈ _ :: _ |- _ => apply elem_of_cons in H as [?|?]
             | H : _ ∉ _ :: _ |- _ => apply not_elem_of_cons in H as [? ?]
             end; congruence.
  - simpl. by rewrite Hputs.
  - by constructor.
  - intros p Hp. apply elem_of_cons in Hp as [->|?]; [done|by apply Hreg].
  - destruct Hseed as [?|Hs]; [left; by right|].
    apply elem_of_cons in Hs as [->|?]; [left; by left|].
    right. by do 4 right.
  - intros p q Hp Hadj Hq.
    apply elem_of_cons in Hp as [->|Hp].
    + right. unfold adjacent4 in Hadj. simpl in Hadj.
      destruct Hadj as [-> | [-> | [-> | ->]]]; rewrite !elem_of_cons; tauto.
    + destruct (Hclosed p q Hp Hadj Hq) as [?|Hs]; [left; by right|].
      apply elem_of_cons in Hs as [->|?]; [left; by left|].
      right. by do 4 right.
  - intros q Hq Hqt.
    repeat (apply elem_of_cons in Hq as [->|Hq];
            [apply (region_step _ _ _ (x, y)); [done| |done]; unfold adjacent4; simpl; tauto|]).
    apply Hstack; [by right|done].
Qed.

(** The loop ends within its budget and preserves the invariant. *)
Lemma flood_loop_inv fuel : forall img stack ws,
  flood_inv img0 fill t seed img stack ws ->
  (length stack + 4 * (length (row_major (width img0) (height img0)) - length ws)
   <= fuel)%nat ->
  exists img' ws',
    flood_loop fuel fill t img stack (Z.of_nat (length ws))
      = Some (img', Z.of_nat (length ws')) /\
    flood_inv img0 fill t seed img' [] ws'.
Proof.
  induction fuel as [|fuel IH]; intros img stack ws Hinv Hfuel.
  { destruct stack; [|simpl in Hfuel; lia]. by exists img, ws. }
  destruct stack as [|[x y] stack]; [by exists img, ws|].
  cbn [flood_loop].
  destruct ((x <? 0) || (x >=? width img) || (y <? 0) || (y >=? height img)) eqn:Hoob.
  { apply IH; [|simpl in Hfuel; lia].
    eapply flood_inv_skip; [done|]. left.
    unfold in_bounds. rewrite !orb_true_iff in Hoob.
    rewrite <- not_true_iff_false, !andb_true_iff. lia. }
  assert (Hb : in_bounds img x y = true).
  { rewrite !orb_false_iff in Hoob. apply in_bounds_true. lia. }
  destruct (Z.eqb_spec (getPixel img x y) t) as [Ht|Ht]; simpl.
  2:{ apply IH; [|simpl in Hfuel; lia]. eapply flood_inv_skip; [done|by right]. }
  pose proof (flood_inv_write img x y stack ws Hinv Hb Ht) as Hinv'.
  assert (Hlen : (length ((x, y) :: ws)
                  <= length (row_major (width img0) (height img0)))%nat).
  { apply length_le_row_major; [by destruct Hinv'|].
    intros p Hp. destruct Hinv' as [_ _ _ _ _ Hreg _ _ _].
    by destruct (region_target _ _ _ _ (Hreg p Hp)). }
  destruct (IH _ _ _ Hinv') as (img' & ws' & Hrun & Hfin).
  { simpl in *. lia. }
  exists img', ws'. split; [|done].
  rewrite <- Hrun. f_equal. simpl length. lia.
Qed.

(** With the stack empty, the pixels written are the region of the seed. *)
Lemma flood_inv_final img ws :
  flood_inv img0 fill t seed img [] ws ->
  forall p, p ∈ ws <-> region img0 t seed p.
Proof.
  intros [Hw Hh Hpix Hputs Hnd Hreg Hseed Hclosed Hstack] p. split; [apply Hreg|].
  induction 1 as [|p q Hp IH Hadj Hq].
  - destruct Hseed as [?|Hs]; [done|by apply elem_of_nil in Hs].
  - destruct (Hclosed p q IH Hadj Hq) as [?|Hs]; [done|by apply elem_of_nil in Hs].
Qed.

End Flood.

Section FloodFill.
Context {P : Primitives}.

(** The fill proper: from a seed on the surface whose colour differs from
    the fill colour. *)
Lemma flood_fill_run (x y r g b a : Z) (app : App) doc img fuel :
  activeDocument app = Some doc -> activeImage doc = Some img ->
  in_bounds img x y = true -> getPixel img x y <> rgba r g b a ->
  (flood_fuel img <= fuel)%nat ->
  exists img' ws,
    flood_fill fuel x y r g b a app =
      Some (log ("Flood fill completed at (" ++ str_int x ++ "," ++ str_int y
                 ++ "), filled " ++ str_int (Z.of_nat (length ws)) ++ " pixels")
                (set_image img' doc app)) /\
    flood_inv img (rgba r g b a) (getPixel img x y) (x, y) img' [] ws.
Proof.
  intros Hdoc Himg Hb Hne Hfuel.
  destruct (flood_loop_inv img (rgba r g b a) (getPixel img x y) (x, y)
              (not_eq_sym Hne) (conj Hb eq_refl) fuel img [(x, y)] [])
    as (img' & ws & Hrun & Hinv).
  { apply flood_inv_start. by split. }
  { unfold flood_fuel in Hfuel. simpl. lia. }
  exists img', ws. split; [|done].
  unfold flood_fill. rewrite Hdoc, Himg. cbv zeta. rewrite Hb.
  destruct (Z.eqb_spec (getPixel img x y) (rgba r g b a)); [done|].
  change (Z.of_nat (length (@nil (Z * Z)))) with 0 in Hrun. by rewrite Hrun.
Qed.

(** C2.  Flood fill: a seed off the surface is reported and nothing is
    written; a seed whose colour is already the fill colour gives the no-op
    message and nothing is written; otherwise the stack loop ends and has
    written the fill colour once to each pixel of the 4-connected region of
    the seed's colour around the seed, to no other pixel, and the reported
    count is the number of pixels written. *)
Theorem flood_fill_region (x y r g b a : Z) (app : App) doc img :
  activeDocument app = Some doc -> activeImage doc = Some img ->
  let fillColor := rgba r g b a in
  let targetColor := getPixel img x y in
  (in_bounds img x y = false -> forall fuel,
     flood_fill fuel x y r g b a app =
       Some (log ("Start coordinates (" ++ str_int x ++ "," ++ str_int y
                  ++ ") are out of bounds") app)) /\
  (in_bounds img x y = true -> targetColor = fillColor -> forall fuel,
     flood_fill fuel x y r g b a app =
       Some (log "Target color is the same as fill color, no action needed" app)) /\
  (in_bounds img x y = true -> targetColor <> fillColor ->
   forall fuel, (flood_fuel img <= fuel)%nat ->
   exists img' ws,
     flood_fill fuel x y r g b a app =
       Some (log ("Flood fill completed at (" ++ str_int x ++ "," ++ str_int y
                  ++ "), filled " ++ str_int (Z.of_nat (length ws)) ++ " pixels")
                 (set_image img' doc app)) /\
     width img' = width img /\ height img' = height img /\
     puts img' = ws ++ puts img /\ NoDup ws /\
     (forall p, p ∈ ws <-> region img targetColor (x, y) p) /\
     (forall x' y', getPixel img' x' y' =
                    if decide ((x', y') ∈ ws) then fillColor else getPixel img x' y')).
Proof.
  intros Hdoc Himg fillColor targetColor. split_and!.
  - intros Hb fuel. unfold flood_fill. by rewrite Hdoc, Himg, Hb.
  - intros Hb Heq fuel. unfold flood_fill. rewrite Hdoc, Himg, Hb.
    fold targetColor fillColor. rewrite Heq. by rewrite Z.eqb_refl.
  - intros Hb Hne fuel Hfuel.
    destruct (flood_fill_run x y r g b a app doc img fuel Hdoc Himg Hb Hne Hfuel)
      as (img' & ws & Hrun & Hinv).
    exists img', ws. split; [done|].
    pose proof (flood_inv_final _ _ _ _ _ _ Hinv) as Hfinal.
    destruct Hinv. by split_and!.
Qed.

(** C9.  Running the put-pixel script twice, or the flood-fill script twice,
    leaves the same document and surface as running it once; the flood-fill
    runs end within the budget of the surface. *)
Theorem put_pixel_flood_fill_idempotent (x y r g b a : Z) (app : App) :
  same_picture (put_pixel x y r g b a (put_pixel x y r g b a app))
               (put_pixel x y r g b a app) /\
  forall k1 k2 : nat, exists app1 app2,
    flood_fill (flood_fuel_for app + k1) x y r g b a app = Some app1 /\
    flood_fill (flood_fuel_for app1 + k2) x y r g b a app1 = Some app2 /\
    same_picture app2 app1.
Proof.
  assert (Hrefl : forall h line, same_picture (log line h) h).
  { intros h line. unfold same_picture. simpl.
    destruct (activeDocument h) as [d|]; [|done].
    split_and!; try done. by destruct (activeImage d). }
  split.
  - unfold put_pixel at 2 3.
    destruct (activeDocument app) as [doc|] eqn:Hdoc.
    2:{ unfold put_pixel. simpl. rewrite Hdoc. apply Hrefl. }
    destruct (activeImage doc) as [img|] eqn:Himg.
    2:{ unfold put_pixel. simpl. rewrite Hdoc, Himg. apply Hrefl. }
    destruct (in_bounds img x y) eqn:Hb.
    2:{ unfold put_pixel. simpl. rewrite Hdoc, Himg, Hb. apply Hrefl. }
    unfold put_pixel. simpl.
    replace (in_bounds (putPixel img x y (rgba r g b a)) x y) with true by done.
    unfold same_picture, same_surface. simpl. split_and!; try done.
    intros x' y'. fold (getPixel img x' y').
    by destruct ((x' =? x) && (y' =? y)).
  - intros k1 k2. unfold flood_fuel_for at 1.
    destruct (activeDocument app) as [doc|] eqn:Hdoc.
    2:{ do 2 eexists. unfold flood_fill at 1. rewrite Hdoc.
        split; [done|]. unfold flood_fill. simpl. rewrite Hdoc.
        split; [done|]. apply Hrefl. }
    destruct (activeImage doc) as [img|] eqn:Himg.
    2:{ do 2 eexists. unfold flood_fill at 1. rewrite Hdoc, Himg.
        split; [done|]. unfold flood_fill. simpl. rewrite Hdoc, Himg.
        split; [done|]. apply Hrefl. }
    destruct (flood_fill_region x y r g b a app doc img Hdoc Himg) as (Hout & Hsame & Hfill).
    destruct (in_bounds img x y) eqn:Hb.
    2:{ do 2 eexists. rewrite Hout by done. split; [done|].
        unfold flood_fill. simpl. rewrite Hdoc, Himg, Hb.
        split; [done|]. apply Hrefl. }
    destruct (decide (getPixel img x y = rgba r g b a)) as [Heq|Hne].
    { do 2 eexists. rewrite Hsame by done. split; [done|].
      unfold flood_fill. simpl. rewrite Hdoc, Himg, Hb, Heq, Z.eqb_refl.
      split; [done|]. apply Hrefl. }
    destruct (Hfill eq_refl Hne (flood_fuel img + k1)%nat ltac:(lia))
      as (img' & ws & Hrun & Hw & Hh & _ & _ & Hws & Hpix).
    do 2 eexists. split; [exact Hrun|].
    unfold flood_fill. simpl.
    assert (Hb' : in_bounds img' x y = true).
    { unfold in_bounds in *. by rewrite Hw, Hh. }
    assert (Hseed : getPixel img' x y = rgba r g b a).
    { rewrite Hpix, decide_True; [done|]. apply Hws. by constructor. }
    rewrite Hb', Hseed, Z.eqb_refl.
    split; [done|]. apply Hrefl.
Qed.

End FloodFill.

Lemma flood_fill_region_witness :
  let img := Reference.blank 2 2 in
  let doc := mkDocument (sprite Reference.document10) (Some img) 0 0 in
  let app := mkApp (Some doc) [] [] in
  exists img' ws,
    flood_fill (P := Reference.primitives) 17 0 0 255 0 0 255 app =
      Some (log ("Flood fill completed at (0,0), filled "
                 ++ str_int (Z.of_nat (length ws)) ++ " pixels")
                (set_image img' doc app)) /\
    puts img' = ws ++ [] /\
    (forall p, p ∈ ws <-> region img 0 (0, 0) p).
Proof.
  intros img doc app.
  destruct (flood_fill_region (P := Reference.primitives) 0 0 255 0 0 255 app doc img
              eq_refl eq_refl) as (_ & _ & Hfill).
  destruct (Hfill eq_refl ltac:(discriminate) 17%nat ltac:(vm_compute; lia))
    as (img' & ws & Hrun & _ & _ & Hputs & _ & Hws & _).
  exists img', ws. split_and!; [exact Hrun | exact Hputs | exact Hws].
Defined.

(** ** Guards *)

Section Guards.
Context {P : Primitives}.

(** C1, as the templates have it.  For valid parameters (a plain layer
    name, an identifier as colour mode) every generator returns a non-empty
    text.  Every script except the create-document one opens with the test
    for an active document: without one it prints ['No active sprite'] and
    changes nothing else.  The scripts that touch pixels continue with the
    test for an active image: without one they print ['No active image'] and
    change nothing else.  The create-document script has no such test before
    it acts: it sets its three parameters and invokes [NewFile] whatever the
    host state, and prints ['Failed to create sprite'] when no document is
    active afterwards. *)
Theorem scripts_guarded (op : Operation) :
  valid_parameters op = true ->
  script_text op <> EmptyString /\
  (creates_document op = false ->
     String.prefix sprite_guard (script_text op) = true /\
     forall fuel h, activeDocument h = None ->
       run fuel op h = Some (log "No active sprite" h)) /\
  (touches_pixels op = true ->
     String.prefix (sprite_guard ++ image_guard) (script_text op) = true /\
     forall fuel h doc, activeDocument h = Some doc -> activeImage doc = None ->
       run fuel op h = Some (log "No active image" h)) /\
  (forall width height color_mode, op = OpCreateSprite width height color_mode ->
     String.prefix sprite_guard (script_text op) = false /\
     forall fuel h,
       let ps := ("colorMode"%string, VColorMode (upper color_mode))
                 :: ("height"%string, VNum height)
                 :: ("width"%string, VNum width) :: parameters h in
       match NewFile ps (activeDocument h) with
       | Completed None =>
           run fuel op h = Some (log "Failed to create sprite" (mkApp None [] (console h)))
       | Completed (Some doc) =>
           exists h', run fuel op h = Some h' /\ activeDocument h' = Some doc
       | Raised message d =>
           run fuel op h =
             Some (log ("Error creating sprite: " ++ message) (mkApp d ps (console h)))
       end).
Proof.
  intros Hvalid. split_and!.
  - destruct op; discriminate.
  - intros Hop. split.
    + destruct op; try discriminate; reflexivity.
    + intros fuel h Hdoc.
      destruct op; try discriminate; simpl in *;
        unfold create_layer, fill_layer, draw_circle, get_sprite_info, draw_rectangle,
          draw_line, draw_ellipse, put_pixel, flood_fill, set_active_layer,
          delete_layer, replace_color; by rewrite ?Hvalid, Hdoc.
  - intros Hop. split.
    + destruct op; try discriminate; reflexivity.
    + intros fuel h doc Hdoc Himg.
      destruct op; try discriminate; simpl;
        unfold fill_layer, draw_circle, draw_rectangle,
          draw_line, draw_ellipse, put_pixel, flood_fill, replace_color;
        by rewrite Hdoc, Himg.
  - intros width height color_mode ->. split; [reflexivity|].
    intros fuel h ps. simpl in *. unfold create_sprite. rewrite Hvalid. simpl. fold ps.
    destruct (NewFile ps (activeDocument h)) as [[doc|]|message d]; try done.
    eexists. split; [done|]. done.
Qed.

End Guards.

(** On the reference host with no document open, the create-document
    script for 32 x 32 in mode RGB opens one: a script with valid parameters
    that acts without an active document. *)
Lemma create_sprite_acts_without_document :
  ~ (forall (P : Primitives) (op : Operation) (fuel : nat) (h : App),
       valid_parameters op = true -> activeDocument h = None ->
       exists line, run fuel op h = Some (log line h)).
Proof.
  intros Hclaim.
  destruct (Hclaim Reference.primitives (OpCreateSprite 32 32 "RGB") O Reference.idle
              eq_refl eq_refl) as (line & Hrun).
  vm_compute in Hrun. discriminate.
Qed.

Lemma scripts_guarded_witness :
  run (P := Reference.primitives) O (OpCreateLayer "Ink") Reference.idle
    = Some (log "No active sprite" Reference.idle).
Proof.
  destruct (scripts_guarded (P := Reference.primitives) (OpCreateLayer "Ink") eq_refl)
    as (_ & Hguard & _).
  destruct (Hguard eq_refl) as (_ & Hrun).
  exact (Hrun O Reference.idle eq_refl).
Defined.

(** ** Create layer: interpolation of the name *)

Lemma append_assoc (s1 s2 s3 : string) :
  ((s1 ++ s2) ++ s3 = s1 ++ (s2 ++ s3))%string.
Proof.
  induction s1 as [|c s1 IH]; [done|].
  change (String c ((s1 ++ s2) ++ s3) = String c (s1 ++ s2 ++ s3))%string.
  by rewrite IH.
Qed.

Lemma create_layer_text name :
  ScriptTemplates.create_layer name =
  (create_layer_head ++ name ++ dq ++ create_layer_middle ++ sq
   ++ "Created new layer: " ++ name ++ sq ++ create_layer_tail)%string.
Proof.
  unfold ScriptTemplates.create_layer, create_layer_head, create_layer_middle,
    create_layer_tail. cbn [lines].
  rewrite !append_assoc. reflexivity.
Qed.

Lemma js_string_body_plain quote (s rest : string) :
  plain s = true -> (quote = "034"%char \/ quote = "039"%char) ->
  js_string_body quote (s ++ String quote rest) = Some (s, rest).
Proof.
  intros Hs Hq. induction s as [|c s IH].
  - change (EmptyString ++ String quote rest)%string with (String quote rest).
    simpl. by rewrite Ascii.eqb_refl.
  - change (String c s ++ String quote rest)%string
      with (String c (s ++ String quote rest)).
    simpl in *.
    apply andb_true_iff in Hs as [Hc Hs]. rewrite (IH Hs).
    unfold literal_breaking in Hc.
    rewrite negb_true_iff, !orb_false_iff in Hc. destruct Hc as ((((H1 & H2) & H3) & H4) & H5).
    rewrite H3, H4, H5. simpl.
    by destruct Hq as [-> | ->]; rewrite ?H1, ?H2.
Qed.

Lemma plain_append s1 s2 : plain (s1 ++ s2) = plain s1 && plain s2.
Proof.
  induction s1 as [|c s1 IH]; [done|].
  change (String c s1 ++ s2)%string with (String c (s1 ++ s2)).
  simpl. by rewrite IH, andb_assoc.
Qed.

(** C8, as the template has it.  The generator copies the name verbatim
    into the script at two places, inside a double-quoted and inside a
    single-quoted literal, without escaping.  For a name free of quotes,
    backslashes and line terminators the two literals close where the
    template closes them, so the name is literal content only. *)
Theorem create_layer_name_verbatim (name : string) :
  ScriptTemplates.create_layer name
    = (create_layer_head ++ after_first_quote name)%string /\
  (plain name = true -> name_is_literal_content name).
Proof.
  split; [apply create_layer_text|].
  intros Hplain. split.
  - unfold after_first_quote, dq.
    change (String "034" "" ++ ?s)%string with (String "034"%char s).
    by apply js_string_body_plain; [|left].
  - unfold after_second_quote, sq.
    change (String "039" "" ++ create_layer_tail)%string
      with (String "039"%char create_layer_tail).
    rewrite <- append_assoc.
    apply js_string_body_plain; [|by right].
    by rewrite plain_append, Hplain.
Qed.

(** A name with a double quote in it closes the first literal early: the
    literal holds ["x"] and the text after it starts with a call that the
    template does not contain. *)
Lemma create_layer_injection :
  (exists after,
     js_string_body "034"%char (after_first_quote injected_name) = Some ("x"%string, after) /\
     String.prefix "); app.command.RemoveLayer(); (" after = true) /\
  ~ name_is_literal_content injected_name.
Proof.
  split.
  - eexists. split; [vm_compute; reflexivity|]. reflexivity.
  - intros [H _]. vm_compute in H. discriminate.
Qed.

(** ** Layers *)

Lemma layer_in_range (s : Sprite) (n : Z) :
  0 <= n < layerCount s -> exists l, layer s n = Some l /\ layers s !! Z.to_nat n = Some l.
Proof.
  intros Hn. unfold layer, layerCount in *.
  destruct (Z.ltb_spec n 0); [lia|].
  destruct (lookup_lt_is_Some_2 (layers s) (Z.to_nat n) ltac:(lia)) as [l Hl].
  by exists l.
Qed.

Section Layers.
Context {P : Primitives}.

(** C6.  Delete layer: an index outside [0, layerCount) is reported and
    nothing changes; an index in range on a sprite with one layer is refused
    with ['Cannot delete the only remaining layer'] and nothing changes, in
    particular for index 0; otherwise [RemoveLayer] is invoked and, when it
    completes, the script names the layer at the index and reports the layer
    count the sprite has afterwards. *)
Theorem delete_layer_checked (n : Z) (app : App) doc :
  activeDocument app = Some doc ->
  let s := sprite doc in
  (~ (0 <= n < layerCount s) ->
     delete_layer n app =
       log ("Layer number " ++ str_int n ++ " is out of range (0-"
            ++ str_int (layerCount s - 1) ++ ")") app) /\
  (0 <= n < layerCount s -> layerCount s = 1 ->
     n = 0 /\
     delete_layer n app = log "Cannot delete the only remaining layer" app /\
     layerCount <$> activeSprite (delete_layer n app) = Some (layerCount s)) /\
  (0 <= n < layerCount s -> 1 < layerCount s ->
     exists l, layer s n = Some l /\
       match RemoveLayer (parameters app) doc with
       | Completed doc' =>
           delete_layer n app =
             log ("Sprite now has " ++ str_int (layerCount (sprite doc')) ++ " layer(s)")
                 (log ("Deleted layer " ++ str_int n ++ ": " ++ dq ++ name l ++ dq)
                      (set_document (Some doc') app))
       | Raised message doc' =>
           delete_layer n app =
             log ("Error deleting layer: " ++ message) (set_document (Some doc') app)
       end).
Proof.
  intros Hdoc s. unfold delete_layer. rewrite Hdoc. cbv zeta. fold s.
  split_and!.
  - intros Hn.
    destruct ((0 <=? n) && (n <? layerCount s)) eqn:Hb; [|done].
    apply andb_true_iff in Hb. lia.
  - intros Hn H1.
    replace ((0 <=? n) && (n <? layerCount s)) with true
      by (symmetry; apply andb_true_iff; lia).
    replace (layerCount s <=? 1) with true by (symmetry; apply Z.leb_le; lia).
    split_and!; [lia|done|].
    unfold activeSprite. simpl. by rewrite Hdoc.
  - intros Hn H1.
    replace ((0 <=? n) && (n <? layerCount s)) with true
      by (symmetry; apply andb_true_iff; lia).
    replace (layerCount s <=? 1) with false by (symmetry; apply Z.leb_gt; lia).
    destruct (layer_in_range s n Hn) as (l & Hl & _).
    exists l. split; [done|]. rewrite Hl.
    by destruct (RemoveLayer (parameters app) doc).
Qed.

(** C10.  Delete layer, index in range, more than one layer: the script
    passes nothing about the index to [RemoveLayer], so the document it
    leaves is the same for every index in range, while the name it prints is
    that of the layer at the index.  On a host whose [RemoveLayer] removes
    the active layer, an index other than the active one leaves the named
    layer in the sprite, at the position it has once the active layer is
    gone, and removes the layer at the active position instead. *)
Theorem delete_layer_removes_active (n : Z) (app : App) doc :
  activeDocument app = Some doc ->
  let s := sprite doc in
  let k := activeLayerNumber doc in
  0 <= n < layerCount s -> 1 < layerCount s ->
  (forall m, 0 <= m < layerCount s ->
     activeDocument (delete_layer m app) = activeDocument (delete_layer n app) /\
     parameters (delete_layer m app) = parameters (delete_layer n app)) /\
  (removes_active_layer P -> 0 <= k < layerCount s -> n <> k ->
   exists named doc',
     layers s !! Z.to_nat n = Some named /\
     activeDocument (delete_layer n app) = Some doc' /\
     console (delete_layer n app) = console app ++
       [("Deleted layer " ++ str_int n ++ ": " ++ dq ++ name named ++ dq)%string;
        ("Sprite now has " ++ str_int (layerCount s - 1) ++ " layer(s)")%string] /\
     layers (sprite doc') = take (Z.to_nat k) (layers s) ++ drop (S (Z.to_nat k)) (layers s) /\
     layers (sprite doc') !! Z.to_nat (if n <? k then n else n - 1) = Some named).
Proof.
  intros Hdoc s k Hn H1.
  assert (Hrun : forall m, 0 <= m < layerCount s ->
            exists l, layers s !! Z.to_nat m = Some l /\
              delete_layer m app =
              match RemoveLayer (parameters app) doc with
              | Completed doc' =>
                  log ("Sprite now has " ++ str_int (layerCount (sprite doc')) ++ " layer(s)")
                      (log ("Deleted layer " ++ str_int m ++ ": " ++ dq ++ name l ++ dq)
                           (set_document (Some doc') app))
              | Raised message doc' =>
                  log ("Error deleting layer: " ++ message) (set_document (Some doc') app)
              end).
  { intros m Hm.
    destruct (delete_layer_checked m app doc Hdoc) as (_ & _ & Hgo).
    destruct (Hgo Hm H1) as (l & Hl & Hres).
    destruct (layer_in_range s m Hm) as (l' & Hl' & Hlook).
    fold s in Hl. rewrite Hl in Hl'. injection Hl' as <-.
    exists l. split; [done|].
    by destruct (RemoveLayer (parameters app) doc). }
  split.
  - intros m Hm.
    destruct (Hrun m Hm) as (lm & _ & ->), (Hrun n Hn) as (ln & _ & ->).
    by destruct (RemoveLayer (parameters app) doc).
  - intros Hhost Hk Hnk.
    destruct (Hrun n Hn) as (named & Hnamed & Hres).
    destruct (Hhost (parameters app) doc) as (doc' & Hrem & Hlayers).
    rewrite Hrem in Hres. fold s k in Hlayers.
    assert (Hlen : length (layers s) = Z.to_nat (layerCount s)).
    { unfold layerCount. lia. }
    assert (Hcount : layerCount (sprite doc') = layerCount s - 1).
    { unfold layerCount at 1. rewrite Hlayers, length_app, length_take, length_drop. lia. }
    exists named, doc'. rewrite Hres. simpl. rewrite Hcount.
    split_and!; try done.
    + by rewrite <- app_assoc.
    + rewrite Hlayers.
      destruct (Z.ltb_spec n k).
      * rewrite lookup_app_l by (rewrite length_take; lia).
        rewrite lookup_take_lt by lia. done.
      * rewrite lookup_app_r by (rewrite length_take; lia).
        rewrite length_take, lookup_drop.
        rewrite <- Hnamed. f_equal. lia.
Qed.


End Layers.

(** The reference host removes the active layer and creates what it is
    asked for. *)
Lemma reference_removes_active_layer : removes_active_layer Reference.primitives.
Proof. intros ps doc. eexists. split; reflexivity. Qed.


Lemma delete_layer_checked_witness :
  delete_layer (P := Reference.primitives) 0 Reference.app10
    = log "Cannot delete the only remaining layer" Reference.app10.
Proof.
  destruct (delete_layer_checked (P := Reference.primitives) 0 Reference.app10
              Reference.document10 eq_refl) as (_ & Honly & _).
  destruct (Honly ltac:(unfold layerCount; simpl; lia) eq_refl) as (_ & Hres & _).
  exact Hres.
Defined.

Lemma delete_layer_removes_active_witness :
  exists doc',
    activeDocument (delete_layer (P := Reference.primitives) 0 Reference.app2) = Some doc' /\
    console (delete_layer (P := Reference.primitives) 0 Reference.app2)
      = ["Deleted layer 0: " ++ dq ++ "Background" ++ dq; "Sprite now has 1 layer(s)"]%string /\
    layers (sprite doc') = [mkLayer "Background" true true].
Proof.
  destruct (delete_layer_removes_active (P := Reference.primitives) 0 Reference.app2
              Reference.document2 eq_refl
              ltac:(unfold layerCount; simpl; lia) ltac:(unfold layerCount; simpl; lia))
    as (_ & Hhost).
  destruct (Hhost reference_removes_active_layer
                  ltac:(unfold layerCount; simpl; lia) ltac:(simpl; lia))
    as (named & doc' & Hnamed & Hdoc & Hcon & Hlayers & _).
  injection Hnamed as <-.
  exists doc'. split_and!; [exact Hdoc | exact Hcon | exact Hlayers].
Defined.


(** ** Nested drawing loops *)

Lemma grid_loops_put_all (keep : Z -> Z -> bool) body c x0 x1 y0 y1 img :
  (forall x y img', body x y img' =
     if in_bounds img' x y then (if keep x y then putPixel img' x y c else img') else img') ->
  for_range y0 y1 (fun y img => for_range x0 x1 (fun x img => body x y img) img) img =
  put_all img (grid_points keep x0 x1 y0 y1 (width img) (height img)) c.
Proof.
  intros Hbody. unfold grid_points, for_range.
  apply (fold_left_put_all (fun W H y => flat_map (grid_cell keep W H y) _)).
  intros y img'.
  apply (fold_left_put_all (fun W H x => grid_cell keep W H y x)).
  intros x img''. rewrite Hbody. unfold grid_cell, in_bounds.
  destruct (_ && _ && _ && _); [|done]. by destruct (keep x y).
Qed.

Lemma elem_of_grid_points keep x0 x1 y0 y1 W H p :
  p ∈ grid_points keep x0 x1 y0 y1 W H <->
  (x0 <= p.1 < x1 /\ y0 <= p.2 < y1) /\ (0 <= p.1 < W /\ 0 <= p.2 < H) /\
  keep p.1 p.2 = true.
Proof.
  unfold grid_points. rewrite elem_of_flat_map.
  setoid_rewrite elem_of_flat_map. setoid_rewrite elem_of_seqZ.
  assert (Hcell : forall y x, p ∈ grid_cell keep W H y x <->
            p = (x, y) /\ (0 <= x < W /\ 0 <= y < H) /\ keep x y = true).
  { intros y x. unfold grid_cell.
    destruct (_ && _ && _ && _) eqn:Hb.
    - rewrite !andb_true_iff in Hb.
      destruct (keep x y); rewrite ?list_elem_of_singleton, ?elem_of_nil; intuition lia.
    - rewrite elem_of_nil. split; [done|]. intros (_ & ? & _).
      rewrite <- not_true_iff_false, !andb_true_iff in Hb. lia. }
  setoid_rewrite Hcell. destruct p as [px py]. simpl. split.
  - intros (y & ? & x & ? & [= -> ->] & ? & ?). split_and!; try done; lia.
  - intros (? & ? & ?). exists py. split; [lia|]. exists px. split; [lia|]. done.
Qed.

Lemma NoDup_flat_map {A B} (f : A -> list B) (l : list A) :
  NoDup l -> (forall a, a ∈ l -> NoDup (f a)) ->
  (forall a b x, a ∈ l -> b ∈ l -> x ∈ f a -> x ∈ f b -> a = b) ->
  NoDup (flat_map f l).
Proof.
  induction 1 as [|a l Ha Hl IH]; intros Hnd Hdisj; simpl; [constructor|].
  apply NoDup_app. split_and!.
  - apply Hnd. by left.
  - intros x Hx Hin. apply elem_of_flat_map in Hin as (b & Hb & Hxb).
    assert (a = b) as -> by (eapply Hdisj; [by left|by right|done|done]). done.
  - apply IH.
    + intros b Hb. apply Hnd. by right.
    + intros b1 b2 x Hb1 Hb2. apply Hdisj; by right.
Qed.

Lemma NoDup_grid_points keep x0 x1 y0 y1 W H :
  NoDup (grid_points keep x0 x1 y0 y1 W H).
Proof.
  assert (Hcell : forall y x p, p ∈ grid_cell keep W H y x -> p = (x, y)).
  { intros y x p. unfold grid_cell.
    destruct (_ && _ && _ && _); [|by rewrite elem_of_nil].
    destruct (keep x y); rewrite ?list_elem_of_singleton, ?elem_of_nil; done. }
  unfold grid_points. apply NoDup_flat_map; [apply NoDup_seqZ| |].
  - intros y _. apply NoDup_flat_map; [apply NoDup_seqZ| |].
    + intros x _. unfold grid_cell.
      destruct (_ && _ && _ && _); [|constructor].
      destruct (keep x y); [apply NoDup_singleton|constructor].
    + intros a b p _ _ Ha Hb. apply Hcell in Ha, Hb. congruence.
  - intros a b p _ _ Ha Hb.
    apply elem_of_flat_map in Ha as (xa & _ & Ha), Hb as (xb & _ & Hb).
    apply Hcell in Ha, Hb. congruence.
Qed.

Lemma length_flat_map_const {A B} (f : A -> list B) (l : list A) n :
  (forall a, a ∈ l -> length (f a) = n) -> length (flat_map f l) = (n * length l)%nat.
Proof.
  induction l as [|a l IH]; intros Hn; simpl; [lia|].
  rewrite length_app, IH, (Hn a) by (intros; (apply Hn; by right) || by left). lia.
Qed.

(** ** What the drawing scripts leave alone *)

Lemma drawn_same (doc : Document) img : activeImage doc = Some img -> drawn doc img = doc.
Proof. destruct doc. simpl. by intros ->. Qed.

Lemma flood_loop_dims fuel : forall fill t img stack n img' n',
  flood_loop fuel fill t img stack n = Some (img', n') ->
  width img' = width img /\ height img' = height img.
Proof.
  induction fuel as [|fuel IH]; intros fill t img stack n img' n' Hrun.
  { destruct stack as [|[x y] stack]; simpl in Hrun; [|done]. by injection Hrun as <- <-. }
  destruct stack as [|[x y] stack]; simpl in Hrun; [by injection Hrun as <- <-|].
  destruct (_ || _ || _ || _); [by apply IH in Hrun|].
  destruct (negb _); [by apply IH in Hrun|].
  by apply IH in Hrun.
Qed.

Section Frame.
Context {P : Primitives}.

Lemma rectangle_fill_put_all img x y w h c :
  rectangle_fill img x y w h c =
  put_all img (grid_points (fun _ _ => true) x (x + w) y (y + h) (width img) (height img)) c.
Proof. unfold rectangle_fill. by apply grid_loops_put_all. Qed.

Lemma replace_scan_dims old_r old_g old_b newColor img :
  width (replace_scan old_r old_g old_b newColor img).1 = width img /\
  height (replace_scan old_r old_g old_b newColor img).1 = height img.
Proof.
  unfold replace_scan. rewrite nested_loops_row_major.
  destruct (replace_fold old_r old_g old_b newColor _ (NoDup_row_major (width img) (height img))
              img 0) as (Hw & Hh & _).
  by split.
Qed.

(** A drawing script that ends leaves the sprite, the layer and frame
    cursor, the parameter set and the dimensions of the surface as they
    were, and adds one line to the console. *)
Lemma pixel_script_frame fuel op h h' doc img :
  touches_pixels op = true ->
  activeDocument h = Some doc -> activeImage doc = Some img ->
  run fuel op h = Some h' ->
  exists img' line,
    h' = mkApp (Some (drawn doc img')) (parameters h) (console h ++ [line]) /\
    width img' = width img /\ height img' = height img.
Proof.
  intros Hop Hdoc Himg Hrun.
  assert (Hsame : forall line,
            log line h = mkApp (Some (drawn doc img)) (parameters h) (console h ++ [line])).
  { intros line. unfold log. by rewrite Hdoc, drawn_same. }
  destruct op as [? ? ?|?|r g b a|cx cy radius r g b a filled| |x y w0 h0 r g b a filled
                 |x1 y1 x2 y2 r g b a t|cx cy w0 h0 r g b a filled|x y r g b a|x y r g b a
                 |?|?|old_r old_g old_b new_r new_g new_b new_a];
    try discriminate; simpl in Hrun.
  - (* fill_layer *)
    injection Hrun as <-. unfold fill_layer. rewrite Hdoc, Himg.
    by eexists (clear img _), _.
  - (* draw_circle *)
    injection Hrun as <-. unfold draw_circle. rewrite Hdoc, Himg. cbv zeta.
    rewrite (grid_loops_put_all
               (fun px py => circle_test filled (px - cx) (py - cy) radius) _ (rgba r g b a))
      by done.
    eexists _, _. split; [reflexivity|]. by rewrite put_all_width, put_all_height.
  - (* draw_rectangle *)
    injection Hrun as <-. unfold draw_rectangle. rewrite Hdoc, Himg. cbv zeta.
    eexists _, _. split; [reflexivity|].
    destruct filled; rewrite ?rectangle_fill_put_all, ?rectangle_outline_put_all;
      by rewrite put_all_width, put_all_height.
  - (* draw_line *)
    unfold draw_line in Hrun. rewrite Hdoc, Himg in Hrun. cbv zeta in Hrun.
    rewrite line_loop_walk in Hrun.
    destruct (line_walk _ _ _ _ _ _ _ _ _ _) as [path|]; [|done].
    simpl in Hrun. injection Hrun as <-.
    eexists _, _. split; [reflexivity|].
    by rewrite line_stamps, put_all_width, put_all_height.
  - (* draw_ellipse *)
    injection Hrun as <-. unfold draw_ellipse. rewrite Hdoc, Himg. cbv zeta.
    rewrite (grid_loops_put_all
               (fun px py => ellipse_test filled (px - cx) (py - cy) w0 h0) _
               (rgba r g b a)) by done.
    eexists _, _. split; [reflexivity|]. by rewrite put_all_width, put_all_height.
  - (* put_pixel *)
    injection Hrun as <-. unfold put_pixel. rewrite Hdoc, Himg.
    destruct (in_bounds img x y).
    + by eexists (putPixel img x y _), _.
    + eexists img, _. by rewrite Hsame.
  - (* flood_fill *)
    unfold flood_fill in Hrun. rewrite Hdoc, Himg in Hrun. cbv zeta in Hrun.
    destruct (in_bounds img x y).
    2:{ injection Hrun as <-. eexists img, _. by rewrite Hsame. }
    destruct (_ =? _).
    { injection Hrun as <-. eexists img, _. by rewrite Hsame. }
    destruct (flood_loop _ _ _ _ _ _) as [[img' n]|] eqn:Hloop; [|done].
    injection Hrun as <-. apply flood_loop_dims in Hloop.
    by eexists img', _.
  - (* replace_color *)
    injection Hrun as <-. unfold replace_color. rewrite Hdoc, Himg. cbv zeta.
    pose proof (replace_scan_dims old_r old_g old_b (rgba new_r new_g new_b new_a) img) as Hd.
    destruct (replace_scan _ _ _ _ _) as [img' n]. simpl in Hd.
    by eexists img', _.
Qed.

End Frame.

(** ** Reports and guards, script by script *)

Section Reports.
Context {P : Primitives}.

Lemma run_without_document fuel op h :
  valid_parameters op = true ->
  creates_document op = false -> activeDocument h = None ->
  run fuel op h = Some (log "No active sprite" h).
Proof.
  intros Hvalid Hop Hdoc.
  destruct op; try discriminate; simpl in *;
    unfold create_layer, fill_layer, draw_circle, get_sprite_info, draw_rectangle,
      draw_line, draw_ellipse, put_pixel, flood_fill, set_active_layer,
      delete_layer, replace_color; by rewrite ?Hvalid, Hdoc.
Qed.

Lemma run_without_image fuel op h doc :
  touches_pixels op = true -> activeDocument h = Some doc -> activeImage doc = None ->
  run fuel op h = Some (log "No active image" h).
Proof.
  intros Hop Hdoc Himg.
  destruct op; try discriminate; simpl;
    unfold fill_layer, draw_circle, draw_rectangle,
      draw_line, draw_ellipse, put_pixel, flood_fill, replace_color;
    by rewrite Hdoc, Himg.
Qed.

(** The loop of [get_sprite_info] prints one line per layer, in order. *)
Lemma layer_lines_loop (s : Sprite) (h : App) :
  for_range 0 (layerCount s) (fun i h =>
    match layer s i with
    | Some l =>
        log ("Layer " ++ str_int i ++ ": " ++ dq ++ name l ++ dq
             ++ " (visible: " ++ js_bool (isVisible l)
             ++ ", editable: " ++ js_bool (isEditable l) ++ ")") h
    | None => h
    end) h
  = mkApp (activeDocument h) (parameters h) (console h ++ imap layer_line (layers s)).
Proof.
  unfold for_range, layerCount. rewrite Z.sub_0_r.
  assert (Hk : forall k, (k <= length (layers s))%nat ->
            fold_left (fun h i =>
              match layer s i with
              | Some l =>
                  log ("Layer " ++ str_int i ++ ": " ++ dq ++ name l ++ dq
                       ++ " (visible: " ++ js_bool (isVisible l)
                       ++ ", editable: " ++ js_bool (isEditable l) ++ ")") h
              | None => h
              end) (seqZ 0 (Z.of_nat k)) h
            = mkApp (activeDocument h) (parameters h)
                    (console h ++ imap layer_line (take k (layers s)))).
  { induction k as [|k IH]; intros Hle.
    - simpl. rewrite app_nil_r. by destruct h.
    - rewrite seqZ_S, fold_left_app, IH by lia. simpl.
      destruct (lookup_lt_is_Some_2 (layers s) k ltac:(lia)) as [l Hl].
      unfold layer. rewrite Z.add_0_l.
      destruct (Z.ltb_spec (Z.of_nat k) 0); [lia|].
      rewrite Nat2Z.id, Hl. unfold log. simpl.
      rewrite (take_S_r _ _ _ Hl), imap_app, <- app_assoc. simpl.
      rewrite length_take, Nat.min_l, Nat.add_0_r by lia. done. }
  rewrite Hk by done. by rewrite firstn_all.
Qed.

Lemma get_sprite_info_run (h : App) doc :
  activeDocument h = Some doc ->
  get_sprite_info h =
  mkApp (Some doc) (parameters h)
        (console h ++
         ["=== SPRITE INFO ===";
          "Dimensions: " ++ str_int (sprite_width (sprite doc)) ++ "x"
                         ++ str_int (sprite_height (sprite doc));
          "Color Mode: " ++ colorMode (sprite doc);
          "Layer Count: " ++ str_int (layerCount (sprite doc));
          "Current Layer: " ++ str_int (activeLayerNumber doc);
          "Current Frame: " ++ str_int (activeFrameNumber doc);
          "--- LAYER DETAILS ---"]%string
         ++ imap layer_line (layers (sprite doc))).
Proof.
  intros Hdoc. unfold get_sprite_info. rewrite Hdoc. cbv zeta.
  rewrite layer_lines_loop. unfold log. simpl. rewrite Hdoc.
  by rewrite <- !app_assoc.
Qed.

Lemma set_active_layer_run (n : Z) (h : App) :
  exists new, new <> [] /\
    set_active_layer n h = mkApp (activeDocument h) (parameters h) (console h ++ new).
Proof.
  unfold set_active_layer.
  destruct (activeDocument h) as [doc|] eqn:Hdoc.
  2:{ eexists [_]. split; [done|]. unfold log. by rewrite Hdoc. }
  cbv zeta. destruct (_ && _).
  - destruct (layer _ _).
    + eexists [_; _; _]. split; [done|]. unfold log. simpl.
      by rewrite Hdoc, <- !app_assoc.
    + eexists [_]. split; [done|]. unfold log. by rewrite Hdoc.
  - eexists [_]. split; [done|]. unfold log. by rewrite Hdoc.
Qed.

(** X14.  Every script generated from valid parameters (a plain layer
    name, an identifier as colour mode) that ends has printed at least one
    line, after the lines the console held before. *)
Theorem scripts_always_report (fuel : nat) (op : Operation) (h h' : App) :
  valid_parameters op = true ->
  run fuel op h = Some h' ->
  exists new, new <> [] /\ console h' = console h ++ new.
Proof.
  intros Hvalid Hrun.
  destruct (creates_document op) eqn:Hcreate.
  { destruct op; try discriminate. simpl in Hrun, Hvalid.
    unfold create_sprite in Hrun. rewrite Hvalid in Hrun. cbv zeta in Hrun.
    destruct (NewFile _ _) as [[doc|]|message d]; injection Hrun as <-; simpl.
    - eexists [_; _]. split; [done|]. by rewrite <- app_assoc.
    - by eexists [_].
    - by eexists [_]. }
  destruct (activeDocument h) as [doc|] eqn:Hdoc.
  2:{ rewrite run_without_document in Hrun by done. injection Hrun as <-. by eexists [_]. }
  destruct (touches_pixels op) eqn:Hpix.
  { destruct (activeImage doc) as [img|] eqn:Himg.
    - destruct (pixel_script_frame fuel op h h' doc img Hpix Hdoc Himg Hrun)
        as (img' & line & -> & _). by eexists [_].
    - rewrite (run_without_image fuel op h doc) in Hrun by done.
      injection Hrun as <-. by eexists [_]. }
  destruct op; try discriminate; simpl in Hrun, Hvalid.
  - (* create_layer *)
    unfold create_layer in Hrun. rewrite Hvalid, Hdoc in Hrun. cbv zeta in Hrun.
    destruct (NewLayer _ _); injection Hrun as <-; simpl.
    + eexists [_; _]. split; [done|]. by rewrite <- app_assoc.
    + by eexists [_].
  - (* get_sprite_info *)
    injection Hrun as <-. rewrite (get_sprite_info_run h doc Hdoc). simpl.
    eexists. split; [|reflexivity]. done.
  - (* set_active_layer *)
    injection Hrun as <-.
    destruct (set_active_layer_run layer_number h) as (new & Hnew & ->). by exists new.
  - (* delete_layer *)
    injection Hrun as <-. unfold delete_layer. rewrite Hdoc. cbv zeta.
    destruct (_ && _); [|by eexists [_]].
    destruct (_ <=? _); [by eexists [_]|].
    destruct (layer _ _); [|by eexists [_]].
    destruct (RemoveLayer _ _); simpl.
    + eexists [_; _]. split; [done|]. by rewrite <- app_assoc.
    + by eexists [_].
Qed.

End Reports.

(** ** Further properties of the scripts *)

Lemma upper_lower_ascii c : upper_ascii (lower_ascii c) = upper_ascii c.
Proof. destruct c as [[] [] [] [] [] [] [] []]; reflexivity. Qed.

Lemma upper_upper_ascii c : upper_ascii (upper_ascii c) = upper_ascii c.
Proof. destruct c as [[] [] [] [] [] [] [] []]; reflexivity. Qed.

Lemma upper_lower s : upper (lower s) = upper s.
Proof.
  unfold upper, lower. induction s as [|c s IH]; simpl; [done|].
  by rewrite upper_lower_ascii, IH.
Qed.

Lemma upper_upper s : upper (upper s) = upper s.
Proof.
  unfold upper. induction s as [|c s IH]; simpl; [done|].
  by rewrite upper_upper_ascii, IH.
Qed.

Lemma identifier_start_case c :
  identifier_start (lower_ascii c) = identifier_start c /\
  identifier_start (upper_ascii c) = identifier_start c /\
  identifier_part (lower_ascii c) = identifier_part c /\
  identifier_part (upper_ascii c) = identifier_part c.
Proof. destruct c as [[] [] [] [] [] [] [] []]; by vm_compute. Qed.

Lemma all_chars_case s :
  all_chars identifier_part (lower s) = all_chars identifier_part s /\
  all_chars identifier_part (upper s) = all_chars identifier_part s.
Proof.
  unfold lower, upper. induction s as [|c s [IH1 IH2]]; simpl; [done|].
  destruct (identifier_start_case c) as (_ & _ & -> & ->). by rewrite IH1, IH2.
Qed.

Lemma identifier_lower s : identifier (lower s) = identifier s.
Proof.
  destruct s as [|c s]; [done|].
  change (lower (String c s)) with (String (lower_ascii c) (lower s)).
  cbn [identifier].
  destruct (identifier_start_case c) as (-> & _).
  by rewrite (proj1 (all_chars_case s)).
Qed.

Lemma identifier_upper s : identifier (upper s) = identifier s.
Proof.
  destruct s as [|c s]; [done|].
  change (upper (String c s)) with (String (upper_ascii c) (upper s)).
  cbn [identifier].
  destruct (identifier_start_case c) as (_ & -> & _).
  by rewrite (proj2 (all_chars_case s)).
Qed.

Lemma put_pixel_document {P : Primitives} (x y r g b a : Z) (h : App) :
  activeDocument (put_pixel x y r g b a h) =
  (fun doc => match activeImage doc with
              | Some img => if in_bounds img x y
                            then drawn doc (putPixel img x y (rgba r g b a)) else doc
              | None => doc
              end) <$> activeDocument h.
Proof.
  unfold put_pixel. destruct (activeDocument h) as [doc|] eqn:Hdoc; simpl; [|done].
  destruct (activeImage doc) as [img|]; simpl; [|done].
  by destruct (in_bounds img x y).
Qed.

Section More.
Context {P : Primitives}.

(** X10.  The sprite report lists, after seven header lines, one line per
    layer in index order, and changes nothing but the console. *)
Theorem get_sprite_info_report (h : App) doc :
  activeDocument h = Some doc ->
  activeDocument (get_sprite_info h) = Some doc /\
  parameters (get_sprite_info h) = parameters h /\
  console (get_sprite_info h) =
    console h ++
    ["=== SPRITE INFO ===";
     "Dimensions: " ++ str_int (sprite_width (sprite doc)) ++ "x"
                    ++ str_int (sprite_height (sprite doc));
     "Color Mode: " ++ colorMode (sprite doc);
     "Layer Count: " ++ str_int (layerCount (sprite doc));
     "Current Layer: " ++ str_int (activeLayerNumber doc);
     "Current Frame: " ++ str_int (activeFrameNumber doc);
     "--- LAYER DETAILS ---"]%string
    ++ imap layer_line (layers (sprite doc)) /\
  Z.of_nat (length (console (get_sprite_info h)))
    = Z.of_nat (length (console h)) + 7 + layerCount (sprite doc).
Proof.
  intros Hdoc. rewrite (get_sprite_info_run h doc Hdoc). simpl.
  split_and!; try done.
  rewrite length_app. simpl. rewrite length_imap. unfold layerCount. lia.
Qed.

(** X11.  The switch-layer script never switches: whatever the index, the
    document (its active layer number included) and the parameter set are
    as before; for an index in range the script names the layer at the
    index and then prints the active layer number, which is the old one. *)
Theorem set_active_layer_never_switches (n : Z) (h : App) :
  activeDocument (set_active_layer n h) = activeDocument h /\
  parameters (set_active_layer n h) = parameters h /\
  forall doc l, activeDocument h = Some doc -> layer (sprite doc) n = Some l ->
    0 <= n < layerCount (sprite doc) /\
    console (set_active_layer n h) = console h ++
      [("Switching to layer " ++ str_int n ++ ": " ++ dq ++ name l ++ dq)%string;
       "Note: Layer switching via script may be limited. Use UI to switch layers."%string;
       ("Current active layer: " ++ str_int (activeLayerNumber doc))%string].
Proof.
  destruct (set_active_layer_run n h) as (new & _ & Hrun).
  split_and!; [by rewrite Hrun..|].
  intros doc l Hdoc Hl.
  assert (Hn : 0 <= n < layerCount (sprite doc)).
  { unfold layer, layerCount in *. destruct (Z.ltb_spec n 0); [done|].
    apply lookup_lt_Some in Hl. lia. }
  split; [done|].
  unfold set_active_layer. rewrite Hdoc. cbv zeta.
  replace ((0 <=? n) && (n <? layerCount (sprite doc))) with true
    by (symmetry; apply andb_true_iff; lia).
  rewrite Hl. unfold log. simpl. by rewrite <- !app_assoc.
Qed.

(** X15.  A drawing script that ends changes pixels only: the sprite, the
    layer and frame cursor, the parameter set and the dimensions of the
    surface are as before, and the console has one more line. *)
Theorem drawing_scripts_change_pixels_only
        (fuel : nat) (op : Operation) (h h' : App) doc img :
  touches_pixels op = true ->
  activeDocument h = Some doc -> activeImage doc = Some img ->
  run fuel op h = Some h' ->
  parameters h' = parameters h /\
  (exists line, console h' = console h ++ [line]) /\
  exists img', activeDocument h' = Some (drawn doc img') /\
               width img' = width img /\ height img' = height img.
Proof.
  intros Hop Hdoc Himg Hrun.
  destruct (pixel_script_frame fuel op h h' doc img Hop Hdoc Himg Hrun)
    as (img' & line & -> & Hw & Hh).
  split_and!; [done|by exists line|by exists img'].
Qed.

(** X16.  Filling the layer hides whatever a drawing script did before it:
    the picture is the one the fill alone gives. *)
Theorem fill_layer_overrides_drawing (fuel : nat) (op : Operation) (h h' : App)
        (r g b a : Z) :
  touches_pixels op = true -> run fuel op h = Some h' ->
  same_picture (fill_layer r g b a h') (fill_layer r g b a h).
Proof.
  intros Hop Hrun.
  assert (Hcreate : creates_document op = false) by (by destruct op).
  assert (Hvalid : valid_parameters op = true) by (by destruct op).
  assert (Hlog : forall line, same_picture (fill_layer r g b a (log line h))
                                           (fill_layer r g b a h)).
  { intros line. unfold same_picture, fill_layer. simpl.
    destruct (activeDocument h) as [doc|] eqn:Hdoc; simpl; rewrite ?Hdoc; [|done].
    destruct (activeImage doc) as [img|] eqn:Himg; simpl; rewrite ?Hdoc, ?Himg; simpl.
    - by split_and!.
    - rewrite ?Himg. by split_and!. }
  destruct (activeDocument h) as [doc|] eqn:Hdoc.
  2:{ rewrite run_without_document in Hrun by done. injection Hrun as <-. apply Hlog. }
  destruct (activeImage doc) as [img|] eqn:Himg.
  2:{ rewrite (run_without_image fuel op h doc) in Hrun by done.
      injection Hrun as <-. apply Hlog. }
  destruct (pixel_script_frame fuel op h h' doc img Hop Hdoc Himg Hrun)
    as (img' & line & -> & Hw & Hh).
  unfold fill_layer, same_picture, same_surface. simpl. rewrite Hdoc, Himg. simpl.
  by split_and!.
Qed.

(** X12.  Create layer with a plain name and the parameter set: when
    [NewLayer] completes the script leaves the parameter set empty, whatever
    it held before; when [NewLayer] throws, the [clearParameters] call is
    skipped and the name stays in the parameter set on top of what was
    there, with one error line printed. *)
Theorem create_layer_parameters (layer_name : string) (h : App) doc :
  plain layer_name = true ->
  activeDocument h = Some doc ->
  let ps := ("name"%string, VStr layer_name) :: parameters h in
  exists h',
    create_layer layer_name h = Some h' /\
    match NewLayer ps doc with
    | Completed doc' =>
        parameters h' = [] /\
        activeDocument h' = Some doc' /\
        console h' = console h ++
          [("Created new layer: " ++ layer_name)%string;
           ("Sprite now has " ++ str_int (layerCount (sprite doc')) ++ " layer(s)")%string]
    | Raised message doc' =>
        parameters h' = ps /\
        activeDocument h' = Some doc' /\
        console h' = console h ++ [("Error creating layer: " ++ message)%string]
    end.
Proof.
  intros Hplain Hdoc ps. unfold create_layer. rewrite Hplain, Hdoc. cbv zeta. simpl. fold ps.
  destruct (NewLayer ps doc); eexists; (split; [reflexivity|]); simpl; split_and!; try done.
  by rewrite <- app_assoc.
Qed.

(** X13.  The colour mode is upper-cased: names that differ only in the case
    of ASCII letters give the same script text and the same parameters. *)
Theorem create_sprite_mode_case_insensitive (w h : Z) (m : string) (app : App) :
  ScriptTemplates.create_sprite w h (lower m) = ScriptTemplates.create_sprite w h m /\
  ScriptTemplates.create_sprite w h (upper m) = ScriptTemplates.create_sprite w h m /\
  create_sprite w h (lower m) app = create_sprite w h m app /\
  create_sprite w h (upper m) app = create_sprite w h m app.
Proof.
  unfold ScriptTemplates.create_sprite, create_sprite.
  by rewrite upper_lower, upper_upper, identifier_lower, identifier_upper.
Qed.

(** X1.  Two put-pixel scripts at different coordinates give the same
    picture in either order; at the same coordinates the later one wins. *)
Theorem put_pixel_order (x1 y1 r1 g1 b1 a1 x2 y2 r2 g2 b2 a2 : Z) (h : App) :
  ((x1, y1) <> (x2, y2) ->
   same_picture (put_pixel x2 y2 r2 g2 b2 a2 (put_pixel x1 y1 r1 g1 b1 a1 h))
                (put_pixel x1 y1 r1 g1 b1 a1 (put_pixel x2 y2 r2 g2 b2 a2 h))) /\
  same_picture (put_pixel x1 y1 r2 g2 b2 a2 (put_pixel x1 y1 r1 g1 b1 a1 h))
               (put_pixel x1 y1 r2 g2 b2 a2 h).
Proof.
  unfold same_picture, same_surface. rewrite !put_pixel_document.
  destruct (activeDocument h) as [doc|]; simpl; [|done].
  destruct (activeImage doc) as [img|] eqn:Himg; simpl.
  2:{ rewrite Himg. simpl. by rewrite Himg. }
  assert (Hb : forall x y x' y' c, in_bounds (putPixel img x y c) x' y' = in_bounds img x' y')
    by done.
  split.
  - intros Hne.
    destruct (in_bounds img x1 y1) eqn:H1, (in_bounds img x2 y2) eqn:H2;
      simpl; rewrite ?Himg, ?Hb, ?H1, ?H2; simpl; rewrite ?Himg; split_and!; try done.
    all: intros x y; unfold getPixel; simpl.
    all: destruct (Z.eqb_spec x x1), (Z.eqb_spec y y1), (Z.eqb_spec x x2), (Z.eqb_spec y y2);
      simpl; congruence.
  - destruct (in_bounds img x1 y1) eqn:H1; simpl; rewrite ?Himg, ?Hb, ?H1; simpl;
      rewrite ?Himg; split_and!; try done.
    all: intros x y; unfold getPixel; simpl; by destruct ((x =? x1) && (y =? y1)).
Qed.

End More.

(** ** Shapes *)

Lemma empty_if_no_element {A} (l : list A) : (forall x, x ∉ l) -> l = [].
Proof. destruct l as [|a l]; [done|]. intros H. destruct (H a). by left. Qed.

Lemma NoDup_reverse {A} (l : list A) : NoDup l -> NoDup (reverse l).
Proof. intros Hl. by rewrite reverse_Permutation. Qed.

Lemma elem_of_outline_points_any x y w h W H p :
  p ∈ outline_points x y w h W H <->
  (0 <= p.1 < W /\ 0 <= p.2 < H) /\
  ((x <= p.1 < x + w /\ (p.2 = y \/ p.2 = y + h - 1)) \/
   (y <= p.2 < y + h /\ (p.1 = x \/ p.1 = x + w - 1))).
Proof.
  unfold outline_points.
  rewrite elem_of_app, !elem_of_flat_map.
  setoid_rewrite elem_of_seqZ.
  setoid_rewrite elem_of_outline_column.
  setoid_rewrite elem_of_outline_row.
  split.
  - intros [(px & ? & ?)|(py & ? & ?)]; lia.
  - intros (? & [?|?]); [left; exists p.1|right; exists p.2]; lia.
Qed.

Lemma Qceiling_half w : Qceiling (w # 2) = (w + 1) `div` 2.
Proof.
  unfold Qceiling, Qfloor. simpl.
  pose proof (Z.div_mod (- w) 2 ltac:(lia)).
  pose proof (Z.mod_pos_bound (- w) 2 ltac:(lia)).
  pose proof (Z.div_mod (w + 1) 2 ltac:(lia)).
  pose proof (Z.mod_pos_bound (w + 1) 2 ltac:(lia)).
  lia.
Qed.

Section Shapes.
Context {P : Primitives}.

(** X2.  Rectangle, filled mode: the script writes each pixel of the
    rectangle that lies on the surface exactly once and no other pixel; a
    rectangle of non-positive width or height writes nothing; a rectangle
    on the surface gets [w * h] writes. *)
Theorem draw_rectangle_filled_exact (x y w h r g b a : Z) (app : App) doc img :
  activeDocument app = Some doc -> activeImage doc = Some img ->
  exists img' written,
    draw_rectangle x y w h r g b a true app =
      log ("Drew filled rectangle at (" ++ str_int x ++ "," ++ str_int y ++ ") size "
           ++ str_int w ++ "x" ++ str_int h) (set_image img' doc app) /\
    puts img' = written ++ puts img /\ NoDup written /\
    (forall p, p ∈ written <->
               (x <= p.1 < x + w /\ y <= p.2 < y + h) /\ in_bounds img p.1 p.2 = true) /\
    (forall px py, getPixel img' px py =
                   if decide ((px, py) ∈ written) then rgba r g b a
                   else getPixel img px py) /\
    (w <= 0 \/ h <= 0 -> written = []) /\
    (0 <= x -> x + w <= width img -> 0 <= y -> y + h <= height img ->
     0 <= w -> 0 <= h -> Z.of_nat (length written) = w * h).
Proof.
  intros Hdoc Himg.
  set (pts := grid_points (fun _ _ => true) x (x + w) y (y + h) (width img) (height img)).
  assert (Hin : forall p, p ∈ reverse pts <->
            (x <= p.1 < x + w /\ y <= p.2 < y + h) /\ in_bounds img p.1 p.2 = true).
  { intros p. unfold pts. rewrite elem_of_reverse, elem_of_grid_points, in_bounds_true. tauto. }
  exists (put_all img pts (rgba r g b a)), (reverse pts).
  split_and!.
  - unfold draw_rectangle. rewrite Hdoc, Himg. simpl. by rewrite rectangle_fill_put_all.
  - apply put_all_puts.
  - apply NoDup_reverse, NoDup_grid_points.
  - exact Hin.
  - intros px py. rewrite put_all_getPixel.
    repeat case_decide; try done; rewrite elem_of_reverse in *; done.
  - intros Hempty. apply empty_if_no_element. intros p Hp. apply Hin in Hp. lia.
  - intros Hx0 Hx1 Hy0 Hy1 Hw Hh. rewrite length_reverse. unfold pts, grid_points.
    rewrite (length_flat_map_const _ _ (Z.to_nat w)).
    + rewrite length_seqZ. lia.
    + intros py Hpy. apply elem_of_seqZ in Hpy.
      rewrite (length_flat_map_const _ _ 1%nat).
      * rewrite length_seqZ. lia.
      * intros px Hpx. apply elem_of_seqZ in Hpx. unfold grid_cell.
        replace ((0 <=? px) && (px <? width img) && (0 <=? py) && (py <? height img))
          with true; [done|].
        symmetry. rewrite !andb_true_iff. lia.
Qed.

(** X3.  Rectangle, outline mode, any width and height: a pixel is written
    exactly when it is on the surface and either its column is within
    [x, x+w) and its row is [y] or [y+h-1], or its row is within [y, y+h)
    and its column is [x] or [x+w-1].  So nothing is written when both
    dimensions are non-positive, while a rectangle of height 0 and positive
    width gets the two rows [y-1] and [y] drawn. *)
Theorem draw_rectangle_outline_any_size (x y w h r g b a : Z) (app : App) doc img :
  activeDocument app = Some doc -> activeImage doc = Some img ->
  exists img' written,
    draw_rectangle x y w h r g b a false app =
      log ("Drew outlined rectangle at (" ++ str_int x ++ "," ++ str_int y ++ ") size "
           ++ str_int w ++ "x" ++ str_int h) (set_image img' doc app) /\
    puts img' = written ++ puts img /\
    (forall p, p ∈ written <->
       in_bounds img p.1 p.2 = true /\
       ((x <= p.1 < x + w /\ (p.2 = y \/ p.2 = y + h - 1)) \/
        (y <= p.2 < y + h /\ (p.1 = x \/ p.1 = x + w - 1)))) /\
    (w <= 0 -> h <= 0 -> written = []) /\
    (h = 0 -> forall px, x <= px < x + w ->
       (in_bounds img px y = true -> (px, y) ∈ written) /\
       (in_bounds img px (y - 1) = true -> (px, y - 1) ∈ written)).
Proof.
  intros Hdoc Himg.
  set (pts := outline_points x y w h (width img) (height img)).
  assert (Hin : forall p, p ∈ reverse pts <->
       in_bounds img p.1 p.2 = true /\
       ((x <= p.1 < x + w /\ (p.2 = y \/ p.2 = y + h - 1)) \/
        (y <= p.2 < y + h /\ (p.1 = x \/ p.1 = x + w - 1)))).
  { intros p. unfold pts.
    by rewrite elem_of_reverse, elem_of_outline_points_any, in_bounds_true. }
  exists (put_all img pts (rgba r g b a)), (reverse pts).
  split_and!.
  - unfold draw_rectangle. rewrite Hdoc, Himg. simpl. by rewrite rectangle_outline_put_all.
  - apply put_all_puts.
  - exact Hin.
  - intros Hw Hh. apply empty_if_no_element. intros p Hp. apply Hin in Hp. lia.
  - intros -> px Hpx. split; intros Hb; apply Hin; simpl; (split; [done|]); left; lia.
Qed.

(** X4.  Circle: whatever the host's distance test answers, the script
    writes only pixels of the square [cx-radius .. cx+radius] x
    [cy-radius .. cy+radius] that lie on the surface, namely those that
    pass the test, each once; with a negative radius it writes nothing and
    still prints its confirmation. *)
Theorem draw_circle_within_square (cx cy radius r g b a : Z) (filled : bool)
        (app : App) doc img :
  activeDocument app = Some doc -> activeImage doc = Some img ->
  exists img' written,
    draw_circle cx cy radius r g b a filled app =
      log ("Drew " ++ (if filled then "filled" else "outlined") ++ " circle at ("
           ++ str_int cx ++ "," ++ str_int cy ++ ") radius " ++ str_int radius)
          (set_image img' doc app) /\
    puts img' = written ++ puts img /\ NoDup written /\
    (forall p, p ∈ written <->
       (cx - radius <= p.1 <= cx + radius /\ cy - radius <= p.2 <= cy + radius) /\
       in_bounds img p.1 p.2 = true /\
       circle_test filled (p.1 - cx) (p.2 - cy) radius = true) /\
    (forall px py, getPixel img' px py =
                   if decide ((px, py) ∈ written) then rgba r g b a
                   else getPixel img px py) /\
    (radius < 0 -> written = [] /\ forall px py, getPixel img' px py = getPixel img px py).
Proof.
  intros Hdoc Himg.
  set (pts := grid_points (fun px py => circle_test filled (px - cx) (py - cy) radius)
                (cx - radius) (cx + radius + 1) (cy - radius) (cy + radius + 1)
                (width img) (height img)).
  assert (Hin : forall p, p ∈ reverse pts <->
       (cx - radius <= p.1 <= cx + radius /\ cy - radius <= p.2 <= cy + radius) /\
       in_bounds img p.1 p.2 = true /\
       circle_test filled (p.1 - cx) (p.2 - cy) radius = true).
  { intros p. unfold pts. rewrite elem_of_reverse, elem_of_grid_points, in_bounds_true.
    split; intros (? & ? & ?); split_and!; try done; lia. }
  assert (Hpix : forall px py, getPixel (put_all img pts (rgba r g b a)) px py =
                   if decide ((px, py) ∈ reverse pts) then rgba r g b a
                   else getPixel img px py).
  { intros px py. rewrite put_all_getPixel.
    repeat case_decide; try done; rewrite elem_of_reverse in *; done. }
  exists (put_all img pts (rgba r g b a)), (reverse pts).
  split_and!.
  - unfold draw_circle. rewrite Hdoc, Himg. cbv zeta.
    by rewrite (grid_loops_put_all
                  (fun px py => circle_test filled (px - cx) (py - cy) radius) _
                  (rgba r g b a)).
  - apply put_all_puts.
  - apply NoDup_reverse, NoDup_grid_points.
  - exact Hin.
  - exact Hpix.
  - intros Hneg.
    assert (Hnil : reverse pts = []).
    { apply empty_if_no_element. intros p Hp. apply Hin in Hp. lia. }
    split; [done|]. intros px py. rewrite Hpix, Hnil. by rewrite decide_False by apply not_elem_of_nil.
Qed.

(** X5.  Ellipse: whatever the host's test answers, the script writes only
    pixels of the box [cx - ceil(w/2) .. cx + ceil(w/2)] x
    [cy - ceil(h/2) .. cy + ceil(h/2)] that lie on the surface, namely those
    that pass the test, each once; a width or height of -2 or less writes
    nothing. *)
Theorem draw_ellipse_within_box (cx cy w h r g b a : Z) (filled : bool)
        (app : App) doc img :
  activeDocument app = Some doc -> activeImage doc = Some img ->
  let half_w := (w + 1) `div` 2 in
  let half_h := (h + 1) `div` 2 in
  exists img' written,
    draw_ellipse cx cy w h r g b a filled app =
      log ("Drew " ++ (if filled then "filled" else "outlined") ++ " ellipse at ("
           ++ str_int cx ++ "," ++ str_int cy ++ ") size "
           ++ str_int w ++ "x" ++ str_int h)
          (set_image img' doc app) /\
    puts img' = written ++ puts img /\ NoDup written /\
    (forall p, p ∈ written <->
       (cx - half_w <= p.1 <= cx + half_w /\ cy - half_h <= p.2 <= cy + half_h) /\
       in_bounds img p.1 p.2 = true /\
       ellipse_test filled (p.1 - cx) (p.2 - cy) w h = true) /\
    (forall px py, getPixel img' px py =
                   if decide ((px, py) ∈ written) then rgba r g b a
                   else getPixel img px py) /\
    (w <= -2 \/ h <= -2 -> written = []).
Proof.
  intros Hdoc Himg half_w half_h.
  set (pts := grid_points (fun px py => ellipse_test filled (px - cx) (py - cy) w h)
                (cx - half_w) (cx + half_w + 1) (cy - half_h) (cy + half_h + 1)
                (width img) (height img)).
  assert (Hin : forall p, p ∈ reverse pts <->
       (cx - half_w <= p.1 <= cx + half_w /\ cy - half_h <= p.2 <= cy + half_h) /\
       in_bounds img p.1 p.2 = true /\
       ellipse_test filled (p.1 - cx) (p.2 - cy) w h = true).
  { intros p. unfold pts. rewrite elem_of_reverse, elem_of_grid_points, in_bounds_true.
    split; intros (? & ? & ?); split_and!; try done; lia. }
  exists (put_all img pts (rgba r g b a)), (reverse pts).
  split_and!.
  - unfold draw_ellipse. rewrite Hdoc, Himg. cbv zeta.
    rewrite !Qceiling_half. fold half_w half_h.
    by rewrite (grid_loops_put_all
                  (fun px py => ellipse_test filled (px - cx) (py - cy) w h) _
                  (rgba r g b a)).
  - apply put_all_puts.
  - apply NoDup_reverse, NoDup_grid_points.
  - exact Hin.
  - intros px py. rewrite put_all_getPixel.
    repeat case_decide; try done; rewrite elem_of_reverse in *; done.
  - intros Hneg. apply empty_if_no_element. intros p Hp. apply Hin in Hp.
    assert (half_w <= -1 \/ half_h <= -1); [|lia].
    unfold half_w, half_h.
    destruct Hneg; [left|right]; apply Z.lt_succ_r, Z.div_lt_upper_bound; lia.
Qed.

End Shapes.

(** ** Lines of any thickness *)

Lemma line_path_exists (x1 y1 x2 y2 : Z) :
  let n := Z.max (Z.abs (x2 - x1)) (Z.abs (y2 - y1)) in
  exists path,
    head path = Some (x1, y1) /\ last path = Some (x2, y2) /\
    forall fuel, (Z.to_nat n < fuel)%nat ->
      line_walk fuel x2 y2 (Z.abs (x2 - x1)) (Z.abs (y2 - y1))
                (if x1 <? x2 then 1 else -1) (if y1 <? y2 then 1 else -1)
                x1 y1 (Z.abs (x2 - x1) - Z.abs (y2 - y1)) = Some path.
Proof.
  intros n.
  destruct (walk_from x1 y1 x2 y2 (S (Z.to_nat n)) 0 0) as
      (path & Hwalk & _ & Hhead & Hlast & _ & _).
  { lia. } { lia. }
  { split; intros; rewrite ?Z.mul_0_l; lia. }
  { fold n. destruct (_ <=? _); unfold n; lia. }
  rewrite !Z.mul_0_r, !Z.mul_0_l, !Z.add_0_r, !Z.sub_0_r in *.
  exists path. split_and!; try done.
  intros fuel Hfuel. apply (line_walk_mono (S (Z.to_nat n))); [lia|done].
Qed.

Lemma stamp_points_negative thickness W H p : thickness < 0 -> stamp_points thickness W H p = [].
Proof.
  intros Ht. unfold stamp_points.
  change (Qfloor (thickness # 2)) with (thickness `div` 2).
  rewrite seqZ_nil; [done|].
  assert (thickness `div` 2 < 0) by (apply Z.div_lt_upper_bound; lia). lia.
Qed.

Lemma stamp_points_zero W H p : stamp_points 0 W H p = stamp_points 1 W H p.
Proof.
  rewrite stamp_points_thin. destruct p as [x y]. unfold stamp_points. cbn [fst snd].
  change (Qfloor (0 # 2)) with 0. change (seqZ (- 0) (0 + 1 - - 0)) with [0].
  simpl. unfold stamp_offset. rewrite !Z.add_0_r, !app_nil_r.
  by destruct (_ && _ && _ && _).
Qed.

Lemma flat_map_pointwise {A B} (f g : A -> list B) (l : list A) :
  (forall a, f a = g a) -> flat_map f l = flat_map g l.
Proof. intros Hfg. induction l as [|a l IH]; simpl; [done|]. by rewrite Hfg, IH. Qed.

Lemma flat_map_empty {A B} (f : A -> list B) (l : list A) :
  (forall a, f a = []) -> flat_map f l = [].
Proof. intros Hf. induction l as [|a l IH]; simpl; [done|]. by rewrite Hf, IH. Qed.

Section Lines.
Context {P : Primitives}.

Lemma draw_line_run (fuel : nat) (x1 y1 x2 y2 r g b a thickness : Z) (app : App)
      doc img path :
  activeDocument app = Some doc -> activeImage doc = Some img ->
  line_walk fuel x2 y2 (Z.abs (x2 - x1)) (Z.abs (y2 - y1))
            (if x1 <? x2 then 1 else -1) (if y1 <? y2 then 1 else -1)
            x1 y1 (Z.abs (x2 - x1) - Z.abs (y2 - y1)) = Some path ->
  draw_line fuel x1 y1 x2 y2 r g b a thickness app =
    Some (log ("Drew line from (" ++ str_int x1 ++ "," ++ str_int y1 ++ ") to ("
               ++ str_int x2 ++ "," ++ str_int y2 ++ ") thickness "
               ++ str_int thickness)
              (set_image
                 (put_all img (flat_map (stamp_points thickness (width img) (height img)) path)
                          (rgba r g b a)) doc app)).
Proof.
  intros Hdoc Himg Hwalk. unfold draw_line. rewrite Hdoc, Himg. cbv zeta.
  rewrite line_loop_walk, Hwalk. simpl. by rewrite line_stamps.
Qed.

(** X6.  Line, thickness 0 or more: when the loop has ended, both end
    points carry the line colour if they lie on the surface. *)
Theorem draw_line_covers_endpoints (x1 y1 x2 y2 r g b a thickness : Z) (app : App)
        doc img (fuel : nat) :
  activeDocument app = Some doc -> activeImage doc = Some img ->
  0 <= thickness ->
  (Z.to_nat (Z.max (Z.abs (x2 - x1)) (Z.abs (y2 - y1))) < fuel)%nat ->
  exists img',
    draw_line fuel x1 y1 x2 y2 r g b a thickness app =
      Some (log ("Drew line from (" ++ str_int x1 ++ "," ++ str_int y1 ++ ") to ("
                 ++ str_int x2 ++ "," ++ str_int y2 ++ ") thickness "
                 ++ str_int thickness)
                (set_image img' doc app)) /\
    (in_bounds img x1 y1 = true -> getPixel img' x1 y1 = rgba r g b a) /\
    (in_bounds img x2 y2 = true -> getPixel img' x2 y2 = rgba r g b a).
Proof.
  intros Hdoc Himg Ht Hfuel.
  destruct (line_path_exists x1 y1 x2 y2) as (path & Hhead & Hlast & Hwalk).
  eexists. split; [by apply draw_line_run, Hwalk|].
  assert (Hcover : forall x y, (x, y) ∈ path -> in_bounds img x y = true ->
            getPixel (put_all img (flat_map (stamp_points thickness (width img) (height img))
                                            path) (rgba r g b a)) x y = rgba r g b a).
  { intros x y Hp Hb. rewrite put_all_getPixel, decide_True; [done|].
    apply elem_of_flat_map. exists (x, y). split; [done|].
    apply elem_of_stamp_points. exists 0, 0.
    apply in_bounds_true in Hb.
    assert (0 <= thickness `div` 2) by (apply Z.div_pos; lia).
    rewrite !Z.add_0_r. split_and!; try done; try lia. }
  split; intros Hb; apply Hcover; try done.
  - by apply head_Some_elem_of.
  - by apply last_Some_elem_of.
Qed.

(** X7.  Line, thickness below 1: a negative thickness writes nothing (the
    stamping loops are empty) though the walk is made and the confirmation
    printed; thickness 0 writes what thickness 1 writes. *)
Theorem draw_line_nonpositive_thickness (x1 y1 x2 y2 r g b a : Z) (app : App)
        doc img (fuel : nat) :
  activeDocument app = Some doc -> activeImage doc = Some img ->
  (Z.to_nat (Z.max (Z.abs (x2 - x1)) (Z.abs (y2 - y1))) < fuel)%nat ->
  (forall thickness, thickness < 0 ->
     draw_line fuel x1 y1 x2 y2 r g b a thickness app =
       Some (log ("Drew line from (" ++ str_int x1 ++ "," ++ str_int y1 ++ ") to ("
                  ++ str_int x2 ++ "," ++ str_int y2 ++ ") thickness "
                  ++ str_int thickness)
                 (set_image img doc app))) /\
  exists img',
    draw_line fuel x1 y1 x2 y2 r g b a 0 app =
      Some (log ("Drew line from (" ++ str_int x1 ++ "," ++ str_int y1 ++ ") to ("
                 ++ str_int x2 ++ "," ++ str_int y2 ++ ") thickness 0")
                (set_image img' doc app)) /\
    draw_line fuel x1 y1 x2 y2 r g b a 1 app =
      Some (log ("Drew line from (" ++ str_int x1 ++ "," ++ str_int y1 ++ ") to ("
                 ++ str_int x2 ++ "," ++ str_int y2 ++ ") thickness 1")
                (set_image img' doc app)).
Proof.
  intros Hdoc Himg Hfuel.
  destruct (line_path_exists x1 y1 x2 y2) as (path & _ & _ & Hwalk).
  specialize (Hwalk fuel Hfuel). split.
  - intros thickness Ht.
    rewrite (draw_line_run fuel x1 y1 x2 y2 r g b a thickness app doc img path) by done.
    rewrite flat_map_empty by (intros p; by apply stamp_points_negative).
    done.
  - eexists. split.
    + rewrite (draw_line_run fuel x1 y1 x2 y2 r g b a 0 app doc img path) by done.
      rewrite (flat_map_pointwise _ _ _ (stamp_points_zero _ _)). reflexivity.
    + by rewrite (draw_line_run fuel x1 y1 x2 y2 r g b a 1 app doc img path).
Qed.

End Lines.

(** ** Flood fill and replace colour, composed *)

(** Walking [k] pixels in an axis direction through pixels of colour [t]
    stays in the region. *)
Lemma region_walk img t seed (dx dy : Z) :
  Z.abs dx + Z.abs dy = 1 ->
  forall (k : nat) x y,
    region img t seed (x, y) ->
    (forall i, 0 < i <= Z.of_nat k -> target_at img t (x + dx * i, y + dy * i)) ->
    region img t seed (x + dx * Z.of_nat k, y + dy * Z.of_nat k).
Proof.
  intros Hd. induction k as [|k IH]; intros x y Hreg Hpath.
  - by rewrite !Z.mul_0_r, !Z.add_0_r.
  - apply (region_step _ _ _ (x + dx * Z.of_nat k, y + dy * Z.of_nat k)).
    + apply IH; [done|]. intros i Hi. apply Hpath. lia.
    + unfold adjacent4. simpl.
      assert ((dx = 1 /\ dy = 0) \/ (dx = -1 /\ dy = 0) \/ (dx = 0 /\ dy = 1)
              \/ (dx = 0 /\ dy = -1)) as [[-> ->]|[[-> ->]|[[-> ->]|[-> ->]]]] by lia.
      * left. f_equal; lia.
      * right; left. f_equal; lia.
      * right; right; left. f_equal; lia.
      * right; right; right. f_equal; lia.
    + apply Hpath. lia.
Qed.

(** On a surface of one colour, the region of a seed is the whole surface. *)
Lemma region_uniform img c sx sy px py :
  uniform img c ->
  in_bounds img sx sy = true -> in_bounds img px py = true ->
  region img c (sx, sy) (px, py).
Proof.
  intros Hu Hs Hp.
  assert (Htarget : forall x y, 0 <= x < width img -> 0 <= y < height img ->
            target_at img c (x, y)).
  { intros x y Hx Hy. split; simpl; [by apply in_bounds_true|].
    apply Hu. by apply in_bounds_true. }
  apply in_bounds_true in Hs as [Hsx Hsy], Hp as [Hpx Hpy].
  assert (Hrow : region img c (sx, sy) (px, sy)).
  { set (d := if sx <=? px then 1 else -1).
    assert ((px, sy) = (sx + d * Z.of_nat (Z.to_nat (Z.abs (px - sx))),
                        sy + 0 * Z.of_nat (Z.to_nat (Z.abs (px - sx))))) as ->
      by (unfold d; destruct (Z.leb_spec sx px); f_equal; lia).
    apply region_walk.
    - unfold d. destruct (sx <=? px); lia.
    - constructor. by apply Htarget.
    - intros i Hi. apply Htarget; [|lia]. unfold d. destruct (Z.leb_spec sx px); lia. }
  set (d := if sy <=? py then 1 else -1).
  assert ((px, py) = (px + 0 * Z.of_nat (Z.to_nat (Z.abs (py - sy))),
                      sy + d * Z.of_nat (Z.to_nat (Z.abs (py - sy))))) as ->
    by (unfold d; destruct (Z.leb_spec sy py); f_equal; lia).
  apply region_walk.
  - unfold d. destruct (sy <=? py); lia.
  - done.
  - intros i Hi. apply Htarget; [lia|]. unfold d. destruct (Z.leb_spec sy py); lia.
Qed.

Lemma length_row_major W H : 0 <= W -> 0 <= H ->
  Z.of_nat (length (row_major W H)) = W * H.
Proof.
  intros HW HH. unfold row_major. rewrite length_fmap, length_seqZ. nia.
Qed.

(** A scan that meets no matching pixel returns the state it started with. *)
Lemma replace_fold_no_hit {P : Primitives} old_r old_g old_b newColor l img cnt :
  (forall p, p ∈ l -> ~ matching old_r old_g old_b img p) ->
  fold_left (fun st p => replace_step old_r old_g old_b newColor p.1 p.2 st) l (img, cnt)
  = (img, cnt).
Proof.
  induction l as [|[x y] l IH]; intros Hno; [done|].
  cbn [fold_left fst snd].
  assert (replace_step old_r old_g old_b newColor x y (img, cnt) = (img, cnt)) as ->.
  { unfold replace_step.
    destruct (rgb_matches old_r old_g old_b (getPixel img x y)) eqn:Hm; [|done].
    destruct (Hno (x, y)); [by left|done]. }
  apply IH. intros p Hp. apply Hno. by right.
Qed.

Section Composed.
Context {P : Primitives}.

(** X8.  Flood fill on a surface of one colour: from any seed on the
    surface, with a fill colour other than that colour, the script
    recolours the whole surface and reports width * height pixels. *)
Theorem flood_fill_uniform_surface (x y r g b a c : Z) (app : App) doc img (fuel : nat) :
  activeDocument app = Some doc -> activeImage doc = Some img ->
  in_bounds img x y = true -> uniform img c -> c <> rgba r g b a ->
  (flood_fuel img <= fuel)%nat ->
  exists img',
    flood_fill fuel x y r g b a app =
      Some (log ("Flood fill completed at (" ++ str_int x ++ "," ++ str_int y
                 ++ "), filled " ++ str_int (width img * height img) ++ " pixels")
                (set_image img' doc app)) /\
    width img' = width img /\ height img' = height img /\
    uniform img' (rgba r g b a).
Proof.
  intros Hdoc Himg Hb Hu Hne Hfuel.
  assert (Hseed : getPixel img x y = c) by (by apply Hu).
  destruct (flood_fill_run x y r g b a app doc img fuel Hdoc Himg Hb
              ltac:(by rewrite Hseed) Hfuel) as (img' & ws & Hrun & Hinv).
  pose proof (flood_inv_final _ _ _ _ _ _ Hinv) as Hfinal.
  destruct Hinv as [Hw Hh Hpix _ Hnd _ _ _ _].
  rewrite Hseed in Hfinal.
  assert (Hall : forall p, p ∈ ws <-> in_bounds img p.1 p.2 = true).
  { intros [px py]. rewrite Hfinal. split.
    - intros Hreg. by destruct (region_target _ _ _ _ Hreg).
    - intros Hp. by apply region_uniform. }
  assert (Hlen : Z.of_nat (length ws) = width img * height img).
  { pose proof Hb as Hb'. apply in_bounds_true in Hb'.
    rewrite <- length_row_major by lia. f_equal.
    apply Permutation_length, NoDup_Permutation; [done|apply NoDup_row_major|].
    intros p. by rewrite Hall, elem_of_row_major, in_bounds_true. }
  exists img'. rewrite Hrun, Hlen. split_and!; try done.
  intros px py Hp. rewrite Hpix, decide_True; [done|].
  apply Hall. simpl. unfold in_bounds in *. by rewrite <- Hw, <- Hh.
Qed.

Lemma replace_color_run (old_r old_g old_b new_r new_g new_b new_a : Z) (app : App) doc img :
  activeDocument app = Some doc -> activeImage doc = Some img ->
  let newColor := rgba new_r new_g new_b new_a in
  let hits := filter (matching old_r old_g old_b img)
                     (row_major (width img) (height img)) in
  exists img',
    replace_color old_r old_g old_b new_r new_g new_b new_a app =
      log ("Replaced " ++ str_int (Z.of_nat (length hits)) ++ " pixels from rgba("
           ++ str_int old_r ++ "," ++ str_int old_g ++ "," ++ str_int old_b
           ++ ",*) to rgba(" ++ str_int new_r ++ "," ++ str_int new_g ++ ","
           ++ str_int new_b ++ "," ++ str_int new_a ++ ")")
          (set_image img' doc app) /\
    replace_scan old_r old_g old_b newColor img = (img', Z.of_nat (length hits)) /\
    width img' = width img /\ height img' = height img /\
    forall x y, getPixel img' x y =
                if decide ((x, y) ∈ hits) then newColor else getPixel img x y.
Proof.
  intros Hdoc Himg newColor hits.
  destruct (replace_fold old_r old_g old_b newColor _
              (NoDup_row_major (width img) (height img)) img 0)
    as (Hw & Hh & _ & Hcnt & Hpix).
  fold hits in Hcnt, Hpix.
  assert (Hscan : replace_scan old_r old_g old_b newColor img =
    fold_left (fun st p => replace_step old_r old_g old_b newColor p.1 p.2 st)
              (row_major (width img) (height img)) (img, 0)).
  { unfold replace_scan. apply nested_loops_row_major. }
  rewrite <- Hscan in *.
  destruct (replace_scan old_r old_g old_b newColor img) as [img' n] eqn:Hres.
  simpl in *. exists img'.
  unfold replace_color. rewrite Hdoc, Himg. fold newColor. rewrite Hres.
  subst n. by split_and!.
Qed.

(** X9.  Replace colour, run again with the same arguments: when the new
    colour differs from the old one in red, green or blue, the second run
    finds nothing to replace, reports 0 and leaves the host state as the
    first run left it, but for that line. *)
Theorem replace_color_again_finds_nothing
        {L : PixelColorLaws P}
        (old_r old_g old_b new_r new_g new_b new_a : Z) (app : App) doc img :
  activeDocument app = Some doc -> activeImage doc = Some img ->
  channel new_r -> channel new_g -> channel new_b -> channel new_a ->
  (new_r, new_g, new_b) <> (old_r, old_g, old_b) ->
  let once := replace_color old_r old_g old_b new_r new_g new_b new_a app in
  replace_color old_r old_g old_b new_r new_g new_b new_a once =
    log ("Replaced 0 pixels from rgba("
         ++ str_int old_r ++ "," ++ str_int old_g ++ "," ++ str_int old_b
         ++ ",*) to rgba(" ++ str_int new_r ++ "," ++ str_int new_g ++ ","
         ++ str_int new_b ++ "," ++ str_int new_a ++ ")") once.
Proof.
  intros Hdoc Himg Hr Hg Hb Ha Hne once.
  destruct (replace_color_run old_r old_g old_b new_r new_g new_b new_a app doc img Hdoc Himg)
    as (img' & Hrun & _ & Hw & Hh & Hpix).
  set (newColor := rgba new_r new_g new_b new_a) in *.
  set (scan := row_major (width img) (height img)) in *.
  assert (Hnew : rgb_matches old_r old_g old_b newColor = false).
  { unfold rgb_matches, newColor. rewrite rgbaR_rgba, rgbaG_rgba, rgbaB_rgba by done.
    destruct (Z.eqb_spec new_r old_r), (Z.eqb_spec new_g old_g), (Z.eqb_spec new_b old_b);
      try done. congruence. }
  assert (Hno : forall p, p ∈ scan -> ~ matching old_r old_g old_b img' p).
  { intros [px py] Hp Hm. unfold matching in Hm. simpl in Hm. rewrite Hpix in Hm.
    case_decide as Hhit; [congruence|].
    apply Hhit, list_elem_of_filter. split; [|done].
    unfold matching. simpl. done. }
  unfold once. rewrite Hrun.
  unfold replace_color at 1. simpl. fold newColor.
  unfold replace_scan. rewrite nested_loops_row_major, Hw, Hh. fold scan.
  rewrite replace_fold_no_hit by done. reflexivity.
Qed.

End Composed.

(** ** The further properties on the reference host *)

Lemma get_sprite_info_report_witness :
  console (get_sprite_info Reference.app2) =
    ["=== SPRITE INFO ==="; "Dimensions: 10x10"; "Color Mode: RGB"; "Layer Count: 2";
     "Current Layer: 1"; "Current Frame: 0"; "--- LAYER DETAILS ---";
     layer_line 0 (mkLayer "Background" true true);
     layer_line 1 (mkLayer "Top" true true)]%string.
Proof.
  destruct (get_sprite_info_report Reference.app2
              Reference.document2 eq_refl) as (_ & _ & Hcon & _).
  exact Hcon.
Defined.

Lemma scripts_always_report_witness :
  exists new, new <> [] /\
    console (put_pixel (P := Reference.primitives) 5 5 255 0 0 255 Reference.app10)
    = console Reference.app10 ++ new.
Proof.
  exact (scripts_always_report (P := Reference.primitives) O (OpPutPixel 5 5 255 0 0 255)
           Reference.app10 _ eq_refl eq_refl).
Defined.

Lemma drawing_scripts_change_pixels_only_witness :
  exists img',
    activeDocument (put_pixel (P := Reference.primitives) 5 5 255 0 0 255 Reference.app10)
      = Some (drawn Reference.document10 img') /\
    width img' = 10 /\ height img' = 10.
Proof.
  destruct (drawing_scripts_change_pixels_only (P := Reference.primitives) O
              (OpPutPixel 5 5 255 0 0 255) Reference.app10 _
              Reference.document10 Reference.canvas10 eq_refl eq_refl eq_refl eq_refl)
    as (_ & _ & Himg).
  exact Himg.
Defined.

Lemma fill_layer_overrides_drawing_witness :
  same_picture
    (fill_layer (P := Reference.primitives) 0 0 255 255
       (put_pixel (P := Reference.primitives) 5 5 255 0 0 255 Reference.app10))
    (fill_layer (P := Reference.primitives) 0 0 255 255 Reference.app10).
Proof.
  exact (fill_layer_overrides_drawing (P := Reference.primitives) O
           (OpPutPixel 5 5 255 0 0 255) Reference.app10 _ 0 0 255 255 eq_refl eq_refl).
Defined.

Lemma create_layer_parameters_witness :
  exists h',
    create_layer (P := Reference.primitives) "Ink"
      (setParameter "width" (VNum 3) Reference.app10) = Some h' /\
    parameters h' = [] /\
    console h' = ["Created new layer: Ink"; "Sprite now has 2 layer(s)"]%string.
Proof.
  destruct (create_layer_parameters (P := Reference.primitives) "Ink"
              (setParameter "width" (VNum 3) Reference.app10) Reference.document10
              eq_refl eq_refl)
    as (h' & Hrun & Hps & _ & Hcon).
  exists h'. split_and!; [exact Hrun | exact Hps | exact Hcon].
Defined.

Lemma draw_rectangle_filled_exact_witness :
  exists img' written,
    activeDocument (draw_rectangle (P := Reference.primitives) 8 8 4 4 255 0 0 255 true
                      Reference.app10) = Some (drawn Reference.document10 img') /\
    puts img' = written ++ [] /\ NoDup written /\
    forall p, p ∈ written <->
              (8 <= p.1 < 12 /\ 8 <= p.2 < 12) /\ in_bounds Reference.canvas10 p.1 p.2 = true.
Proof.
  destruct (draw_rectangle_filled_exact (P := Reference.primitives) 8 8 4 4 255 0 0 255
              Reference.app10 Reference.document10 Reference.canvas10 eq_refl eq_refl)
    as (img' & written & Hrun & Hputs & Hnd & Hin & _).
  exists img', written. rewrite Hrun.
  split_and!; [reflexivity | exact Hputs | exact Hnd | exact Hin].
Defined.

Lemma draw_rectangle_outline_any_size_witness :
  exists img' written,
    activeDocument (draw_rectangle (P := Reference.primitives) 2 5 3 0 255 0 0 255 false
                      Reference.app10) = Some (drawn Reference.document10 img') /\
    puts img' = written ++ [] /\
    (2, 4) ∈ written /\ (2, 5) ∈ written.
Proof.
  destruct (draw_rectangle_outline_any_size (P := Reference.primitives) 2 5 3 0 255 0 0 255
              Reference.app10 Reference.document10 Reference.canvas10 eq_refl eq_refl)
    as (img' & written & Hrun & Hputs & _ & _ & Hflat).
  exists img', written. rewrite Hrun.
  destruct (Hflat eq_refl 2 ltac:(lia)) as [Hy Hy1].
  split_and!; [reflexivity | exact Hputs | exact (Hy1 eq_refl) | exact (Hy eq_refl)].
Defined.

Lemma draw_circle_within_square_witness :
  exists img' written,
    activeDocument (draw_circle (P := Reference.primitives) 5 5 (-1) 255 0 0 255 true
                      Reference.app10) = Some (drawn Reference.document10 img') /\
    console (draw_circle (P := Reference.primitives) 5 5 (-1) 255 0 0 255 true Reference.app10)
      = ["Drew filled circle at (5,5) radius -1"%string] /\
    puts img' = written ++ [] /\ written = [].
Proof.
  destruct (draw_circle_within_square (P := Reference.primitives) 5 5 (-1) 255 0 0 255 true
              Reference.app10 Reference.document10 Reference.canvas10 eq_refl eq_refl)
    as (img' & written & Hrun & Hputs & _ & _ & _ & Hneg).
  exists img', written. rewrite Hrun.
  split_and!; [reflexivity | reflexivity | exact Hputs | exact (proj1 (Hneg ltac:(lia)))].
Defined.

Lemma draw_ellipse_within_box_witness :
  exists img' (written : list (Z * Z)),
    activeDocument (draw_ellipse (P := Reference.primitives) 5 5 4 2 255 0 0 255 true
                      Reference.app10) = Some (drawn Reference.document10 img') /\
    forall p, p ∈ written <->
      (3 <= p.1 <= 7 /\ 4 <= p.2 <= 6) /\ in_bounds Reference.canvas10 p.1 p.2 = true /\
      Reference.ellipse_test true (p.1 - 5) (p.2 - 5) 4 2 = true.
Proof.
  destruct (draw_ellipse_within_box (P := Reference.primitives) 5 5 4 2 255 0 0 255 true
              Reference.app10 Reference.document10 Reference.canvas10 eq_refl eq_refl)
    as (img' & written & Hrun & _ & _ & Hin & _).
  exists img', written. rewrite Hrun. split; [reflexivity | exact Hin].
Defined.

Lemma draw_line_covers_endpoints_witness :
  exists img',
    draw_line (P := Reference.primitives) 6 0 0 5 3 255 0 0 255 3 Reference.app10 =
      Some (log "Drew line from (0,0) to (5,3) thickness 3"
                (set_image img' Reference.document10 Reference.app10)) /\
    getPixel img' 0 0 = Reference.rgba 255 0 0 255 /\
    getPixel img' 5 3 = Reference.rgba 255 0 0 255.
Proof.
  destruct (draw_line_covers_endpoints (P := Reference.primitives) 0 0 5 3 255 0 0 255 3
              Reference.app10 Reference.document10 Reference.canvas10 6
              eq_refl eq_refl ltac:(lia) ltac:(vm_compute; lia))
    as (img' & Hrun & Hstart & Hend).
  exists img'. split_and!; [exact Hrun | exact (Hstart eq_refl) | exact (Hend eq_refl)].
Defined.

Lemma draw_line_nonpositive_thickness_witness :
  draw_line (P := Reference.primitives) 6 0 0 5 3 255 0 0 255 (-2) Reference.app10 =
    Some (log "Drew line from (0,0) to (5,3) thickness -2"
              (set_image Reference.canvas10 Reference.document10 Reference.app10)).
Proof.
  destruct (draw_line_nonpositive_thickness (P := Reference.primitives) 0 0 5 3 255 0 0 255
              Reference.app10 Reference.document10 Reference.canvas10 6
              eq_refl eq_refl ltac:(vm_compute; lia))
    as (Hneg & _).
  exact (Hneg (-2) ltac:(lia)).
Defined.

Lemma flood_fill_uniform_surface_witness :
  let img := Reference.blank 2 2 in
  let doc := mkDocument (sprite Reference.document10) (Some img) 0 0 in
  let app := mkApp (Some doc) [] [] in
  exists img',
    flood_fill (P := Reference.primitives) 17 1 1 255 0 0 255 app =
      Some (log "Flood fill completed at (1,1), filled 4 pixels" (set_image img' doc app)) /\
    uniform img' (Reference.rgba 255 0 0 255).
Proof.
  intros img doc app.
  destruct (flood_fill_uniform_surface (P := Reference.primitives) 1 1 255 0 0 255 0
              app doc img 17 eq_refl eq_refl eq_refl (fun _ _ _ => eq_refl)
              ltac:(discriminate) ltac:(vm_compute; lia))
    as (img' & Hrun & _ & _ & Hu).
  exists img'. split; [exact Hrun | exact Hu].
Defined.

Lemma replace_color_again_finds_nothing_witness :
  let img := mkImage 2 2 (fun _ _ => Reference.rgba 10 20 30 0) [] in
  let doc := mkDocument (sprite Reference.document10) (Some img) 0 0 in
  let app := mkApp (Some doc) [] [] in
  console (replace_color (P := Reference.primitives) 10 20 30 1 2 3 255
             (replace_color (P := Reference.primitives) 10 20 30 1 2 3 255 app))
  = ["Replaced 4 pixels from rgba(10,20,30,*) to rgba(1,2,3,255)";
     "Replaced 0 pixels from rgba(10,20,30,*) to rgba(1,2,3,255)"]%string.
Proof.
  intros img doc app.
  rewrite (replace_color_again_finds_nothing (P := Reference.primitives)
             10 20 30 1 2 3 255 app doc img eq_refl eq_refl
             ltac:(unfold channel; lia) ltac:(unfold channel; lia)
             ltac:(unfold channel; lia) ltac:(unfold channel; lia)
             ltac:(discriminate)).
  reflexivity.
Defined.
